(** * Attendance status derivation: [backend/time_utils.py]

    A shallow embedding of the three functions of [backend/time_utils.py]
    ([calculate_working_hours], [calculate_status], [format_hours]) together
    with the parts of the Python runtime they call: [str.strip],
    [datetime.strptime] for the directives the module uses, [float(...)],
    [round] and binary64 arithmetic.

    Around them, the code that calls them: [get_settings] of
    [backend/db_utils.py], the settings route and the recalculation route of
    [app.py], and the calls that [parse_excel_file] of
    [backend/excel_utils.py] makes for a row.

    Conventions of the embedding.
    - A Python [str] is a [string]; its characters are read as the code points
      0..255.  Code points above 255 are outside the model.
    - A value that may be [None] is an [option].
    - An exception is a value [Raise e] of the [result] type; [try]/[except]
      is [try_except].
    - A finite Python [float] is the rational number it denotes (type [Q], kept
      in lowest terms), rounded to binary64 after every operation.  The two
      zeros are identified, and a Python [int] that meets a float is identified
      with the float of the same value.
    - The interpreter is CPython 3.6 or later (the module uses f-strings), so
      a [time] object is always true; the locale is C or English, so [%p]
      reads AM and PM.
    - What the handlers print is not modelled. *)

From Stdlib Require Import ZArith QArith Qround Qabs Qpower Lqa Lia.
From Stdlib Require Import Ascii String List Bool.
From Stdlib Require Import DecimalString.
From Stdlib Require DecimalZ DecimalPos.
From stdpp Require Import base option strings gmap.

Local Open Scope string_scope.
Local Open Scope Z_scope.

(** ** Exceptions *)

Inductive exn : Set := ValueError | TypeError | OverflowError.

Inductive result (A : Type) : Type :=
| Ok (a : A)
| Raise (e : exn).
Arguments Ok {A} a.
Arguments Raise {A} e.

Definition rbind {A B} (m : result A) (f : A -> result B) : result B :=
  match m with
  | Ok a => f a
  | Raise e => Raise e
  end.

Notation "'do' x <- m ; k" := (rbind m (fun x => k))
  (at level 10, x name, m at level 100, k at level 200).

(** [try: m except: h] runs the handler on every exception. *)
Definition try_except {A} (m : result A) (h : exn -> result A) : result A :=
  match m with
  | Ok a => Ok a
  | Raise e => h e
  end.

(** [except ValueError] lets every other exception through. *)
Definition except_ValueError {A} (m : result A) (h : result A) : result A :=
  try_except m (fun e => match e with ValueError => h | _ => Raise e end).

Definition is_ok {A} (m : result A) : bool :=
  match m with Ok _ => true | Raise _ => false end.

(** ** Characters and [str] methods *)

Definition code (c : ascii) : Z := Z.of_N (N_of_ascii c).

(** [str.isspace] on the code points 0..255 (the class [\s] of [re] is the
    same set). *)
Definition is_space (c : ascii) : bool :=
  let n := code c in
  ((9 <=? n) && (n <=? 13)) || ((28 <=? n) && (n <=? 32))
  || (n =? 133) || (n =? 160).

(** The class [\d] of [re] on the code points 0..255. *)
Definition is_digit (c : ascii) : bool :=
  let n := code c in (48 <=? n) && (n <=? 57).

Definition digit_value (c : ascii) : Z := code c - 48.

Definition in_range (lo hi : ascii) (c : ascii) : bool :=
  (code lo <=? code c) && (code c <=? code hi).

Fixpoint lstrip (s : string) : string :=
  match s with
  | String c r => if is_space c then lstrip r else s
  | EmptyString => EmptyString
  end.

Fixpoint rstrip (s : string) : string :=
  match s with
  | EmptyString => EmptyString
  | String c r =>
      match rstrip r with
      | EmptyString => if is_space c then EmptyString else String c EmptyString
      | r' => String c r'
      end
  end.

Definition strip (s : string) : string := rstrip (lstrip s).

(** [str(x)] for an [x] that is a [str] or [None]. *)
Definition py_str (x : option string) : string :=
  match x with
  | Some s => s
  | None => "None"
  end.

(** Truth value of an [x] that is a [str] or [None]: [None] and the empty
    string are false. *)
Definition truthy (x : option string) : bool :=
  match x with
  | Some (String _ _) => true
  | _ => false
  end.

(** [c.upper()] for the characters whose upper case is a single code point
    below 256 that the module looks at; the module only searches the upper-cased
    text for ['AM'] and ['PM'], and no character outside [a-z] has an upper
    case that contains [A], [M] or [P]. *)
Definition upper_char (c : ascii) : ascii :=
  if in_range "a" "z" c then ascii_of_N (N_of_ascii c - 32) else c.

Fixpoint upper (s : string) : string :=
  match s with
  | EmptyString => EmptyString
  | String c r => String (upper_char c) (upper r)
  end.

(** [sub in s]. *)
Fixpoint contains (sub s : string) : bool :=
  String.prefix sub s ||
  match s with
  | EmptyString => false
  | String _ r => contains sub r
  end.

(** [s.count(c)] for a one-character needle. *)
Fixpoint count_char (c : ascii) (s : string) : Z :=
  match s with
  | EmptyString => 0
  | String c' r => (if Ascii.eqb c c' then 1 else 0) + count_char c r
  end.

(** ** [datetime.strptime]

    [_strptime] turns the format into a regular expression, matches it at the
    start of the data with [re.match] (case-insensitively), and raises
    [ValueError] if nothing matches or if the match stops before the end of the
    data.  A matcher returns every way to match a prefix, in the order in which
    the backtracking engine tries them, so the match [re.match] reports is the
    head of the list. *)

Definition matcher (A : Type) : Type := string -> list (A * string).

(** One character of class [p], read as a digit. *)
Definition one (p : ascii -> bool) : matcher Z := fun s =>
  match s with
  | String c r => if p c then [(digit_value c, r)] else []
  | EmptyString => []
  end.

(** Two characters of classes [p1] and [p2], read as a two-digit number. *)
Definition two (p1 p2 : ascii -> bool) : matcher Z := fun s =>
  match s with
  | String c1 (String c2 r) =>
      if p1 c1 && p2 c2 then [(10 * digit_value c1 + digit_value c2, r)] else []
  | _ => []
  end.

Definition alt {A} (m1 m2 : matcher A) : matcher A := fun s => (m1 s ++ m2 s)%list.

Definition is_char (c : ascii) : ascii -> bool := Ascii.eqb c.

(** A letter under [re.IGNORECASE]. *)
Definition is_letter (lower : ascii) (c : ascii) : bool :=
  Ascii.eqb c lower || Ascii.eqb c (upper_char lower).

(** [(?P<H>2[0-3]|[0-1]\d|\d)] *)
Definition re_H : matcher Z :=
  alt (two (is_char "2") (in_range "0" "3"))
 (alt (two (in_range "0" "1") is_digit) (one is_digit)).

(** [(?P<I>1[0-2]|0[1-9]|[1-9])] *)
Definition re_I : matcher Z :=
  alt (two (is_char "1") (in_range "0" "2"))
 (alt (two (is_char "0") (in_range "1" "9")) (one (in_range "1" "9"))).

(** [(?P<M>[0-5]\d|\d)] *)
Definition re_M : matcher Z :=
  alt (two (in_range "0" "5") is_digit) (one is_digit).

(** [(?P<S>6[0-1]|[0-5]\d|\d)] *)
Definition re_S : matcher Z :=
  alt (two (is_char "6") (in_range "0" "1"))
 (alt (two (in_range "0" "5") is_digit) (one is_digit)).

(** [(?P<p>am|pm)] in the C and English locales; 0 is AM and 1 is PM. *)
Definition re_p : matcher Z := fun s =>
  match s with
  | String c1 (String c2 r) =>
      if is_letter "a" c1 && is_letter "m" c2 then [(0, r)]
      else if is_letter "p" c1 && is_letter "m" c2 then [(1, r)]
      else []
  | _ => []
  end.

(** [(?P<Y>\d\d\d\d)] *)
Definition re_Y : matcher Z := fun s =>
  match s with
  | String a (String b (String c (String d r))) =>
      if is_digit a && is_digit b && is_digit c && is_digit d
      then [(1000 * digit_value a + 100 * digit_value b
             + 10 * digit_value c + digit_value d, r)]
      else []
  | _ => []
  end.

(** [(?P<m>1[0-2]|0[1-9]|[1-9])] *)
Definition re_m : matcher Z := re_I.

(** [(?P<d>3[0-1]|[1-2]\d|0[1-9]|[1-9]| [1-9])] *)
Definition re_d : matcher Z :=
  alt (two (is_char "3") (in_range "0" "1"))
 (alt (two (in_range "1" "2") is_digit)
 (alt (two (is_char "0") (in_range "1" "9"))
 (alt (one (in_range "1" "9"))
      (fun s => match s with
                | String " " r => one (in_range "1" "9") r
                | _ => []
                end)))).

(** [\s+]: greedy, giving characters back one at a time. *)
Fixpoint re_spaces (s : string) : list (unit * string) :=
  match s with
  | String c r => if is_space c then (re_spaces r ++ [(tt, r)])%list else []
  | EmptyString => []
  end.

(** A literal character of the format; [re.IGNORECASE] matters for letters
    only, and the formats of the module have none. *)
Definition re_lit (c : ascii) : matcher unit := fun s =>
  match s with
  | String c' r => if Ascii.eqb c c' then [(tt, r)] else []
  | EmptyString => []
  end.

(** The pieces of a format: a directive [%x], a run of white space (which
    [_strptime] replaces by [\s+]) or a literal character.  A format that ends
    in a lone [%] is an error in Python and is not modelled; the module has
    none. *)
Inductive token : Set :=
| Directive (d : ascii)
| Spaces
| Literal (c : ascii).

Fixpoint tokens (fmt : string) : list token :=
  match fmt with
  | EmptyString => []
  | String "%" (String d r) => Directive d :: tokens r
  | String c r =>
      if is_space c then
        match tokens r with
        | Spaces :: _ as ts => ts
        | ts => Spaces :: ts
        end
      else Literal c :: tokens r
  end.

(** The directives the module uses; any other one is a bad directive. *)
Definition directive_matcher (d : ascii) : option (matcher Z) :=
  if Ascii.eqb d "H" then Some re_H
  else if Ascii.eqb d "I" then Some re_I
  else if Ascii.eqb d "M" then Some re_M
  else if Ascii.eqb d "S" then Some re_S
  else if Ascii.eqb d "p" then Some re_p
  else if Ascii.eqb d "Y" then Some re_Y
  else if Ascii.eqb d "m" then Some re_m
  else if Ascii.eqb d "d" then Some re_d
  else None.

(** The groups of a match: directive and value, in the order of the format. *)
Definition found_dict : Type := list (ascii * Z).

Definition match_token (t : token) : option (matcher found_dict) :=
  match t with
  | Directive d =>
      match directive_matcher d with
      | Some m => Some (fun s => map (fun '(v, r) => ([(d, v)], r)) (m s))
      | None => None
      end
  | Spaces => Some (fun s => map (fun '(_, r) => ([], r)) (re_spaces s))
  | Literal c => Some (fun s => map (fun '(_, r) => ([], r)) (re_lit c s))
  end.

(** Concatenation of regular expressions: the first piece is tried in its
    order of preference, and for each of its matches the rest in theirs. *)
Fixpoint match_tokens (ts : list token) : option (matcher found_dict) :=
  match ts with
  | [] => Some (fun s => [([], s)])
  | t :: ts' =>
      match match_token t, match_tokens ts' with
      | Some m, Some ms =>
          Some (fun s =>
                  flat_map (fun '(f, r) =>
                              map (fun '(fs, r') => ((f ++ fs)%list, r')) (ms r))
                           (m s))
      | _, _ => None
      end
  end.

(** ** [datetime] values *)

Record date : Set := mkdate { d_year : Z; d_month : Z; d_day : Z }.

Record time : Set := mktime { t_hour : Z; t_minute : Z; t_second : Z }.

(** The formats of the module have no [%f], so the microsecond field is 0 in
    every value and is left out. *)
Record datetime : Set := mkdatetime { dt_date : date; dt_time : time }.

Definition is_leap (y : Z) : bool :=
  (y mod 4 =? 0) && (negb (y mod 100 =? 0) || (y mod 400 =? 0)).

Definition days_in_month (y m : Z) : Z :=
  if (m =? 2) && is_leap y then 29
  else nth (Z.to_nat m) [0; 31; 28; 31; 30; 31; 30; 31; 31; 30; 31; 30; 31] 0.

Definition days_before_month (y m : Z) : Z :=
  nth (Z.to_nat m) [0; 0; 31; 59; 90; 120; 151; 181; 212; 243; 273; 304; 334] 0
  + (if (2 <? m) && is_leap y then 1 else 0).

Definition days_before_year (y : Z) : Z :=
  let y := y - 1 in y * 365 + y / 4 - y / 100 + y / 400.

Definition toordinal (d : date) : Z :=
  days_before_year (d_year d) + days_before_month (d_year d) (d_month d)
  + d_day d.

(** [date(year, month, day)] *)
Definition new_date (y m d : Z) : result date :=
  if negb ((1 <=? y) && (y <=? 9999)) then Raise ValueError
  else if negb ((1 <=? m) && (m <=? 12)) then Raise ValueError
  else if negb ((1 <=? d) && (d <=? days_in_month y m)) then Raise ValueError
  else Ok (mkdate y m d).

(** [datetime(year, month, day, hour, minute, second)] *)
Definition new_datetime (y m d hh mm ss : Z) : result datetime :=
  do dd <- new_date y m d;
  if negb ((0 <=? hh) && (hh <=? 23)) then Raise ValueError
  else if negb ((0 <=? mm) && (mm <=? 59)) then Raise ValueError
  else if negb ((0 <=? ss) && (ss <=? 59)) then Raise ValueError
  else Ok (mkdatetime dd (mktime hh mm ss)).

(** [datetime.combine(d, t)] *)
Definition combine (d : date) (t : time) : datetime := mkdatetime d t.

(** Comparison of naive [time] values: the tuples (hour, minute, second). *)
Definition time_lt (a b : time) : bool :=
  (t_hour a <? t_hour b)
  || ((t_hour a =? t_hour b)
      && ((t_minute a <? t_minute b)
          || ((t_minute a =? t_minute b) && (t_second a <? t_second b)))).

Definition time_gt (a b : time) : bool := time_lt b a.

Definition seconds_of_day (t : time) : Z :=
  t_second t + t_minute t * 60 + t_hour t * 3600.

(** [(a - b).total_seconds()], an integer for these values. *)
Definition diff_seconds (a b : datetime) : Z :=
  (toordinal (dt_date a) - toordinal (dt_date b)) * 86400
  + (seconds_of_day (dt_time a) - seconds_of_day (dt_time b)).

(** The loop of [_strptime] over the groups of the match. *)
Definition lookup_group (d : ascii) (f : found_dict) : option Z :=
  snd <$> find (fun '(k, _) => Ascii.eqb k d) f.

Definition group_or (d : ascii) (f : found_dict) (default : Z) : Z :=
  match lookup_group d f with
  | Some v => v
  | None => default
  end.

(** The hour of a [%I] group: without [%p], or with AM, 12 is midnight; with
    PM every hour but 12 is moved to the afternoon. *)
Definition hour_of_I (i : Z) (p : option Z) : Z :=
  match p with
  | Some 1 => if i =? 12 then 12 else i + 12
  | _ => if i =? 12 then 0 else i
  end.

Definition hour_of (f : found_dict) : Z :=
  fold_left (fun h '(k, v) =>
               if Ascii.eqb k "H" then v
               else if Ascii.eqb k "I" then hour_of_I v (lookup_group "p" f)
               else h) f 0.

(** The year is 1900 when the format has no [%Y]; a format with a month and a
    day but no year (29 February becomes 1904) is not used by the module. *)
Definition build_datetime (f : found_dict) : result datetime :=
  new_datetime (group_or "Y" f 1900) (group_or "m" f 1) (group_or "d" f 1)
               (hour_of f) (group_or "M" f 0) (group_or "S" f 0).

(** [datetime.strptime(data, fmt)] for a [data] that is a [str]. *)
Definition strptime (data fmt : string) : result datetime :=
  match match_tokens (tokens fmt) with
  | None => Raise ValueError
  | Some m =>
      match m data with
      | [] => Raise ValueError
      | (f, EmptyString) :: _ => build_datetime f
      | (_, String _ _) :: _ => Raise ValueError
      end
  end.

(** ** Floats

    A finite float is the rational it denotes.  [binary64] is the rounding of
    IEEE 754 double precision, to nearest with ties to even, with gradual
    underflow and overflow to the infinities. *)

Inductive pyfloat : Set :=
| Fin (q : Q)
| PInf
| NInf
| NaN.

Definition pow2 (e : Z) : Q := (2 ^ e)%Q.

(** Rounding of a rational to the nearest integer, ties to the even one. *)
Definition round_half_even (q : Q) : Z :=
  let f := Qfloor q in
  match (q - inject_Z f ?= 1 # 2)%Q with
  | Lt => f
  | Gt => f + 1
  | Eq => if Z.even f then f else f + 1
  end.

(** Rounding towards zero: [int(x)]. *)
Definition truncate (q : Q) : Z :=
  if Qle_bool 0 q then Qfloor q else Qceiling q.

(** The integer [l] with [2^l <= q < 2^(l+1)], for a positive [q]. *)
Definition floor_log2 (q : Q) : Z :=
  let l := Z.log2 (Qnum q) - Z.log2 (Zpos (Qden q)) in
  if Qle_bool (pow2 l) q then l else l - 1.

Definition binary64 (q : Q) : pyfloat :=
  match (q ?= 0)%Q with
  | Eq => Fin 0
  | c =>
      let a := Qabs q in
      let e := Z.max (floor_log2 a - 52) (-1074) in
      let r := (inject_Z (round_half_even (a / pow2 e)) * pow2 e)%Q in
      if Qle_bool (pow2 1024) r
      then match c with Lt => NInf | _ => PInf end
      else Fin (Qred (match c with Lt => - r | _ => r end))
  end.

(** [x / c] and [x * c] for a float [x] and a positive integer constant [c]. *)
Definition float_div (x : pyfloat) (c : positive) : pyfloat :=
  match x with
  | Fin q => binary64 (q / inject_Z (Zpos c))
  | _ => x
  end.

Definition float_mul (x : pyfloat) (c : positive) : pyfloat :=
  match x with
  | Fin q => binary64 (q * inject_Z (Zpos c))
  | _ => x
  end.

(** [x - n] for a float [x] and an integer [n] that converts exactly. *)
Definition float_sub_int (x : pyfloat) (n : Z) : pyfloat :=
  match x with
  | Fin q => binary64 (q - inject_Z n)
  | _ => x
  end.

(** [a < b] and [a > b]; every comparison with a NaN is false. *)
Definition float_lt (a b : pyfloat) : bool :=
  match a, b with
  | NaN, _ | _, NaN => false
  | _, NInf | PInf, _ => false
  | NInf, _ | _, PInf => true
  | Fin x, Fin y => negb (Qle_bool y x)
  end.

Definition float_gt (a b : pyfloat) : bool := float_lt b a.

(** [round(x, ndigits)] for [ndigits >= 0]: the decimal with [ndigits] places
    nearest to the exact value of [x] (ties to even), converted back to a
    float.  Infinities and NaN round to themselves. *)
Definition py_round (x : pyfloat) (ndigits : Z) : pyfloat :=
  match x with
  | Fin q =>
      let p := inject_Z (10 ^ ndigits) in
      binary64 (inject_Z (round_half_even (q * p)) / p)
  | _ => x
  end.

(** [round(x)], an [int]. *)
Definition py_round_int (x : pyfloat) : result Z :=
  match x with
  | Fin q => Ok (round_half_even q)
  | NaN => Raise ValueError
  | _ => Raise OverflowError
  end.

(** [int(x)] *)
Definition py_int (x : pyfloat) : result Z :=
  match x with
  | Fin q => Ok (truncate q)
  | NaN => Raise ValueError
  | _ => Raise OverflowError
  end.

(** [float(n)] for an [int]. *)
Definition float_of_int (n : Z) : result pyfloat :=
  match binary64 (inject_Z n) with
  | Fin q => Ok (Fin q)
  | _ => Raise OverflowError
  end.

(** ** [float(s)] for a [str]

    White space is removed at both ends; an underscore may stand between two
    digits; what is left is a signed [inf], [infinity] or [nan] in any case, or
    a decimal numeral with an optional exponent.  Anything else is a
    [ValueError]. *)

(** The white space that [float] removes: the six characters of C's
    [isspace], and the white space above code point 127 (which [float] first
    turns into blanks).  The separators 28..31 stay. *)
Definition is_float_space (c : ascii) : bool :=
  let n := code c in
  ((9 <=? n) && (n <=? 13)) || (n =? 32) || (n =? 133) || (n =? 160).

Fixpoint float_lstrip (s : string) : string :=
  match s with
  | String c r => if is_float_space c then float_lstrip r else s
  | EmptyString => EmptyString
  end.

Fixpoint float_rstrip (s : string) : string :=
  match s with
  | EmptyString => EmptyString
  | String c r =>
      match float_rstrip r with
      | EmptyString =>
          if is_float_space c then EmptyString else String c EmptyString
      | r' => String c r'
      end
  end.

(** The underscore pass: each one must follow a digit and precede a digit. *)
Fixpoint drop_underscores (prev : ascii) (s : string) : option string :=
  match s with
  | EmptyString => if Ascii.eqb prev "_" then None else Some EmptyString
  | String c r =>
      if Ascii.eqb c "_" then
        if is_digit prev then drop_underscores c r else None
      else if Ascii.eqb prev "_" && negb (is_digit c) then None
      else String c <$> drop_underscores c r
  end.

(** The longest run of digits at the start of [s]: the number they spell
    after the digits of [acc], how many there are, and the rest. *)
Fixpoint take_digits (s : string) (acc : Z) (n : Z) : Z * Z * string :=
  match s with
  | String c r =>
      if is_digit c then take_digits r (10 * acc + digit_value c) (n + 1)
      else (acc, n, s)
  | EmptyString => (acc, n, s)
  end.

(** An optional sign: the factor and the rest. *)
Definition take_sign (s : string) : Z * string :=
  match s with
  | String "-" r => (-1, r)
  | String "+" r => (1, r)
  | _ => (1, s)
  end.

Fixpoint lower_is (pattern s : string) : bool :=
  match pattern, s with
  | EmptyString, EmptyString => true
  | String p pr, String c r => is_letter p c && lower_is pr r
  | _, _ => false
  end.

Definition pow10 (e : Z) : Q := (inject_Z 10 ^ e)%Q.

(** The unsigned decimal numeral [digits [. digits] [e [sign] digits]] with at
    least one digit before the exponent, as an exact rational. *)
Definition parse_decimal (s : string) : option Q :=
  let '(ip, ni, r1) := take_digits s 0 0 in
  let '(mant, nf, r2) :=
    match r1 with
    | String "." r => take_digits r ip 0
    | _ => (ip, 0, r1)
    end in
  if ni + nf =? 0 then None
  else
    match r2 with
    | EmptyString => Some (inject_Z mant * pow10 (- nf))%Q
    | String c r3 =>
        if is_letter "e" c then
          let '(sg, r4) := take_sign r3 in
          match take_digits r4 0 0 with
          | (ex, ne, EmptyString) =>
              if 0 <? ne then Some (inject_Z mant * pow10 (sg * ex - nf))%Q
              else None
          | _ => None
          end
        else None
    end.

Definition float_of_string (s : string) : result pyfloat :=
  match drop_underscores " " (float_rstrip (float_lstrip s)) with
  | None => Raise ValueError
  | Some t =>
      let '(sg, u) := take_sign t in
      if lower_is "inf" u || lower_is "infinity" u
      then Ok (if sg <? 0 then NInf else PInf)
      else if lower_is "nan" u then Ok NaN
      else
        match parse_decimal u with
        | Some q => Ok (binary64 (inject_Z sg * q))
        | None => Raise ValueError
        end
  end.

(** ** The parsers of [time_utils.py] *)

(** [parse_time_simple] (and its copy [parse_time]) inside [calculate_status]:
    the first of four formats that parses gives the time, none gives [None]. *)
Definition formats : list string :=
  ["%I:%M %p"; "%I:%M:%S %p"; "%H:%M:%S"; "%H:%M"].

Fixpoint first_format (fmts : list string) (t_str : string)
  : result (option datetime) :=
  match fmts with
  | [] => Ok None
  | fmt :: rest =>
      except_ValueError (do d <- strptime t_str fmt; Ok (Some d))
                        (first_format rest t_str)
  end.

(** [parse_time_obj] of the break rule returns the [datetime]. *)
Definition parse_time_obj (t_str : option string) : result (option datetime) :=
  first_format formats (strip (py_str t_str)).

Definition parse_time_simple (t_str : option string) : result (option time) :=
  do d <- parse_time_obj t_str; Ok (dt_time <$> d).

(** [parse_time] inside [calculate_working_hours]: the text decides between
    the 12-hour and the 24-hour formats, and the time is put on the date of
    [date_str]. *)
Definition has_meridiem (time_str : string) : bool :=
  contains "AM" (upper time_str) || contains "PM" (upper time_str).

Definition parse_time (time_str : string) (date_str : string) : result datetime :=
  let time_str := strip time_str in
  do time_obj <-
    (if has_meridiem time_str then
       except_ValueError (strptime time_str "%I:%M %p")
                         (strptime time_str "%I:%M:%S %p")
     else if count_char ":" time_str =? 2 then strptime time_str "%H:%M:%S"
     else strptime time_str "%H:%M");
  do date_obj <- strptime date_str "%Y-%m-%d";
  Ok (combine (dt_date date_obj) (dt_time time_obj)).

(** [max(0, r)]: [r] if [r > 0], else the integer 0. *)
Definition max_0 (r : pyfloat) : pyfloat :=
  if float_gt r (Fin 0) then r else Fin 0.

(** [timedelta.total_seconds()] *)
Definition total_seconds (secs : Z) : pyfloat := binary64 (inject_Z secs).

(** ** [calculate_working_hours]

    The message printed by the handler is not modelled. *)
Definition calculate_working_hours (punch_in punch_out : option string)
    (date_str : string) : option pyfloat :=
  if negb (truthy punch_in) || negb (truthy punch_out) then None
  else
    match
      (do punch_in_dt <- parse_time (py_str punch_in) date_str;
       do punch_out_dt <- parse_time (py_str punch_out) date_str;
       let diff := diff_seconds punch_out_dt punch_in_dt in
       let hours := float_div (total_seconds diff) 3600 in
       Ok (max_0 (py_round hours 2)))
    with
    | Ok h => Some h
    | Raise _ => None
    end.

(** ** The settings and the result of [calculate_status] *)

(** A value of the settings dictionary: the text of the [settings] table, or
    an integer as in the defaults of [calculate_status]. *)
Inductive setting_value : Set :=
| SStr (s : string)
| SInt (n : Z).

(** [settings.get(key, default)] *)
Definition settings_get (settings : gmap string setting_value) (key : string)
    (default : setting_value) : setting_value :=
  match settings !! key with
  | Some v => v
  | None => default
  end.

(** [float(v)] *)
Definition py_float (v : setting_value) : result pyfloat :=
  match v with
  | SStr s => float_of_string s
  | SInt n => float_of_int n
  end.

(** [datetime.strptime(v, fmt).time()]; a [v] that is not a [str] is a
    [TypeError]. *)
Definition strptime_time (v : setting_value) (fmt : string) : result time :=
  match v with
  | SStr s => do d <- strptime s fmt; Ok (dt_time d)
  | SInt _ => Raise TypeError
  end.

(** The labels of the ['status'] entry. *)
Inductive status : Set := Absent | Incomplete | Present | Late | HalfDay.

Definition status_label (s : status) : string :=
  match s with
  | Absent => "Absent"
  | Incomplete => "Incomplete"
  | Present => "Present"
  | Late => "Late"
  | HalfDay => "Half Day"
  end.

(** The [result] dictionary. *)
Record classification : Set := mkclassification {
  c_status : status;
  is_late : bool;
  break_duration : pyfloat;
  break_exceeded : bool;
  is_break_outside_window : bool;
  is_early_departure : bool
}.

Definition initial_result : classification :=
  mkclassification Absent false (Fin 0) false false false.

Definition set_status (v : status) (r : classification) : classification :=
  mkclassification v (is_late r) (break_duration r) (break_exceeded r)
                   (is_break_outside_window r) (is_early_departure r).
Definition set_is_late (v : bool) (r : classification) : classification :=
  mkclassification (c_status r) v (break_duration r) (break_exceeded r)
                   (is_break_outside_window r) (is_early_departure r).
Definition set_break_duration (v : pyfloat) (r : classification) : classification :=
  mkclassification (c_status r) (is_late r) v (break_exceeded r)
                   (is_break_outside_window r) (is_early_departure r).
Definition set_break_exceeded (v : bool) (r : classification) : classification :=
  mkclassification (c_status r) (is_late r) (break_duration r) v
                   (is_break_outside_window r) (is_early_departure r).
Definition set_is_break_outside_window (v : bool) (r : classification)
  : classification :=
  mkclassification (c_status r) (is_late r) (break_duration r) (break_exceeded r)
                   v (is_early_departure r).
Definition set_is_early_departure (v : bool) (r : classification)
  : classification :=
  mkclassification (c_status r) (is_late r) (break_duration r) (break_exceeded r)
                   (is_break_outside_window r) v.

(** ** Statements that update the [result] dictionary and may raise

    A computation takes the dictionary and gives a value or an exception
    together with the dictionary as it then is: what was written before an
    exception stays written. *)

Definition M (A : Type) : Type := classification -> result A * classification.

Definition ret {A} (a : A) : M A := fun r => (Ok a, r).

Definition bind {A B} (m : M A) (f : A -> M B) : M B := fun r =>
  match m r with
  | (Ok a, r') => f a r'
  | (Raise e, r') => (Raise e, r')
  end.

Definition lift {A} (x : result A) : M A := fun r => (x, r).

Definition update (f : classification -> classification) : M unit :=
  fun r => (Ok tt, f r).

Definition read {A} (f : classification -> A) : M A := fun r => (Ok (f r), r).

(** [try: m except: h] and [try: m except Exception: h]; the handlers of the
    module do not look at the exception. *)
Definition try_ {A} (m : M A) (h : M A) : M A := fun r =>
  match m r with
  | (Ok a, r') => (Ok a, r')
  | (Raise _, r') => h r'
  end.

Definition when (b : bool) (m : M unit) : M unit := if b then m else ret tt.

Notation "'let!' x <- m ; k" := (bind m (fun x => k))
  (at level 10, x name, m at level 100, k at level 200).
Notation "'exec' m ; k" := (bind m (fun _ => k))
  (at level 10, m at level 100, k at level 200).

(** ** [calculate_status] *)

(** The module also defines [LATE_THRESHOLD_TIME]; no function reads it. *)
Definition LATE_THRESHOLD_TIME : string := "10:00:00".

Definition HALF_DAY_HOURS : pyfloat := Fin 5.

(** A [time] object is true in a condition (Python 3.5 and later), and so is
    a [datetime]; only [None] is false. *)
Definition some_and {A} (o : option A) (p : A -> bool) : bool :=
  match o with
  | Some a => p a
  | None => false
  end.

(** The half-day rule. *)
Definition half_day_rule (working_hours : option pyfloat)
    (in_time out_time : option time) (half_day_threshold : time) : bool :=
  let is_half_day := false in
  let is_half_day :=
    if some_and working_hours (fun w => float_lt w HALF_DAY_HOURS)
    then true else is_half_day in
  let is_half_day :=
    if some_and out_time (fun t => time_lt t half_day_threshold)
    then true else is_half_day in
  let is_half_day :=
    if some_and in_time (fun t => time_gt t half_day_threshold)
    then true else is_half_day in
  is_half_day.

(** The threshold of a rule: the setting, or the default when the setting
    does not parse. *)
Definition threshold_or (v : setting_value) (default : string) : M time :=
  try_ (lift (strptime_time v "%H:%M"))
       (lift (strptime_time (SStr default) "%H:%M")).

(** The [try] block "Check for Late or Early Departure". *)
Definition late_early_rule (punch_in punch_out : option string)
    (standard_start standard_end : setting_value) : M unit :=
  try_
    (let! in_time <- lift (parse_time_simple punch_in);
     let! out_time <- lift (parse_time_simple punch_out);
     exec match in_time with
          | Some in_time =>
              let! start_threshold <- threshold_or standard_start "09:30";
              when (time_gt in_time start_threshold)
                (exec update (set_is_late true);
                 let! st <- read c_status;
                 match st with
                 | Present => update (set_status Late)
                 | _ => ret tt
                 end)
          | None => ret tt
          end;
     match out_time with
     | Some out_time =>
         let! end_threshold <- threshold_or standard_end "18:30";
         when (time_lt out_time end_threshold)
           (update (set_is_early_departure true))
     | None => ret tt
     end)
    (ret tt).

(** The "Check Window Violation" block of the break rule. *)
Definition window_rule (bs be : datetime)
    (std_break_start_str std_break_end_str : setting_value) : M unit :=
  try_
    (let bs_time := dt_time bs in
     let be_time := dt_time be in
     let! std_bs <- lift (strptime_time std_break_start_str "%H:%M");
     let! std_be <- lift (strptime_time std_break_end_str "%H:%M");
     when (time_lt bs_time std_bs || time_gt be_time std_be)
       (update (set_is_break_outside_window true)))
    (ret tt).

(** The block "Check Break". *)
Definition break_rule (break_start break_end : option string)
    (max_break : pyfloat) (std_break_start_str std_break_end_str : setting_value)
  : M unit :=
  when (truthy break_start && truthy break_end)
    (try_
       (let! bs <- lift (parse_time_obj break_start);
        let! be <- lift (parse_time_obj break_end);
        match bs, be with
        | Some bs, Some be =>
            let duration_mins :=
              float_div (total_seconds (diff_seconds be bs)) 60 in
            exec update (set_break_duration (py_round duration_mins 2));
            exec when (float_gt duration_mins max_break)
                   (update (set_break_exceeded true));
            window_rule bs be std_break_start_str std_break_end_str
        | _, _ => ret tt
        end)
       (ret tt)).

(** The part of [calculate_status] after the early return.  [date_str] is
    not used by the function. *)
Definition classify_present (punch_in punch_out : option string)
    (working_hours : option pyfloat) (max_break : pyfloat)
    (standard_start standard_end std_break_start_str std_break_end_str
       half_day_time_str : setting_value)
    (break_start break_end : option string) : M unit :=
  exec (if negb (truthy punch_out) then update (set_status Incomplete)
        else update (set_status Present));
  let! in_time <- lift (parse_time_simple punch_in);
  let! out_time <- lift (parse_time_simple punch_out);
  let! half_day_threshold <- lift (strptime_time half_day_time_str "%H:%M");
  exec when (half_day_rule working_hours in_time out_time half_day_threshold)
         (update (set_status HalfDay));
  exec late_early_rule punch_in punch_out standard_start standard_end;
  break_rule break_start break_end max_break
             std_break_start_str std_break_end_str.

Definition calculate_status (punch_in punch_out : option string)
    (working_hours : option pyfloat) (date_str : string)
    (settings : gmap string setting_value)
    (break_start break_end : option string) : result classification :=
  let standard_start := settings_get settings "standard_start_time" (SStr "09:30") in
  let standard_end := settings_get settings "standard_end_time" (SStr "18:30") in
  do max_break <- py_float (settings_get settings "max_break_duration" (SInt 60));
  let std_break_start_str :=
    settings_get settings "standard_break_start" (SStr "13:00") in
  let std_break_end_str :=
    settings_get settings "standard_break_end" (SStr "14:00") in
  let half_day_time_str := settings_get settings "half_day_time" (SStr "14:00") in
  let result := initial_result in
  if negb (truthy punch_in) then Ok result
  else
    match classify_present punch_in punch_out working_hours max_break
            standard_start standard_end std_break_start_str std_break_end_str
            half_day_time_str break_start break_end result with
    | (Ok _, result) => Ok result
    | (Raise e, _) => Raise e
    end.

(** ** [format_hours] *)

(** [f"{n}"] for an [int]. *)
Definition str_of_int (n : Z) : string :=
  DecimalString.NilZero.string_of_int (Z.to_int n).

(** [" ".join(parts)] *)
Definition join (sep : string) (parts : list string) : string :=
  String.concat sep parts.

(** The hours and minutes that [format_hours] goes on to print. *)
Definition hours_minutes (x : pyfloat) : result (Z * Z) :=
  do hours <- py_int x;
  do minutes <- py_round_int (float_mul (float_sub_int x hours) 60);
  if minutes =? 60 then Ok (hours + 1, 0) else Ok (hours, minutes).

Definition format_hours (decimal_hours : option pyfloat) : result string :=
  match decimal_hours with
  | None => Ok ""
  | Some x =>
      do hm <- hours_minutes x;
      let '(hours, minutes) := hm in
      if (hours =? 0) && (minutes =? 0) then Ok "0h 0m"
      else
        let parts : list string := [] in
        let parts :=
          if 0 <? hours then (parts ++ [(str_of_int hours ++ "h")%string])%list
          else parts in
        let parts :=
          if 0 <? minutes then (parts ++ [(str_of_int minutes ++ "m")%string])%list
          else parts in
        Ok (join " " parts)
  end.

(** ** A summary of the rules

    The functions below say, without exceptions and without the dictionary,
    what the rules of [calculate_status] compute from the parsed times and the
    thresholds.  They are proved equal to the code in the second part. *)

(** A punch or break text as a time, [None] when no format parses. *)
Definition parsed_obj (x : option string) : option datetime :=
  match parse_time_obj x with
  | Ok o => o
  | Raise _ => None
  end.

Definition parsed_time (x : option string) : option time :=
  dt_time <$> parsed_obj x.

(** A threshold setting as a time, [default] when the setting does not parse. *)
Definition threshold (v : setting_value) (default : time) : time :=
  match strptime_time v "%H:%M" with
  | Ok t => t
  | Raise _ => default
  end.

Definition start_threshold (settings : gmap string setting_value) : time :=
  threshold (settings_get settings "standard_start_time" (SStr "09:30"))
            (mktime 9 30 0).

Definition end_threshold (settings : gmap string setting_value) : time :=
  threshold (settings_get settings "standard_end_time" (SStr "18:30"))
            (mktime 18 30 0).

Definition late_of (punch_in : option string)
    (settings : gmap string setting_value) : bool :=
  some_and (parsed_time punch_in) (fun t => time_gt t (start_threshold settings)).

Definition early_of (punch_out : option string)
    (settings : gmap string setting_value) : bool :=
  some_and (parsed_time punch_out) (fun t => time_lt t (end_threshold settings)).

Definition status_of (punch_out : option string) (half late : bool) : status :=
  if half then HalfDay
  else if truthy punch_out then (if late then Late else Present)
  else Incomplete.

(** The window test; it stays false when a bound of the window does not
    parse. *)
Definition window_of (bs be : datetime)
    (settings : gmap string setting_value) : bool :=
  match strptime_time (settings_get settings "standard_break_start" (SStr "13:00"))
                      "%H:%M",
        strptime_time (settings_get settings "standard_break_end" (SStr "14:00"))
                      "%H:%M" with
  | Ok a, Ok b => time_lt (dt_time bs) a || time_gt (dt_time be) b
  | _, _ => false
  end.

(** The minutes of a break before rounding. *)
Definition break_minutes (bs be : datetime) : pyfloat :=
  float_div (total_seconds (diff_seconds be bs)) 60.

Definition classify (punch_in punch_out : option string)
    (working_hours : option pyfloat) (settings : gmap string setting_value)
    (break_start break_end : option string) (max_break : pyfloat)
    (half_day_threshold : time) : classification :=
  let late := late_of punch_in settings in
  let half := half_day_rule working_hours (parsed_time punch_in)
                (parsed_time punch_out) half_day_threshold in
  let st := status_of punch_out half late in
  let early := early_of punch_out settings in
  if truthy break_start && truthy break_end then
    match parsed_obj break_start, parsed_obj break_end with
    | Some bs, Some be =>
        mkclassification st late (py_round (break_minutes bs be) 2)
          (float_gt (break_minutes bs be) max_break)
          (window_of bs be settings) early
    | _, _ => mkclassification st late (Fin 0) false false early
    end
  else mkclassification st late (Fin 0) false false early.

(** The relative error of one rounding is at most 2^-53. *)
Definition unit_roundoff : Q := 1 # 9007199254740992.

(** The number of hundredths of an hour that [calculate_working_hours]
    reports for an elapsed time of [secs] seconds. *)
Definition hundredths (secs : Z) : Z :=
  match float_div (total_seconds secs) 3600 with
  | Fin x => round_half_even (x * inject_Z 100)
  | _ => 0
  end.

(** The text that [format_hours] makes of hours and minutes. *)
Definition render (hours minutes : Z) : string :=
  if (hours =? 0) && (minutes =? 0) then "0h 0m"
  else join " " ((if 0 <? hours then [(str_of_int hours ++ "h")%string] else [])
                 ++ (if 0 <? minutes then [(str_of_int minutes ++ "m")%string]
                     else []))%list.

(** ** The texts that the formats match

    Used to compare the two parsers of the module: [shape ts a] says that the
    text [a] is a concatenation of pieces, one for every piece of the format,
    in order. *)

Fixpoint all_chars (p : ascii -> bool) (s : string) : bool :=
  match s with
  | EmptyString => true
  | String c r => p c && all_chars p r
  end.

(** A digit, or the blank that [%d] allows before a single digit. *)
Definition digitish (c : ascii) : bool := is_digit c || Ascii.eqb c " ".

(** The text that a piece of a format can match. *)
Definition token_shape (t : token) (a : string) : Prop :=
  match t with
  | Directive d =>
      if Ascii.eqb d "p" then
        exists c1 c2,
          a = String c1 (String c2 EmptyString)
          /\ (is_letter "a" c1 || is_letter "p" c1) && is_letter "m" c2 = true
      else all_chars digitish a = true
  | Spaces => all_chars is_space a = true
  | Literal c => a = String c EmptyString
  end.

Fixpoint shape (ts : list token) (a : string) : Prop :=
  match ts with
  | [] => a = EmptyString
  | t :: ts' => exists b c, a = b ++ c /\ token_shape t b /\ shape ts' c
  end.

(** The groups that a match of the format has. *)
Fixpoint keys (ts : list token) : list ascii :=
  match ts with
  | [] => []
  | Directive d :: ts' => d :: keys ts'
  | _ :: ts' => keys ts'
  end.

(** *** Texts of digits, blanks and colons *)

Definition time_char (c : ascii) : bool :=
  is_digit c || is_space c || Ascii.eqb c ":".

(** The pieces that match digits, blanks and colons only. *)
Definition plain_token (t : token) : bool :=
  match t with
  | Directive d => negb (Ascii.eqb d "p")
  | Spaces => true
  | Literal c => Ascii.eqb c ":"
  end.

Fixpoint colons (ts : list token) : Z :=
  match ts with
  | [] => 0
  | Literal ":" :: ts' => 1 + colons ts'
  | _ :: ts' => colons ts'
  end.

(** The fields of a [time] are in range. *)
Definition valid_time (t : time) : Prop :=
  0 <= t_hour t <= 23 /\ 0 <= t_minute t <= 59 /\ 0 <= t_second t <= 59.

(** ** [get_settings] of [db_utils.py]

    The query [SELECT key, value FROM settings] is the argument: [None] when
    anything in the [try] block raises, else the rows in the order the cursor
    gives them.  The application writes the values with [str(value)], so they
    are texts; a [NULL] value is outside the model. *)

Definition default_settings : gmap string setting_value :=
  list_to_map
    [("standard_start_time", SStr "09:30"); ("standard_end_time", SStr "18:30");
     ("standard_break_start", SStr "13:00"); ("standard_break_end", SStr "14:00");
     ("max_break_duration", SStr "60"); ("half_day_time", SStr "14:00")].

(** [dict(c.fetchall())]: a later row replaces an earlier one with its key. *)
Definition dict_of_rows (rows : list (string * string))
  : gmap string setting_value :=
  fold_left (fun m '(k, v) => <[k := SStr v]> m) rows ∅.

(** [{**defaults, **settings}]: the stored value wins. *)
Definition get_settings (db : option (list (string * string)))
  : gmap string setting_value :=
  match db with
  | Some rows => dict_of_rows rows ∪ default_settings
  | None => default_settings
  end.

(** ** The POST branch of [data_settings] in [app.py]

    The posted JSON object is the list of its items, and the [settings] table
    a map, [key] being its primary key.  A posted value is a text or a whole
    number; the other JSON values are outside the model, and so are failures
    of the database. *)

(** [str(value)] *)
Definition str_value (value : setting_value) : string :=
  match value with
  | SStr s => s
  | SInt n => str_of_int n
  end.

(** One [INSERT OR REPLACE] per item. *)
Definition data_settings_post (data : list (string * setting_value))
    (table : gmap string string) : gmap string string :=
  fold_left (fun t '(key, value) => <[key := str_value value]> t) data table.

(** [c.fetchall()] after [SELECT key, value FROM settings]. *)
Definition fetchall (table : gmap string string) : list (string * string) :=
  map_to_list table.

(** ** One row of [parse_excel_file] in [excel_utils.py]

    The two calls that the loop makes for a row once its cells are read: the
    working hours, then the status computed with them. *)
Definition row_hours_and_status (punch_in punch_out : option string)
    (date_str : string) (settings : gmap string setting_value)
    (break_start break_end : option string)
  : option pyfloat * result classification :=
  let working_hours := calculate_working_hours punch_in punch_out date_str in
  (working_hours,
   calculate_status punch_in punch_out working_hours date_str settings
                    break_start break_end).

(** ** [recalculate_status_route] of [app.py]

    The rows of [SELECT * FROM attendance_records] are the argument.  The
    route writes one [UPDATE] per row inside one transaction and commits after
    the loop, so its effect is the list of updates when it returns and nothing
    when an exception ends it (the handler answers with the error).  Failures
    of the database itself are not modelled. *)

Record attendance_row : Set := mkrow {
  row_id : Z;
  row_punch_in_time : option string;
  row_punch_out_time : option string;
  row_working_hours : option pyfloat;
  row_date : string;
  row_break_start_time : option string;
  row_break_end_time : option string
}.

(** The parameters of the [UPDATE] statement. *)
Record status_update : Set := mkupdate {
  u_status : string;
  u_break_duration : pyfloat;
  u_is_late : Z;
  u_break_exceeded : Z;
  u_is_break_outside_window : Z;
  u_is_early_departure : Z;
  u_id : Z
}.

(** [1 if b else 0] *)
Definition flag (b : bool) : Z := if b then 1 else 0.

(** The body of the loop. *)
Definition row_update (settings : gmap string setting_value)
    (row : attendance_row) : result status_update :=
  do status_result <-
    calculate_status (row_punch_in_time row) (row_punch_out_time row)
      (row_working_hours row) (row_date row) settings
      (row_break_start_time row) (row_break_end_time row);
  Ok (mkupdate (status_label (c_status status_result))
               (break_duration status_result)
               (flag (is_late status_result))
               (flag (break_exceeded status_result))
               (flag (is_break_outside_window status_result))
               (flag (is_early_departure status_result))
               (row_id row)).

Fixpoint recalculate_loop (settings : gmap string setting_value)
    (rows : list attendance_row) (updates : list status_update)
    (updated_count : Z) : result (list status_update * Z) :=
  match rows with
  | [] => Ok (updates, updated_count)
  | row :: rest =>
      do u <- row_update settings row;
      recalculate_loop settings rest (updates ++ [u])%list (updated_count + 1)
  end.

Definition recalculate_status_route (db : option (list (string * string)))
    (rows : list attendance_row) : result (list status_update * Z) :=
  let updated_count := 0 in
  let settings := get_settings db in
  recalculate_loop settings rows [] updated_count.

(** ** Dates and times as text

    [strftime] for a [time] and for a [date], and [str] for a time cell of a
    spreadsheet with its microsecond, as [parse_excel_file] makes the texts of
    a row from cells that hold times and a date, and as a user writes a
    time. *)

Definition digit_char (n : Z) : ascii := ascii_of_N (Z.to_N (48 + n)).

(** [n] as two decimal digits, followed by [rest]. *)
Definition two_digits (n : Z) (rest : string) : string :=
  String (digit_char (n / 10)) (String (digit_char (n mod 10)) rest).

(** [t.strftime('%H:%M:%S')]; it is [str(t)] and [t.isoformat()] for a time
    whose microsecond is 0 only ([str_time_cell] is [str] for every time). *)
Definition isoformat (t : time) : string :=
  two_digits (t_hour t)
    (String ":" (two_digits (t_minute t)
       (String ":" (two_digits (t_second t) EmptyString)))).

(** [t.strftime('%H:%M')] *)
Definition strftime_HM (t : time) : string :=
  two_digits (t_hour t) (String ":" (two_digits (t_minute t) EmptyString)).

(** [t.strftime('%I:%M %p')] in the C locale. *)
Definition strftime_IMp (t : time) : string :=
  two_digits (if t_hour t mod 12 =? 0 then 12 else t_hour t mod 12)
    (String ":" (two_digits (t_minute t)
       (if t_hour t <? 12 then " AM" else " PM"))).

(** [n] as four decimal digits, followed by [rest]. *)
Definition four_digits (n : Z) (rest : string) : string :=
  String (digit_char (n / 1000))
    (String (digit_char (n / 100 mod 10))
       (String (digit_char (n / 10 mod 10))
          (String (digit_char (n mod 10)) rest))).

(** [d.strftime('%Y-%m-%d')] for a year of four digits; the C library writes
    an earlier year without leading zeros. *)
Definition strftime_Ymd (d : date) : string :=
  four_digits (d_year d)
    (String "-" (two_digits (d_month d)
       (String "-" (two_digits (d_day d) EmptyString)))).

(** A time of day as a spreadsheet cell holds it: a [datetime.time], with its
    microsecond. *)
Record time_cell : Set := mkcell { cell_time : time; cell_microsecond : Z }.

(** [n] as six decimal digits, followed by [rest]. *)
Definition six_digits (n : Z) (rest : string) : string :=
  two_digits (n / 10000)
    (two_digits (n / 100 mod 100) (two_digits (n mod 100) rest)).

(** [str(c)], the text that [parse_excel_file] makes of the cell: [HH:MM:SS],
    followed by [.ffffff] when the microsecond is not 0. *)
Definition str_time_cell (c : time_cell) : string :=
  if cell_microsecond c =? 0 then isoformat (cell_time c)
  else isoformat (cell_time c)
       ++ String "." (six_digits (cell_microsecond c) EmptyString).

Definition valid_cell (c : time_cell) : Prop :=
  valid_time (cell_time c) /\ 0 <= cell_microsecond c <= 999999.

(** The characters of the text of a cell. *)
Definition cell_char (c : ascii) : bool :=
  is_digit c || Ascii.eqb c ":" || Ascii.eqb c ".".

(** The matches of a list of pieces, none when a directive is unknown. *)
Definition run (ts : list token) (s : string) : list (found_dict * string) :=
  match match_tokens ts with
  | Some m => m s
  | None => []
  end.

(** * Properties *)

(** ** The parsers never raise *)

Lemma new_datetime_raises y m d hh mm ss e :
  new_datetime y m d hh mm ss = Raise e -> e = ValueError.
Proof.
  unfold new_datetime, new_date, rbind.
  repeat match goal with
         | |- context [if ?b then _ else _] => destruct b
         end; congruence.
Qed.

Lemma strptime_raises data fmt e : strptime data fmt = Raise e -> e = ValueError.
Proof.
  unfold strptime, build_datetime.
  destruct (match_tokens (tokens fmt)) as [m|]; [|congruence].
  destruct (m data) as [|[f [|c r]] l]; try congruence.
  apply new_datetime_raises.
Qed.

Lemma first_format_total fmts t_str : exists o, first_format fmts t_str = Ok o.
Proof.
  induction fmts as [|fmt rest IH]; cbn [first_format]; [eauto|].
  unfold except_ValueError, try_except, rbind.
  destruct (strptime t_str fmt) as [d|e] eqn:E; [eauto|].
  apply strptime_raises in E. subst e. exact IH.
Qed.

Lemma parse_time_obj_parsed x : parse_time_obj x = Ok (parsed_obj x).
Proof.
  unfold parsed_obj, parse_time_obj.
  destruct (first_format_total formats (strip (py_str x))) as [o ->].
  reflexivity.
Qed.

Lemma parse_time_simple_parsed x : parse_time_simple x = Ok (parsed_time x).
Proof.
  unfold parse_time_simple. rewrite parse_time_obj_parsed. reflexivity.
Qed.

Lemma parsed_time_absent x : truthy x = false -> parsed_obj x = None.
Proof.
  destruct x as [[|c r]|]; cbn [truthy]; intros H; try discriminate;
    vm_compute; reflexivity.
Qed.

(** ** The rules, block by block *)

Lemma default_start : strptime_time (SStr "09:30") "%H:%M" = Ok (mktime 9 30 0).
Proof. vm_compute. reflexivity. Qed.

Lemma default_end : strptime_time (SStr "18:30") "%H:%M" = Ok (mktime 18 30 0).
Proof. vm_compute. reflexivity. Qed.

Lemma threshold_or_run v default d r :
  strptime_time (SStr default) "%H:%M" = Ok d ->
  threshold_or v default r = (Ok (threshold v d), r).
Proof.
  intros Hd. unfold threshold_or, try_, lift, threshold.
  destruct (strptime_time v "%H:%M"); [reflexivity|].
  rewrite Hd. reflexivity.
Qed.

Lemma late_early_rule_run punch_in punch_out settings r :
  late_early_rule punch_in punch_out
    (settings_get settings "standard_start_time" (SStr "09:30"))
    (settings_get settings "standard_end_time" (SStr "18:30")) r
  = (Ok tt,
     let r1 :=
       if late_of punch_in settings then
         match c_status r with
         | Present => set_status Late (set_is_late true r)
         | _ => set_is_late true r
         end
       else r in
     if early_of punch_out settings then set_is_early_departure true r1 else r1).
Proof.
  unfold late_early_rule, late_of, early_of, start_threshold, end_threshold.
  unfold try_ at 1. unfold bind at 1. unfold lift at 1.
  rewrite parse_time_simple_parsed.
  unfold bind at 1. unfold lift at 1. rewrite parse_time_simple_parsed.
  destruct r as [st l bd bx bw ed].
  destruct (parsed_time punch_in) as [t_in|];
    destruct (parsed_time punch_out) as [t_out|]; cbn [some_and];
    unfold bind;
    rewrite ?(threshold_or_run _ _ _ _ default_start);
    try (destruct (time_gt t_in _));
    destruct st; cbn -[threshold_or threshold];
    rewrite ?(threshold_or_run _ _ _ _ default_end);
    try (destruct (time_lt t_out _)); reflexivity.
Qed.

Lemma window_rule_run bs be settings r :
  window_rule bs be
    (settings_get settings "standard_break_start" (SStr "13:00"))
    (settings_get settings "standard_break_end" (SStr "14:00")) r
  = (Ok tt,
     if window_of bs be settings then set_is_break_outside_window true r else r).
Proof.
  unfold window_rule, window_of, try_, bind, lift, when, update, ret.
  destruct (strptime_time _ _) as [a|]; [|reflexivity].
  destruct (strptime_time _ _) as [b|]; [|reflexivity].
  destruct (_ || _); reflexivity.
Qed.

Lemma break_rule_run break_start break_end max_break settings r :
  break_rule break_start break_end max_break
    (settings_get settings "standard_break_start" (SStr "13:00"))
    (settings_get settings "standard_break_end" (SStr "14:00")) r
  = (Ok tt,
     if truthy break_start && truthy break_end then
       match parsed_obj break_start, parsed_obj break_end with
       | Some bs, Some be =>
           let r1 := set_break_duration (py_round (break_minutes bs be) 2) r in
           let r2 := if float_gt (break_minutes bs be) max_break
                     then set_break_exceeded true r1 else r1 in
           if window_of bs be settings
           then set_is_break_outside_window true r2 else r2
       | _, _ => r
       end
     else r).
Proof.
  unfold break_rule, when.
  destruct (truthy break_start && truthy break_end); [|reflexivity].
  unfold try_ at 1. unfold bind at 1. unfold lift at 1.
  rewrite parse_time_obj_parsed.
  unfold bind at 1. unfold lift at 1. rewrite parse_time_obj_parsed.
  destruct (parsed_obj break_start) as [bs|]; [|reflexivity].
  destruct (parsed_obj break_end) as [be|]; [|reflexivity].
  unfold bind, update, ret. fold (break_minutes bs be).
  destruct (float_gt (break_minutes bs be) max_break);
    rewrite window_rule_run; destruct (window_of bs be settings); reflexivity.
Qed.

(** ** [calculate_status] computes [classify] *)

(** The function returns exactly when the two unguarded conversions of the
    settings succeed: [float(...)] of the break limit, before anything else,
    and [strptime] of the half-day time, once [punch_in] is there. *)
Lemma calculate_status_absent punch_in punch_out working_hours date_str settings
    break_start break_end max_break :
  py_float (settings_get settings "max_break_duration" (SInt 60)) = Ok max_break ->
  truthy punch_in = false ->
  calculate_status punch_in punch_out working_hours date_str settings
                   break_start break_end
  = Ok initial_result.
Proof.
  intros Hmb Hin. unfold calculate_status. rewrite Hmb. cbn [rbind].
  rewrite Hin. reflexivity.
Qed.

Lemma calculate_status_classify punch_in punch_out working_hours date_str
    settings break_start break_end max_break half_day_threshold :
  py_float (settings_get settings "max_break_duration" (SInt 60)) = Ok max_break ->
  strptime_time (settings_get settings "half_day_time" (SStr "14:00")) "%H:%M"
  = Ok half_day_threshold ->
  truthy punch_in = true ->
  calculate_status punch_in punch_out working_hours date_str settings
                   break_start break_end
  = Ok (classify punch_in punch_out working_hours settings break_start break_end
                 max_break half_day_threshold).
Proof.
  intros Hmb Hhd Hin. unfold calculate_status. rewrite Hmb. cbn [rbind].
  rewrite Hin. cbn [negb]. unfold classify_present.
  unfold bind at 1.
  set (r0 := if negb (truthy punch_out) then _ else _).
  assert (Hr0 : r0 initial_result
                = (Ok tt, set_status (if truthy punch_out then Present
                                      else Incomplete) initial_result)).
  { subst r0. destruct (truthy punch_out); reflexivity. }
  rewrite Hr0. clear Hr0 r0.
  unfold bind at 1. unfold lift at 1. rewrite parse_time_simple_parsed.
  unfold bind at 1. unfold lift at 1. rewrite parse_time_simple_parsed.
  unfold bind at 1. unfold lift at 1. rewrite Hhd.
  unfold bind at 1.
  set (half := half_day_rule _ _ _ _).
  unfold bind at 1. unfold when at 1.
  assert (Hhalf : (if half then update (set_status HalfDay) else ret tt)
                    (set_status (if truthy punch_out then Present else Incomplete)
                                initial_result)
                  = (Ok tt, set_status (if half then HalfDay
                                        else if truthy punch_out then Present
                                             else Incomplete) initial_result)).
  { destruct half; reflexivity. }
  rewrite Hhalf. clear Hhalf.
  rewrite late_early_rule_run. rewrite break_rule_run.
  unfold classify, status_of. fold half.
  destruct half; destruct (truthy punch_out);
    destruct (late_of punch_in settings); destruct (early_of punch_out settings);
    destruct (truthy break_start && truthy break_end); try reflexivity;
    destruct (parsed_obj break_start) as [bs|]; try reflexivity;
    destruct (parsed_obj break_end) as [be|]; try reflexivity;
    cbn zeta;
    destruct (float_gt (break_minutes bs be) max_break);
    destruct (window_of bs be settings); reflexivity.
Qed.

(** ** Rounding to binary64

    What the proofs below need of [binary64]: the result is finite, has the
    sign of the argument, and is within half a unit in the last place. *)

Section Rounding.
Local Open Scope Q_scope.

Lemma round_half_even_near q :
  inject_Z (round_half_even q) - (1 # 2) <= q
  /\ q <= inject_Z (round_half_even q) + (1 # 2).
Proof.
  unfold round_half_even.
  pose proof (Qfloor_le q) as Hlo. pose proof (Qlt_floor q) as Hhi.
  rewrite inject_Z_plus in Hhi. change (inject_Z 1) with 1 in Hhi.
  destruct (q - inject_Z (Qfloor q) ?= 1 # 2) eqn:E.
  - apply Qeq_alt in E. destruct (Z.even (Qfloor q)).
    + lra.
    + rewrite inject_Z_plus. change (inject_Z 1) with 1. lra.
  - apply Qlt_alt in E. lra.
  - apply Qgt_alt in E. rewrite inject_Z_plus. change (inject_Z 1) with 1. lra.
Qed.

Lemma pow2_pos e : 0 < pow2 e.
Proof. unfold pow2. apply Qpower_0_lt. reflexivity. Qed.

Lemma pow2_plus a b : pow2 (a + b) == pow2 a * pow2 b.
Proof. unfold pow2. apply Qpower_plus. discriminate. Qed.

Lemma pow2_le a b : (a <= b)%Z -> pow2 a <= pow2 b.
Proof. intros H. unfold pow2. apply Qpower_le_compat_l; [exact H|]. discriminate. Qed.

Lemma pow2_Z n : (0 <= n)%Z -> pow2 n == inject_Z (2 ^ n).
Proof. intros H. unfold pow2. rewrite Zpower_Qpower by exact H. reflexivity. Qed.

Lemma floor_log2_le a : 0 < a -> pow2 (floor_log2 a) <= a.
Proof.
  intros Ha. unfold floor_log2.
  set (l := (Z.log2 (Qnum a) - Z.log2 (Z.pos (Qden a)))%Z).
  destruct (Qle_bool (pow2 l) a) eqn:E.
  - apply Qle_bool_iff. exact E.
  - destruct a as [n d]. cbn [Qnum Qden] in *.
    assert (Hn : (0 < n)%Z). { unfold Qlt in Ha. cbn in Ha. lia. }
    pose proof (Z.log2_spec n Hn) as [Hn1 _].
    pose proof (Z.log2_spec (Z.pos d) (Pos2Z.is_pos d)) as [_ Hd2].
    pose proof (Z.log2_nonneg n) as Hln.
    pose proof (Z.log2_nonneg (Z.pos d)) as Hld.
    replace (l - 1)%Z with (Z.log2 n + - Z.succ (Z.log2 (Z.pos d)))%Z
      by (subst l; lia).
    rewrite pow2_plus. unfold pow2 at 2. rewrite Qpower_opp.
    fold (pow2 (Z.succ (Z.log2 (Z.pos d)))).
    rewrite !pow2_Z by lia.
    set (A := (2 ^ Z.log2 n)%Z) in *.
    set (B := (2 ^ Z.succ (Z.log2 (Z.pos d)))%Z) in *.
    assert (HB : (0 < B)%Z) by lia.
    assert (HA : (0 < A)%Z) by (subst A; apply Z.pow_pos_nonneg; lia).
    fold (Qdiv (inject_Z A) (inject_Z B)).
    apply Qle_shift_div_r. { rewrite <- (Zlt_Qlt 0). exact HB. }
    rewrite (Qmake_Qdiv n d).
    unfold Qdiv. rewrite <- Qmult_assoc, (Qmult_comm (/ _)), Qmult_assoc.
    apply Qle_shift_div_l. { rewrite <- (Zlt_Qlt 0). lia. }
    rewrite <- !inject_Z_mult. rewrite <- Zle_Qle. nia.
Qed.

(** The rounding of a positive rational that does not overflow. *)
Lemma binary64_magnitude a :
  0 < a -> a <= pow2 1023 ->
  let e := Z.max (floor_log2 a - 52) (-1074) in
  let r := inject_Z (round_half_even (a / pow2 e)) * pow2 e in
  0 <= r /\ Qabs (r - a) <= a * pow2 (-53) + pow2 (-1075)
  /\ Qle_bool (pow2 1024) r = false.
Proof.
  intros Ha Hmax e r.
  pose proof (pow2_pos e) as He.
  pose proof (round_half_even_near (a / pow2 e)) as [Hlo Hhi].
  set (m := round_half_even (a / pow2 e)) in *.
  assert (Hx : a == (a / pow2 e) * pow2 e).
  { field. intros H0. rewrite H0 in He. revert He. apply Qlt_irrefl. }
  set (x := a / pow2 e) in *.
  assert (Hx0 : 0 <= x).
  { subst x. apply Qle_shift_div_l; [exact He|]. lra. }
  assert (Hm0 : 0 <= inject_Z m).
  { rewrite <- (Zle_Qle 0). 
    assert (-1 < inject_Z m) by lra.
    rewrite <- (Zlt_Qlt (-1)) in H. lia. }
  assert (Hhalf : pow2 e * (1 # 2) <= a * pow2 (-53) + pow2 (-1075)).
  { pose proof (pow2_pos (-53)). pose proof (pow2_pos (-1075)).
    subst e. destruct (Z.max_spec (floor_log2 a - 52) (-1074)) as [[_ ->]|[_ ->]].
    - change (-1074)%Z with (-1075 + 1)%Z. rewrite pow2_plus.
      change (pow2 1) with 2. nra.
    - replace (floor_log2 a - 52)%Z with (floor_log2 a + (-53 + 1))%Z by lia.
      rewrite !pow2_plus. change (pow2 1) with 2.
      pose proof (floor_log2_le a Ha). nra. }
  assert (Herr : Qabs (r - a) <= pow2 e * (1 # 2)).
  { apply Qabs_Qle_condition. subst r. split; nra. }
  split; [subst r; nra|]. split; [lra|].
  destruct (Qle_bool (pow2 1024) r) eqn:E; [|reflexivity].
  apply Qle_bool_iff in E. exfalso.
  apply Qabs_Qle_condition in Herr.
  assert (H53 : pow2 (-53) <= 1 # 4).
  { change (1 # 4) with (pow2 (-2)). apply pow2_le. lia. }
  assert (H1075 : pow2 (-1075) <= 1 # 4).
  { change (1 # 4) with (pow2 (-2)). apply pow2_le. lia. }
  assert (H1024 : pow2 1024 == pow2 1023 * 2).
  { change 1024%Z with (1023 + 1)%Z. rewrite pow2_plus. reflexivity. }
  assert (H1023 : 1 <= pow2 1023).
  { change 1 with (pow2 0). apply pow2_le. lia. }
  pose proof (pow2_pos (-53)). pose proof (pow2_pos (-1075)).
  nra.
Qed.

Lemma binary64_error q :
  Qabs q <= pow2 1023 ->
  exists r, binary64 q = Fin r
            /\ Qabs (r - q) <= Qabs q * pow2 (-53) + pow2 (-1075)
            /\ (0 <= q -> 0 <= r) /\ (q <= 0 -> r <= 0).
Proof.
  intros Hq. unfold binary64.
  destruct (q ?= 0) eqn:E.
  - apply Qeq_alt in E. exists 0. split; [reflexivity|].
    pose proof (pow2_pos (-53)). pose proof (pow2_pos (-1075)).
    pose proof (Qabs_nonneg q).
    split; [|split; intros; lra].
    rewrite E. change (Qabs (0 - 0)) with 0. change (Qabs 0) with 0. lra.
  - apply Qlt_alt in E.
    assert (Habs : Qabs q == - q) by (apply Qabs_neg; lra).
    assert (Ha : 0 < Qabs q) by lra.
    destruct (binary64_magnitude (Qabs q) Ha Hq) as (H0 & Herr & ->).
    set (r := inject_Z _ * _) in *.
    exists (Qred (- r)). split; [reflexivity|].
    rewrite Qred_correct. split; [|split; intros; lra].
    apply Qabs_Qle_condition in Herr. apply Qabs_Qle_condition.
    revert Habs Herr. generalize (Qabs q). intros a Habs Herr. lra.
  - apply Qgt_alt in E.
    assert (Habs : Qabs q == q) by (apply Qabs_pos; lra).
    assert (Ha : 0 < Qabs q) by lra.
    destruct (binary64_magnitude (Qabs q) Ha Hq) as (H0 & Herr & ->).
    set (r := inject_Z _ * _) in *.
    exists (Qred r). split; [reflexivity|].
    rewrite Qred_correct. split; [|split; intros; lra].
    apply Qabs_Qle_condition in Herr. apply Qabs_Qle_condition.
    revert Habs Herr. generalize (Qabs q). intros a Habs Herr. lra.
Qed.

Lemma binary64_small q B :
  Qabs q <= B -> B <= 1048576 ->
  exists r, binary64 q = Fin r
            /\ - ((B + 1) * unit_roundoff) <= r - q <= (B + 1) * unit_roundoff
            /\ (0 <= q -> 0 <= r) /\ (q <= 0 -> r <= 0).
Proof.
  intros Hq HB.
  assert (Hmax : Qabs q <= pow2 1023).
  { assert (1048576 <= pow2 1023).
    { change 1048576 with (pow2 20). apply pow2_le. lia. }
    lra. }
  destruct (binary64_error q Hmax) as (r & Hr & Herr & Hsign).
  exists r. split; [exact Hr|]. split; [|exact Hsign].
  assert (H53 : pow2 (-53) == unit_roundoff) by reflexivity.
  assert (H1075 : pow2 (-1075) <= unit_roundoff).
  { rewrite <- H53. apply pow2_le. lia. }
  apply Qabs_Qle_condition in Herr.
  pose proof (Qabs_nonneg q) as H0.
  revert Hq Herr H0. generalize (Qabs q). intros a Hq Herr H0.
  rewrite H53 in Herr. unfold unit_roundoff in *. split; nra.
Qed.

Lemma total_seconds_near s :
  (-86400 < s < 86400)%Z ->
  exists x, total_seconds s = Fin x
            /\ - (86401 * unit_roundoff) <= x - inject_Z s <= 86401 * unit_roundoff
            /\ ((0 <= s)%Z -> 0 <= x) /\ ((s <= 0)%Z -> x <= 0).
Proof.
  intros Hs. unfold total_seconds.
  destruct (binary64_small (inject_Z s) 86400) as (x & Hx & Herr & Hp & Hn).
  - apply Qabs_Qle_condition. split.
    + change (- (86400)) with (inject_Z (-86400)). rewrite <- Zle_Qle. lia.
    + change 86400 with (inject_Z 86400). rewrite <- Zle_Qle. lia.
  - unfold Qle. cbn. lia.
  - exists x. split; [exact Hx|]. split; [exact Herr|].
    split; intros H; [apply Hp | apply Hn].
    + rewrite <- (Zle_Qle 0). exact H.
    + change 0 with (inject_Z 0). rewrite <- Zle_Qle. exact H.
Qed.

Lemma round_half_even_sign q :
  (0 <= q -> (0 <= round_half_even q)%Z)
  /\ (q <= 0 -> (round_half_even q <= 0)%Z).
Proof.
  destruct (round_half_even_near q) as [Hlo Hhi].
  split; intros H.
  - assert (H1 : inject_Z (-1) < inject_Z (round_half_even q)).
    { change (inject_Z (-1)) with (-1). lra. }
    rewrite <- Zlt_Qlt in H1. lia.
  - assert (H1 : inject_Z (round_half_even q) < inject_Z 1).
    { change (inject_Z 1) with 1. lra. }
    rewrite <- Zlt_Qlt in H1. lia.
Qed.

Lemma round_hours s :
  (-86400 < s < 86400)%Z ->
  py_round (float_div (total_seconds s) 3600) 2
  = binary64 (inject_Z (hundredths s) / inject_Z 100)
  /\ (Z.abs (36 * hundredths s - s) <= 18)%Z
  /\ ((0 <= s)%Z -> (0 <= hundredths s)%Z)
  /\ ((s <= 0)%Z -> (hundredths s <= 0)%Z).
Proof.
  intros Hs. unfold hundredths.
  destruct (total_seconds_near s Hs) as (x0 & -> & Herr0 & Hp0 & Hn0).
  cbn [float_div].
  assert (Hs' : -86400 < inject_Z s < 86400).
  { split; [change (-86400) with (inject_Z (-86400))
           | change 86400 with (inject_Z 86400)]; rewrite <- Zlt_Qlt; lia. }
  set (y := x0 / inject_Z 3600).
  assert (Hy : y * 3600 == x0).
  { subst y. change (inject_Z 3600) with 3600. field. }
  unfold unit_roundoff in *.
  destruct (binary64_small y 25) as (x1 & -> & Herr1 & Hp1 & Hn1).
  { apply Qabs_Qle_condition. split; lra. }
  { unfold Qle. cbn. lia. }
  cbn [py_round]. change (inject_Z (10 ^ 2)) with (inject_Z 100).
  split; [reflexivity|].
  change (inject_Z 100) with 100.
  set (k := round_half_even (x1 * 100)).
  destruct (round_half_even_near (x1 * 100)) as [Hlo Hhi]. fold k in Hlo, Hhi.
  destruct (round_half_even_sign (x1 * 100)) as [Hkp Hkn]. fold k in Hkp, Hkn.
  unfold unit_roundoff in *.
  split; [|split].
  - assert (H1 : inject_Z (36 * k - s) < inject_Z 19).
    { unfold Zminus. rewrite inject_Z_plus, inject_Z_mult, inject_Z_opp.
      change (inject_Z 36) with 36. change (inject_Z 19) with 19. lra. }
    assert (H2 : inject_Z (-19) < inject_Z (36 * k - s)).
    { unfold Zminus. rewrite inject_Z_plus, inject_Z_mult, inject_Z_opp.
      change (inject_Z 36) with 36. change (inject_Z (-19)) with (-19). lra. }
    rewrite <- Zlt_Qlt in H1, H2. lia.
  - intros H. apply Hkp.
    assert (0 <= x0) by (apply Hp0; exact H).
    assert (0 <= x1) by (apply Hp1; lra). lra.
  - intros H. apply Hkn.
    assert (x0 <= 0) by (apply Hn0; exact H).
    assert (x1 <= 0) by (apply Hn1; lra). lra.
Qed.

Lemma inject_Z_bounds k lo hi :
  (lo <= k <= hi)%Z -> inject_Z lo <= inject_Z k <= inject_Z hi.
Proof. intros [H1 H2]. split; rewrite <- Zle_Qle; assumption. Qed.

Lemma max_0_hundredths k :
  (-10000000 <= k <= 10000000)%Z ->
  max_0 (binary64 (inject_Z k / inject_Z 100))
  = if (0 <=? k)%Z then binary64 (inject_Z k / inject_Z 100) else Fin 0.
Proof.
  intros Hk.
  pose proof (inject_Z_bounds _ _ _ Hk) as Hk'.
  change (inject_Z (-10000000)) with (-10000000) in Hk'.
  change (inject_Z 10000000) with 10000000 in Hk'.
  set (y := inject_Z k / inject_Z 100).
  assert (Hy : y * 100 == inject_Z k).
  { subst y. change (inject_Z 100) with 100. field. }
  destruct (binary64_small y 100000) as (r & Hr & Herr & Hp & Hn).
  { apply Qabs_Qle_condition. split; lra. }
  { unfold Qle. cbn. lia. }
  rewrite Hr. unfold max_0, float_gt, float_lt. unfold unit_roundoff in *.
  destruct (Z.leb_spec 0%Z k) as [H|H].
  - destruct (Z.eq_dec k 0%Z) as [->|Hne].
    + vm_compute in Hr. injection Hr as <-. reflexivity.
    + assert (H1 : inject_Z 1 <= inject_Z k) by (rewrite <- Zle_Qle; lia).
      change (inject_Z 1) with 1 in H1.
      destruct (Qle_bool r 0) eqn:E; [|reflexivity].
      apply Qle_bool_iff in E. lra.
  - assert (H1 : inject_Z k <= inject_Z 0) by (rewrite <- Zle_Qle; lia).
    change (inject_Z 0) with 0 in H1.
    assert (E : Qle_bool r 0 = true) by (apply Qle_bool_iff; apply Hn; lra).
    rewrite E. reflexivity.
Qed.


Lemma truncate_nonneg q : 0 <= q -> truncate q = Qfloor q.
Proof.
  intros H. unfold truncate.
  destruct (Qle_bool 0 q) eqn:E; [reflexivity|].
  apply Qle_bool_iff in H. congruence.
Qed.

(** The minutes before the test [minutes == 60]: between 0 and 60. *)
Lemma minutes_range q :
  0 <= q ->
  exists m, py_round_int (float_mul (float_sub_int (Fin q) (truncate q)) 60)
            = Ok m
            /\ (0 <= m <= 60)%Z.
Proof.
  intros Hq. rewrite (truncate_nonneg q Hq). unfold float_sub_int.
  pose proof (Qfloor_le q) as Hlo. pose proof (Qlt_floor q) as Hhi.
  rewrite inject_Z_plus in Hhi. change (inject_Z 1) with 1 in Hhi.
  destruct (binary64_small (q - inject_Z (Qfloor q)) 1)
    as (x1 & -> & Herr1 & Hp1 & _).
  { apply Qabs_Qle_condition. split; lra. }
  { unfold Qle. cbn. lia. }
  cbn [float_mul]. change (inject_Z 60) with 60.
  unfold unit_roundoff in *.
  assert (0 <= x1) by (apply Hp1; lra).
  destruct (binary64_small (x1 * 60) 61) as (x2 & -> & Herr2 & Hp2 & _).
  { apply Qabs_Qle_condition. split; lra. }
  { unfold Qle. cbn. lia. }
  unfold unit_roundoff in *.
  assert (0 <= x2) by (apply Hp2; lra).
  cbn [py_round_int]. eexists. split; [reflexivity|].
  destruct (round_half_even_near x2) as [Hl Hh].
  assert (H1 : inject_Z (-1) < inject_Z (round_half_even x2))
    by (change (inject_Z (-1)) with (-1); lra).
  assert (H2 : inject_Z (round_half_even x2) < inject_Z 61)
    by (change (inject_Z 61) with 61; lra).
  rewrite <- Zlt_Qlt in H1, H2. lia.
Qed.

End Rounding.

(** ** The texts that [strptime] accepts *)

Lemma in_one p s v r :
  In (v, r) (one p s) -> exists c, s = String c r /\ p c = true.
Proof.
  destruct s as [|c s]; cbn; [tauto|].
  destruct (p c) eqn:E; cbn; [|tauto].
  intros [[= <- <-]|[]]. eauto.
Qed.

Lemma in_two p1 p2 s v r :
  In (v, r) (two p1 p2 s) ->
  exists c1 c2, s = String c1 (String c2 r) /\ p1 c1 = true /\ p2 c2 = true.
Proof.
  destruct s as [|c1 [|c2 s]]; cbn; try tauto.
  destruct (p1 c1) eqn:E1; cbn; [|tauto].
  destruct (p2 c2) eqn:E2; cbn; [|tauto].
  intros [[= <- <-]|[]]. eauto 6.
Qed.

Lemma in_alt {A} (m1 m2 : matcher A) s x :
  In x (alt m1 m2 s) -> In x (m1 s) \/ In x (m2 s).
Proof. unfold alt. apply in_app_or. Qed.

Lemma in_range_digit lo hi c :
  48 <= code lo -> code hi <= 57 -> in_range lo hi c = true -> digitish c = true.
Proof.
  unfold in_range, digitish, is_digit. intros H1 H2 H.
  apply andb_true_iff in H as [Ha Hb].
  apply Z.leb_le in Ha, Hb.
  apply orb_true_iff. left. apply andb_true_iff. split; apply Z.leb_le; lia.
Qed.

Lemma is_char_digit d c :
  48 <= code d <= 57 -> is_char d c = true -> digitish c = true.
Proof.
  unfold is_char, digitish, is_digit. intros H E.
  apply Ascii.eqb_eq in E. subst c.
  apply orb_true_iff. left. apply andb_true_iff. split; apply Z.leb_le; lia.
Qed.

Lemma is_digit_digit c : is_digit c = true -> digitish c = true.
Proof. unfold digitish. intros ->. reflexivity. Qed.

Ltac digit_class :=
  first [ apply is_digit_digit; assumption
        | eapply in_range_digit; [| |eassumption]; vm_compute; congruence
        | eapply is_char_digit; [|eassumption]; vm_compute; split; congruence ].

Ltac split_matcher H :=
  repeat match type of H with
         | In _ (alt _ _ _) => apply in_alt in H; destruct H as [H|H]
         end;
  first [ apply in_two in H; destruct H as (c1 & c2 & -> & H1 & H2)
        | apply in_one in H; destruct H as (c1 & -> & H1) ].

Ltac close_shape c1 c2 :=
  first [ exists (String c1 (String c2 EmptyString))
        | exists (String c1 EmptyString) ];
  split; [reflexivity|]; cbn [all_chars]; rewrite ?andb_true_r;
  repeat (apply andb_true_iff; split); digit_class.

Lemma re_H_shape s v r :
  In (v, r) (re_H s) -> exists a, s = a ++ r /\ all_chars digitish a = true.
Proof. intros H. unfold re_H in H. split_matcher H; close_shape c1 c2. Qed.

Lemma re_I_shape s v r :
  In (v, r) (re_I s) -> exists a, s = a ++ r /\ all_chars digitish a = true.
Proof. intros H. unfold re_I in H. split_matcher H; close_shape c1 c2. Qed.

Lemma re_M_shape s v r :
  In (v, r) (re_M s) -> exists a, s = a ++ r /\ all_chars digitish a = true.
Proof. intros H. unfold re_M in H. split_matcher H; close_shape c1 c2. Qed.

Lemma re_S_shape s v r :
  In (v, r) (re_S s) -> exists a, s = a ++ r /\ all_chars digitish a = true.
Proof. intros H. unfold re_S in H. split_matcher H; close_shape c1 c2. Qed.

Lemma re_Y_shape s v r :
  In (v, r) (re_Y s) -> exists a, s = a ++ r /\ all_chars digitish a = true.
Proof.
  destruct s as [|a [|b [|c [|d s]]]]; cbn; try tauto.
  destruct (is_digit a && is_digit b && is_digit c && is_digit d) eqn:E;
    cbn; [|tauto].
  intros [[= <- <-]|[]].
  exists (String a (String b (String c (String d EmptyString)))).
  split; [reflexivity|]. cbn [all_chars]. unfold digitish.
  apply andb_true_iff in E as [E Ed]. apply andb_true_iff in E as [E Ec].
  apply andb_true_iff in E as [Ea Eb]. rewrite Ea, Eb, Ec, Ed. reflexivity.
Qed.

Lemma re_d_shape s v r :
  In (v, r) (re_d s) -> exists a, s = a ++ r /\ all_chars digitish a = true.
Proof.
  intros H. unfold re_d in H.
  repeat match type of H with
         | In _ (alt _ _ _) => apply in_alt in H; destruct H as [H|H]
         end.
  1-3: apply in_two in H; destruct H as (c1 & c2 & -> & H1 & H2);
    close_shape c1 c2.
  - apply in_one in H; destruct H as (c1 & -> & H1).
    exists (String c1 EmptyString). split; [reflexivity|].
    cbn [all_chars]. rewrite andb_true_r. digit_class.
  - destruct s as [|c0 s]; [destruct H|].
    destruct (Ascii.eqb_spec c0 " ") as [->|Hne].
    + apply in_one in H. destruct H as (c1 & -> & H1).
      exists (String " " (String c1 EmptyString)). split; [reflexivity|].
      cbn [all_chars]. rewrite andb_true_r.
      apply andb_true_iff. split; [reflexivity|]. digit_class.
    + exfalso. revert H.
      destruct c0 as [[] [] [] [] [] [] [] []]; cbn; tauto.
Qed.

Lemma re_p_shape s v r :
  In (v, r) (re_p s) ->
  exists c1 c2, s = String c1 (String c2 r)
                /\ (is_letter "a" c1 || is_letter "p" c1) && is_letter "m" c2 = true.
Proof.
  destruct s as [|c1 [|c2 s]]; cbn -[is_letter]; try tauto.
  destruct (is_letter "a" c1 && is_letter "m" c2) eqn:E1.
  - intros [[= <- <-]|[]]. exists c1, c2. split; [reflexivity|].
    apply andb_true_iff in E1 as [-> ->]. reflexivity.
  - destruct (is_letter "p" c1 && is_letter "m" c2) eqn:E2; cbn; [|tauto].
    intros [[= <- <-]|[]]. exists c1, c2. split; [reflexivity|].
    apply andb_true_iff in E2 as [-> ->]. rewrite orb_true_r. reflexivity.
Qed.

Lemma re_spaces_shape s r :
  In (tt, r) (re_spaces s) ->
  exists a, s = a ++ r /\ all_chars is_space a = true.
Proof.
  revert r. induction s as [|c s IH]; intros r; cbn [re_spaces]; [cbn; tauto|].
  destruct (is_space c) eqn:E; [|cbn; tauto].
  intros H. apply in_app_or in H. destruct H as [H|[[= <-]|[]]].
  - destruct (IH r H) as (a & -> & Ha).
    exists (String c a). split; [reflexivity|]. cbn [all_chars].
    rewrite E, Ha. reflexivity.
  - exists (String c EmptyString). split; [reflexivity|].
    cbn [all_chars]. rewrite E. reflexivity.
Qed.

Lemma re_lit_shape c s r : In (tt, r) (re_lit c s) -> s = String c r.
Proof.
  destruct s as [|c' s]; cbn; [tauto|].
  destruct (Ascii.eqb_spec c c') as [->|]; cbn; [|tauto].
  intros [[= <-]|[]]. reflexivity.
Qed.

Lemma match_token_shape t m s f r :
  match_token t = Some m -> In (f, r) (m s) ->
  exists a, s = a ++ r /\ token_shape t a.
Proof.
  destruct t as [d| |c]; cbn [match_token].
  - unfold directive_matcher.
    repeat match goal with
           | |- context [Ascii.eqb d ?x] => destruct (Ascii.eqb_spec d x) as [->|?]
           end; try discriminate; intros [= <-] H;
      apply in_map_iff in H; destruct H as ([v r'] & [= <- <-] & H);
      cbn [token_shape Ascii.eqb Bool.eqb andb].
    1-4, 6-8: first [ apply re_H_shape in H | apply re_I_shape in H
                   | apply re_M_shape in H | apply re_S_shape in H
                   | apply re_Y_shape in H | apply re_d_shape in H ];
      exact H.
    apply re_p_shape in H. destruct H as (c1 & c2 & -> & H).
    exists (String c1 (String c2 EmptyString)). split; [reflexivity|]. eauto.
  - intros [= <-] H. apply in_map_iff in H.
    destruct H as ([[] r'] & [= <- <-] & H). apply re_spaces_shape in H. exact H.
  - intros [= <-] H. apply in_map_iff in H.
    destruct H as ([[] r'] & [= <- <-] & H). apply re_lit_shape in H.
    exists (String c EmptyString). split; [subst s; reflexivity|reflexivity].
Qed.

Lemma append_cons x (a b : string) : String x a ++ b = String x (a ++ b).
Proof. reflexivity. Qed.

Lemma append_assoc (a b c : string) : (a ++ b) ++ c = a ++ (b ++ c).
Proof.
  induction a as [|x a IH]; [reflexivity|]. rewrite !append_cons, IH. reflexivity.
Qed.

Lemma append_nil_r (a : string) : a ++ "" = a.
Proof.
  induction a as [|x a IH]; [reflexivity|]. rewrite append_cons, IH. reflexivity.
Qed.

Lemma match_tokens_shape ts : forall m s f r,
  match_tokens ts = Some m -> In (f, r) (m s) ->
  exists a, s = a ++ r /\ shape ts a /\ map fst f = keys ts.
Proof.
  induction ts as [|t ts IH]; intros m s f r; cbn [match_tokens].
  - intros [= <-] [[= <- <-]|[]]. exists EmptyString. repeat split.
  - destruct (match_token t) as [m1|] eqn:E1; [|discriminate].
    destruct (match_tokens ts) as [ms|] eqn:E2; [|discriminate].
    intros [= <-] H. apply in_flat_map in H.
    destruct H as ([f1 r1] & H1 & H). apply in_map_iff in H.
    destruct H as ([fs r'] & [= <- <-] & H2).
    destruct (match_token_shape _ _ _ _ _ E1 H1) as (a & -> & Ha).
    destruct (IH _ _ _ _ eq_refl H2) as (b & -> & Hb & Hk).
    exists (a ++ b). split; [symmetry; apply append_assoc|].
    split; [exists a, b; auto|].
    rewrite map_app, Hk.
    destruct t as [d| |c]; cbn [match_token] in E1.
    + destruct (directive_matcher d); [|discriminate].
      injection E1 as <-. apply in_map_iff in H1.
      destruct H1 as ([v ?] & [= <- <-] & _). reflexivity.
    + injection E1 as <-. apply in_map_iff in H1.
      destruct H1 as ([? ?] & [= <- <-] & _). reflexivity.
    + injection E1 as <-. apply in_map_iff in H1.
      destruct H1 as ([? ?] & [= <- <-] & _). reflexivity.
Qed.

(** A successful [strptime]: the whole text has the shape of the format. *)
Lemma strptime_shape data fmt d :
  strptime data fmt = Ok d ->
  exists f, shape (tokens fmt) data /\ map fst f = keys (tokens fmt)
            /\ build_datetime f = Ok d.
Proof.
  unfold strptime.
  destruct (match_tokens (tokens fmt)) as [m|] eqn:E; [|discriminate].
  destruct (m data) as [|[f [|c r]] l] eqn:El; try discriminate.
  intros H. exists f.
  destruct (match_tokens_shape _ _ data f "" E) as (a & Ha & Hs & Hk).
  { rewrite El. left. reflexivity. }
  rewrite append_nil_r in Ha. subst a. auto.
Qed.

Ltac by_cases_on c :=
  destruct c as [[] [] [] [] [] [] [] []]; vm_compute; congruence.

Lemma all_chars_app p a b :
  all_chars p (a ++ b) = all_chars p a && all_chars p b.
Proof.
  induction a as [|x a IH]; [reflexivity|].
  rewrite append_cons. cbn [all_chars]. rewrite IH. apply andb_assoc.
Qed.

Lemma all_chars_impl (p q : ascii -> bool) a :
  (forall c, p c = true -> q c = true) ->
  all_chars p a = true -> all_chars q a = true.
Proof.
  intros Hpq. induction a as [|x a IH]; [reflexivity|]. cbn [all_chars].
  intros H. apply andb_true_iff in H as [H1 H2].
  rewrite (Hpq _ H1), (IH H2). reflexivity.
Qed.

Lemma count_char_app c a b :
  count_char c (a ++ b) = count_char c a + count_char c b.
Proof.
  induction a as [|x a IH]; [reflexivity|].
  rewrite append_cons. cbn [count_char]. rewrite IH. lia.
Qed.

Lemma count_char_absent c a :
  all_chars (fun x => negb (Ascii.eqb c x)) a = true -> count_char c a = 0.
Proof.
  induction a as [|x a IH]; [reflexivity|]. cbn [all_chars count_char].
  intros H. apply andb_true_iff in H as [H1 H2].
  apply negb_true_iff in H1. rewrite H1, (IH H2). reflexivity.
Qed.

Lemma upper_app a b : upper (a ++ b) = upper a ++ upper b.
Proof.
  induction a as [|x a IH]; [reflexivity|].
  rewrite append_cons. cbn [upper]. rewrite IH. reflexivity.
Qed.

Lemma contains_app_r sub a b : contains sub b = true -> contains sub (a ++ b) = true.
Proof.
  intros H. induction a as [|x a IH]; [exact H|].
  rewrite append_cons. cbn [contains]. rewrite IH. apply orb_true_r.
Qed.

Lemma contains_absent x y s :
  all_chars (fun c => negb (Ascii.eqb x c)) s = true ->
  contains (String x y) s = false.
Proof.
  induction s as [|c s IH]; [reflexivity|]. cbn [all_chars contains].
  intros H. apply andb_true_iff in H as [H1 H2]. apply negb_true_iff in H1.
  rewrite (IH H2), orb_false_r. cbn [String.prefix].
  destruct (ascii_dec x c) as [->|_]; [|reflexivity].
  rewrite Ascii.eqb_refl in H1. discriminate.
Qed.

Lemma all_chars_upper p s :
  all_chars (fun c => p (upper_char c)) s = all_chars p (upper s).
Proof.
  induction s as [|c s IH]; [reflexivity|]. cbn [all_chars upper].
  rewrite IH. reflexivity.
Qed.

Lemma time_char_not_letter x c :
  x = "A"%char \/ x = "P"%char ->
  time_char c = true -> negb (Ascii.eqb x (upper_char c)) = true.
Proof. intros [->| ->]; by_cases_on c. Qed.

Lemma plain_no_meridiem s : all_chars time_char s = true -> has_meridiem s = false.
Proof.
  intros H. unfold has_meridiem.
  rewrite !contains_absent; [reflexivity| |];
    rewrite <- all_chars_upper; revert H; apply all_chars_impl;
    intros c; apply time_char_not_letter; auto.
Qed.

Lemma meridiem_pair c1 c2 :
  (is_letter "a" c1 || is_letter "p" c1) && is_letter "m" c2 = true ->
  has_meridiem (String c1 (String c2 EmptyString)) = true.
Proof.
  unfold is_letter. intros H. apply andb_true_iff in H as [H1 H2].
  apply orb_true_iff in H1 as [H1|H1];
    apply orb_true_iff in H1 as [H1|H1];
    apply orb_true_iff in H2 as [H2|H2];
    apply Ascii.eqb_eq in H1, H2; subst c1 c2; vm_compute; reflexivity.
Qed.

Lemma has_meridiem_app a b : has_meridiem b = true -> has_meridiem (a ++ b) = true.
Proof.
  unfold has_meridiem. intros H. rewrite upper_app.
  apply orb_true_iff in H as [H|H]; rewrite (contains_app_r _ _ _ H);
    [reflexivity | apply orb_true_r].
Qed.

Lemma token_shape_plain t a :
  plain_token t = true -> token_shape t a ->
  all_chars time_char a = true
  /\ count_char ":" a = colons [t].
Proof.
  destruct t as [d| |c]; cbn [plain_token token_shape].
  - intros Hd. apply negb_true_iff in Hd. rewrite Hd. intros H. split.
    + revert H. apply all_chars_impl. intros c. by_cases_on c.
    + cbn [colons]. apply count_char_absent. revert H. apply all_chars_impl.
      intros c. by_cases_on c.
  - intros _ H. split.
    + revert H. apply all_chars_impl. intros c. by_cases_on c.
    + cbn [colons]. apply count_char_absent. revert H. apply all_chars_impl.
      intros c. by_cases_on c.
  - intros Hc ->. apply Ascii.eqb_eq in Hc. subst c. split; reflexivity.
Qed.

Lemma colons_cons t ts : colons (t :: ts) = colons [t] + colons ts.
Proof.
  destruct t as [d| |c]; cbn [colons]; try lia.
  destruct c as [[] [] [] [] [] [] [] []]; lia.
Qed.

Lemma shape_plain ts : forall a,
  forallb plain_token ts = true -> shape ts a ->
  all_chars time_char a = true /\ count_char ":" a = colons ts.
Proof.
  induction ts as [|t ts IH]; intros a; cbn [forallb shape].
  - intros _ ->. split; reflexivity.
  - intros H (b & c & -> & Hb & Hc). apply andb_true_iff in H as [Ht Hts].
    destruct (token_shape_plain t b Ht Hb) as [Hb1 Hb2].
    destruct (IH c Hts Hc) as [Hc1 Hc2].
    rewrite all_chars_app, count_char_app, Hb1, Hc1, Hb2, Hc2, (colons_cons t ts).
    split; reflexivity.
Qed.

Lemma shape_meridiem ts : forall a,
  shape (ts ++ [Directive "p"]) a -> has_meridiem a = true.
Proof.
  induction ts as [|t ts IH]; intros a.
  - cbn. intros (b & c & -> & (c1 & c2 & -> & H) & ->).
    rewrite append_nil_r. apply meridiem_pair. exact H.
  - cbn [app shape]. intros (b & c & -> & _ & Hc).
    apply has_meridiem_app. apply IH. exact Hc.
Qed.

(** *** What a parsed time looks like *)

Lemma strptime_24_hour data fmt d :
  fmt = "%H:%M:%S" \/ fmt = "%H:%M" ->
  strptime data fmt = Ok d ->
  has_meridiem data = false
  /\ count_char ":" data = (if String.eqb fmt "%H:%M:%S" then 2 else 1).
Proof.
  intros Hfmt H. destruct (strptime_shape _ _ _ H) as (f & Hs & _ & _).
  destruct Hfmt as [-> | ->];
    (apply shape_plain in Hs; [|vm_compute; reflexivity]);
    destruct Hs as [H1 H2]; (split; [apply plain_no_meridiem; exact H1|exact H2]).
Qed.

Lemma strptime_12_hour data fmt d :
  fmt = "%I:%M %p" \/ fmt = "%I:%M:%S %p" ->
  strptime data fmt = Ok d -> has_meridiem data = true.
Proof.
  intros Hfmt H. destruct (strptime_shape _ _ _ H) as (f & Hs & _ & _).
  destruct Hfmt as [-> | ->].
  - apply (shape_meridiem [Directive "I"; Literal ":"; Directive "M"; Spaces]).
    exact Hs.
  - apply (shape_meridiem [Directive "I"; Literal ":"; Directive "M"; Literal ":";
                           Directive "S"; Spaces]).
    exact Hs.
Qed.

Lemma new_datetime_valid y m d hh mm ss x :
  new_datetime y m d hh mm ss = Ok x ->
  dt_date x = mkdate y m d /\ dt_time x = mktime hh mm ss
  /\ valid_time (dt_time x).
Proof.
  unfold new_datetime, new_date, rbind.
  repeat match goal with
         | |- context [if negb ?b then _ else _] => destruct b eqn:?; cbn [negb]
         end; try discriminate.
  intros [= <-]. cbn. unfold valid_time. cbn. repeat split; lia.
Qed.

Lemma lookup_group_absent d f : ~ In d (map fst f) -> lookup_group d f = None.
Proof.
  unfold lookup_group. induction f as [|[k v] f IH]; [reflexivity|].
  cbn [map fst In find]. intros H.
  destruct (Ascii.eqb_spec k d) as [->|_]; [tauto|]. apply IH. tauto.
Qed.

(** The four formats leave the date at 1 January 1900. *)
Lemma strptime_time_format data fmt d :
  In fmt formats -> strptime data fmt = Ok d ->
  dt_date d = mkdate 1900 1 1 /\ valid_time (dt_time d).
Proof.
  intros Hfmt H. destruct (strptime_shape _ _ _ H) as (f & _ & Hk & Hb).
  unfold build_datetime in Hb. apply new_datetime_valid in Hb.
  destruct Hb as (Hd & _ & Hv). split; [|exact Hv]. rewrite Hd.
  assert (HY : lookup_group "Y" f = None /\ lookup_group "m" f = None
               /\ lookup_group "d" f = None).
  { repeat split; apply lookup_group_absent; rewrite Hk;
      cbn in Hfmt; destruct Hfmt as [<-|[<-|[<-|[<-|[]]]]]; vm_compute;
      intuition congruence. }
  destruct HY as (HY & Hm & Hdd). unfold group_or. rewrite HY, Hm, Hdd.
  reflexivity.
Qed.

Lemma first_format_sound fmts data d :
  first_format fmts data = Ok (Some d) ->
  exists fmt, In fmt fmts /\ strptime data fmt = Ok d.
Proof.
  induction fmts as [|fmt rest IH]; cbn [first_format]; [discriminate|].
  unfold except_ValueError, try_except, rbind.
  destruct (strptime data fmt) as [x|e] eqn:E.
  - intros [= <-]. exists fmt. split; [left; reflexivity|exact E].
  - apply strptime_raises in E. subst e. intros H.
    destruct (IH H) as (fmt' & Hin & Hf). exists fmt'. split; [right|]; assumption.
Qed.

Lemma parsed_obj_valid x d :
  parsed_obj x = Some d -> dt_date d = mkdate 1900 1 1 /\ valid_time (dt_time d).
Proof.
  unfold parsed_obj, parse_time_obj.
  destruct (first_format formats (strip (py_str x))) as [o|e] eqn:E; [|discriminate].
  intros ->. destruct (first_format_sound _ _ _ E) as (fmt & Hin & Hf).
  eapply strptime_time_format; eassumption.
Qed.

Lemma parsed_truthy x d : parsed_obj x = Some d -> truthy x = true.
Proof.
  intros H. destruct (truthy x) eqn:E; [reflexivity|].
  rewrite (parsed_time_absent x E) in H. discriminate.
Qed.

(** *** [parse_time] accepts what [parse_time_simple] accepts *)

Lemma strptime_cases data fmt :
  (exists d, strptime data fmt = Ok d) \/ strptime data fmt = Raise ValueError.
Proof.
  destruct (strptime data fmt) as [d|e] eqn:E; [left; eauto|right].
  apply strptime_raises in E. subst e. reflexivity.
Qed.

Lemma parse_time_parsed time_str date_str :
  parse_time time_str date_str
  = match parsed_obj (Some time_str) with
    | Some t =>
        do date_obj <- strptime date_str "%Y-%m-%d";
        Ok (combine (dt_date date_obj) (dt_time t))
    | None => Raise ValueError
    end.
Proof.
  unfold parse_time, parsed_obj, parse_time_obj. cbn [py_str].
  set (t := strip time_str). unfold formats. cbn [first_format].
  unfold except_ValueError, try_except.
  destruct (strptime_cases t "%I:%M %p") as [[d1 H1]| H1];
    destruct (strptime_cases t "%I:%M:%S %p") as [[d2 H2]| H2];
    destruct (strptime_cases t "%H:%M:%S") as [[d3 H3]| H3];
    destruct (strptime_cases t "%H:%M") as [[d4 H4]| H4];
    try (pose proof (strptime_12_hour _ _ _ (or_introl eq_refl) H1) as M1);
    try (pose proof (strptime_12_hour _ _ _ (or_intror eq_refl) H2) as M2);
    try (pose proof (strptime_24_hour _ _ _ (or_introl eq_refl) H3) as [M3 C3]);
    try (pose proof (strptime_24_hour _ _ _ (or_intror eq_refl) H4) as [M4 C4]);
    try congruence;
    rewrite ?H1, ?H2, ?H3, ?H4; cbn [rbind];
    try rewrite M1; try rewrite M2; try rewrite M3; try rewrite M4;
    rewrite ?H1, ?H2, ?H3, ?H4; cbn [rbind];
    try (cbn in C3; rewrite C3); try (cbn in C4; rewrite C4);
    cbn [Z.eqb Pos.eqb]; rewrite ?H1, ?H2, ?H3, ?H4; cbn [rbind];
    try reflexivity.
  all: destruct (has_meridiem t); [|destruct (count_char ":" t =? 2)];
    rewrite ?H1, ?H2, ?H3, ?H4; reflexivity.
Qed.

Lemma time_lt_seconds a b :
  valid_time a -> valid_time b ->
  time_lt a b = (seconds_of_day a <? seconds_of_day b).
Proof.
  unfold valid_time, time_lt, seconds_of_day.
  destruct a as [h1 m1 s1], b as [h2 m2 s2]. cbn.
  intros (Hh1 & Hm1 & Hs1) (Hh2 & Hm2 & Hs2).
  destruct (Z.ltb_spec h1 h2); destruct (Z.eqb_spec h1 h2);
    destruct (Z.ltb_spec m1 m2); destruct (Z.eqb_spec m1 m2);
    destruct (Z.ltb_spec s1 s2);
    destruct (Z.ltb_spec (s1 + m1 * 60 + h1 * 3600) (s2 + m2 * 60 + h2 * 3600));
    cbn; try reflexivity; lia.
Qed.

Lemma seconds_of_day_range t : valid_time t -> 0 <= seconds_of_day t < 86400.
Proof.
  unfold valid_time, seconds_of_day. destruct t as [h m s]. cbn. lia.
Qed.

Lemma hundredths_zero : binary64 (inject_Z 0 / inject_Z 100) = Fin 0.
Proof. vm_compute. reflexivity. Qed.

(** The hours between two parsed punches on a valid date. *)
Lemma working_hours_of_times punch_in punch_out date_str d d1 d2 :
  strptime date_str "%Y-%m-%d" = Ok d ->
  parsed_obj punch_in = Some d1 -> parsed_obj punch_out = Some d2 ->
  let secs := seconds_of_day (dt_time d2) - seconds_of_day (dt_time d1) in
  calculate_working_hours punch_in punch_out date_str
  = Some (if time_lt (dt_time d2) (dt_time d1) then Fin 0
          else binary64 (inject_Z (hundredths secs) / inject_Z 100))
  /\ Z.abs (36 * hundredths secs - secs) <= 18.
Proof.
  intros Hd H1 H2 secs.
  destruct (parsed_obj_valid _ _ H1) as [_ V1].
  destruct (parsed_obj_valid _ _ H2) as [_ V2].
  pose proof (seconds_of_day_range _ V1) as R1.
  pose proof (seconds_of_day_range _ V2) as R2.
  assert (Hs : -86400 < secs < 86400) by (subst secs; lia).
  destruct (round_hours secs Hs) as (Hr & Hk & Hp & Hn).
  split; [|exact Hk].
  unfold calculate_working_hours.
  rewrite (parsed_truthy _ _ H1), (parsed_truthy _ _ H2). cbn [negb orb].
  assert (P1 : parse_time (py_str punch_in) date_str
               = Ok (combine (dt_date d) (dt_time d1))).
  { rewrite parse_time_parsed.
    destruct punch_in as [s|]; [|discriminate (parsed_truthy _ _ H1)].
    cbn [py_str]. rewrite H1, Hd. reflexivity. }
  assert (P2 : parse_time (py_str punch_out) date_str
               = Ok (combine (dt_date d) (dt_time d2))).
  { rewrite parse_time_parsed.
    destruct punch_out as [s|]; [|discriminate (parsed_truthy _ _ H2)].
    cbn [py_str]. rewrite H2, Hd. reflexivity. }
  rewrite P1, P2. cbn [rbind].
  unfold diff_seconds, combine. cbn [dt_date dt_time].
  rewrite Z.sub_diag, Z.mul_0_l, Z.add_0_l. fold secs.
  rewrite Hr, max_0_hundredths by lia.
  rewrite (time_lt_seconds _ _ V2 V1).
  destruct (Z.ltb_spec (seconds_of_day (dt_time d2)) (seconds_of_day (dt_time d1)))
    as [Hlt|Hge].
  - assert (Hk0 : hundredths secs <= 0) by (apply Hn; subst secs; lia).
    destruct (Z.leb_spec 0 (hundredths secs)) as [H0|H0]; [|reflexivity].
    replace (hundredths secs) with 0 by lia. rewrite hundredths_zero. reflexivity.
  - assert (Hk0 : 0 <= hundredths secs) by (apply Hp; subst secs; lia).
    destruct (Z.leb_spec 0 (hundredths secs)) as [H0|H0]; [reflexivity|lia].
Qed.

Lemma working_hours_none punch_in punch_out date_str d :
  strptime date_str "%Y-%m-%d" = Ok d ->
  (calculate_working_hours punch_in punch_out date_str = None
   <-> truthy punch_in = false \/ truthy punch_out = false
       \/ parse_time_simple punch_in = Ok None
       \/ parse_time_simple punch_out = Ok None).
Proof.
  intros Hd. rewrite !parse_time_simple_parsed. unfold parsed_time.
  destruct (parsed_obj punch_in) as [d1|] eqn:H1;
    destruct (parsed_obj punch_out) as [d2|] eqn:H2.
  - destruct (working_hours_of_times _ _ _ _ _ _ Hd H1 H2) as [-> _].
    rewrite (parsed_truthy _ _ H1), (parsed_truthy _ _ H2). cbn.
    split; [discriminate|]. intros [?|[?|[?|?]]]; discriminate.
  - split; [auto|]. intros _. unfold calculate_working_hours.
    destruct (negb (truthy punch_in) || negb (truthy punch_out)) eqn:E;
      [reflexivity|].
    apply orb_false_iff in E as [E1 E2]. apply negb_false_iff in E1, E2.
    destruct punch_out as [s|]; [|discriminate].
    rewrite !parse_time_parsed. cbn [py_str]. rewrite H2.
    destruct (match parsed_obj _ with Some _ => _ | None => _ end);
      reflexivity.
  - split; [cbn; auto|]. intros _. unfold calculate_working_hours.
    destruct (negb (truthy punch_in) || negb (truthy punch_out)) eqn:E;
      [reflexivity|].
    apply orb_false_iff in E as [E1 E2]. apply negb_false_iff in E1, E2.
    destruct punch_in as [s|]; [|discriminate].
    rewrite !parse_time_parsed. cbn [py_str]. rewrite H1. reflexivity.
  - split; [cbn; auto|]. intros _. unfold calculate_working_hours.
    destruct (negb (truthy punch_in) || negb (truthy punch_out)) eqn:E;
      [reflexivity|].
    apply orb_false_iff in E as [E1 E2]. apply negb_false_iff in E1, E2.
    destruct punch_in as [s|]; [|discriminate].
    rewrite !parse_time_parsed. cbn [py_str]. rewrite H1. reflexivity.
Qed.

(** ** When [calculate_status] raises *)

Lemma calculate_status_half_day_raises punch_in punch_out working_hours date_str
    settings break_start break_end max_break e :
  py_float (settings_get settings "max_break_duration" (SInt 60)) = Ok max_break ->
  strptime_time (settings_get settings "half_day_time" (SStr "14:00")) "%H:%M"
  = Raise e ->
  truthy punch_in = true ->
  calculate_status punch_in punch_out working_hours date_str settings
                   break_start break_end
  = Raise e.
Proof.
  intros Hmb Hhd Hin. unfold calculate_status. rewrite Hmb. cbn [rbind].
  rewrite Hin. cbn [negb]. unfold classify_present.
  unfold bind at 1.
  destruct (negb (truthy punch_out)); cbn [update];
    unfold bind at 1; unfold lift at 1; rewrite parse_time_simple_parsed;
    unfold bind at 1; unfold lift at 1; rewrite parse_time_simple_parsed;
    unfold bind at 1; unfold lift at 1; rewrite Hhd; reflexivity.
Qed.

(** The function returns exactly when the break limit converts and, with
    [punch_in] there, the half-day time parses. *)
Lemma calculate_status_returns punch_in punch_out working_hours date_str
    settings break_start break_end :
  is_ok (calculate_status punch_in punch_out working_hours date_str settings
                          break_start break_end)
  = is_ok (py_float (settings_get settings "max_break_duration" (SInt 60)))
    && (negb (truthy punch_in)
        || is_ok (strptime_time
                    (settings_get settings "half_day_time" (SStr "14:00"))
                    "%H:%M")).
Proof.
  destruct (py_float (settings_get settings "max_break_duration" (SInt 60)))
    as [max_break|e] eqn:Hmb.
  - destruct (truthy punch_in) eqn:Hin.
    + destruct (strptime_time _ "%H:%M") as [t|e] eqn:Hhd.
      * rewrite (calculate_status_classify _ _ _ _ _ _ _ _ _ Hmb Hhd Hin).
        reflexivity.
      * rewrite (calculate_status_half_day_raises _ _ _ _ _ _ _ _ _ Hmb Hhd Hin).
        reflexivity.
    + rewrite (calculate_status_absent _ _ _ _ _ _ _ _ Hmb Hin). reflexivity.
  - unfold calculate_status. rewrite Hmb. reflexivity.
Qed.

(** ** The claims about [calculate_status] *)

(** C1.  [calculate_status] is not total: a half-day time or a break limit
    that does not convert raises [ValueError], because the two conversions are
    outside every [try].  And a bound of the break window that does not parse
    is not replaced by its default: the window test is skipped (the first
    result below) where the default would flag the break (the second). *)
Theorem calculate_status_raises_on_corrupt_setting :
  calculate_status (Some "09:00") (Some "18:00") None "2024-01-10"
                   {[ "half_day_time" := SStr "2pm" ]} None None
  = Raise ValueError
  /\ calculate_status (Some "09:00") (Some "18:00") None "2024-01-10"
                      {[ "max_break_duration" := SStr "sixty" ]} None None
     = Raise ValueError
  /\ calculate_status (Some "09:00") (Some "18:00") None "2024-01-10"
                      {[ "standard_break_start" := SStr "1pm" ]}
                      (Some "12:30") (Some "13:30")
     = Ok (mkclassification Present false (Fin 60) false false true)
  /\ calculate_status (Some "09:00") (Some "18:00") None "2024-01-10"
                      ∅ (Some "12:30") (Some "13:30")
     = Ok (mkclassification Present false (Fin 60) false true true).
Proof. repeat split; vm_compute; reflexivity. Qed.

(** C2.  With [punch_in] absent the function still converts the break
    limit before it looks at [punch_in]: with a limit that is not a number it
    raises instead of returning the [Absent] result.  (With a limit that
    converts, the result is the all-default [Absent] one:
    [calculate_status_absent].) *)
Theorem calculate_status_absent_raises_on_corrupt_break_limit :
  calculate_status None (Some "18:00") None "2024-01-10"
                   {[ "max_break_duration" := SStr "abc" ]} None None
  = Raise ValueError.
Proof. vm_compute. reflexivity. Qed.

(** X18.  Where the function returns (the break limit converts and the
    half-day time parses): when a half-day trigger and the lateness condition
    both hold (the punch-in parses and is strictly later than the start
    threshold; the working hours are below 5.0, or the punch-out parses and
    is earlier than the half-day time, or the punch-in is later than the
    half-day time), the status is [Half Day] and [is_late] is true at once.
    And a result whose status is [Late] was [Present] when the lateness rule
    ran: the punch-out is there and no half-day trigger fired. *)
Theorem half_day_overrides_late_label punch_in punch_out working_hours date_str
    settings break_start break_end max_break half_day_threshold :
  py_float (settings_get settings "max_break_duration" (SInt 60)) = Ok max_break ->
  strptime_time (settings_get settings "half_day_time" (SStr "14:00")) "%H:%M"
  = Ok half_day_threshold ->
  (forall in_time,
     parse_time_simple punch_in = Ok (Some in_time) ->
     time_gt in_time (start_threshold settings) = true ->
     some_and working_hours (fun w => float_lt w HALF_DAY_HOURS) = true
     \/ (exists out_time, parse_time_simple punch_out = Ok (Some out_time)
                          /\ time_lt out_time half_day_threshold = true)
     \/ time_gt in_time half_day_threshold = true ->
     exists r, calculate_status punch_in punch_out working_hours date_str settings
                                break_start break_end = Ok r
               /\ c_status r = HalfDay /\ is_late r = true)
  /\ (forall r,
        calculate_status punch_in punch_out working_hours date_str settings
                         break_start break_end = Ok r ->
        c_status r = Late ->
        truthy punch_out = true
        /\ half_day_rule working_hours (parsed_time punch_in)
                         (parsed_time punch_out) half_day_threshold = false
        /\ is_late r = true).
Proof.
  intros Hmb Hhd. split.
  - intros in_time Hin Hlate Htrig.
    rewrite parse_time_simple_parsed in Hin. injection Hin as Hin.
    assert (Htr : truthy punch_in = true).
    { unfold parsed_time in Hin.
      destruct (parsed_obj punch_in) as [d|] eqn:E; [|discriminate].
      exact (parsed_truthy _ _ E). }
    rewrite (calculate_status_classify _ _ _ _ _ _ _ _ _ Hmb Hhd Htr).
    eexists. split; [reflexivity|].
    assert (Hl : late_of punch_in settings = true).
    { unfold late_of. rewrite Hin. exact Hlate. }
    assert (Hh : half_day_rule working_hours (parsed_time punch_in)
                   (parsed_time punch_out) half_day_threshold = true).
    { unfold half_day_rule. rewrite Hin. cbn [some_and].
      destruct Htrig as [H|[(out_time & Hout & H)|H]].
      - rewrite H. destruct (some_and (parsed_time punch_out) _);
          destruct (time_gt in_time half_day_threshold); reflexivity.
      - rewrite parse_time_simple_parsed in Hout. injection Hout as ->.
        cbn [some_and]. rewrite H.
        destruct (time_gt in_time half_day_threshold); reflexivity.
      - rewrite H. reflexivity. }
    unfold classify. rewrite Hl, Hh. unfold status_of.
    destruct (truthy break_start && truthy break_end);
      [destruct (parsed_obj break_start); [destruct (parsed_obj break_end)|]|];
      split; reflexivity.
  - intros r Hr Hst.
    destruct (truthy punch_in) eqn:Htr.
    + rewrite (calculate_status_classify _ _ _ _ _ _ _ _ _ Hmb Hhd Htr) in Hr.
      injection Hr as <-. revert Hst. unfold classify, status_of.
      destruct (half_day_rule _ _ _ _); destruct (truthy punch_out);
        destruct (late_of punch_in settings);
        (destruct (truthy break_start && truthy break_end);
         [destruct (parsed_obj break_start); [destruct (parsed_obj break_end)|]|]);
        cbn; intros; try discriminate; auto.
    + rewrite (calculate_status_absent _ _ _ _ _ _ _ _ Hmb Htr) in Hr.
      injection Hr as <-. discriminate.
Qed.

Lemma half_day_overrides_late_label_witness :
  py_float (settings_get ∅ "max_break_duration" (SInt 60)) = Ok (Fin 60)
  /\ strptime_time (settings_get ∅ "half_day_time" (SStr "14:00")) "%H:%M"
     = Ok (mktime 14 0 0)
  /\ parse_time_simple (Some "03:00 PM") = Ok (Some (mktime 15 0 0))
  /\ time_gt (mktime 15 0 0) (start_threshold ∅) = true
  /\ time_gt (mktime 15 0 0) (mktime 14 0 0) = true
  /\ exists r, calculate_status (Some "03:00 PM") (Some "18:30") None "2024-01-10"
                                ∅ None None = Ok r
               /\ c_status r = HalfDay /\ is_late r = true.
Proof.
  assert (H1 : py_float (settings_get ∅ "max_break_duration" (SInt 60))
               = Ok (Fin 60)) by (vm_compute; reflexivity).
  assert (H2 : strptime_time (settings_get ∅ "half_day_time" (SStr "14:00")) "%H:%M"
               = Ok (mktime 14 0 0)) by (vm_compute; reflexivity).
  assert (H3 : parse_time_simple (Some "03:00 PM") = Ok (Some (mktime 15 0 0)))
    by (vm_compute; reflexivity).
  assert (H4 : time_gt (mktime 15 0 0) (start_threshold ∅) = true)
    by (vm_compute; reflexivity).
  assert (H5 : time_gt (mktime 15 0 0) (mktime 14 0 0) = true)
    by (vm_compute; reflexivity).
  repeat (split; [assumption|]).
  exact (proj1 (half_day_overrides_late_label (Some "03:00 PM") (Some "18:30") None
                  "2024-01-10" ∅ None None (Fin 60) (mktime 14 0 0) H1 H2)
               (mktime 15 0 0) H3 H4 (or_intror (or_intror H5))).
Defined.

(** C3.  The function does not return on every input that triggers both
    conditions: with working hours of 3.0 and a punch-in at 10:00, later than
    the start threshold, a break limit or a half-day time that does not
    convert raises [ValueError] where the claim has [Half Day] with [is_late].
    The two conversions are outside every [try]; where they succeed the claim
    holds (X18). *)
Theorem half_day_and_late_raise_on_corrupt_setting :
  some_and (Some (Fin 3)) (fun w => float_lt w HALF_DAY_HOURS) = true
  /\ parse_time_simple (Some "10:00") = Ok (Some (mktime 10 0 0))
  /\ time_gt (mktime 10 0 0)
             (start_threshold {[ "max_break_duration" := SStr "abc" ]}) = true
  /\ calculate_status (Some "10:00") (Some "18:00") (Some (Fin 3)) "2024-01-10"
                      {[ "max_break_duration" := SStr "abc" ]} None None
     = Raise ValueError
  /\ time_gt (mktime 10 0 0)
             (start_threshold {[ "half_day_time" := SStr "2pm" ]}) = true
  /\ calculate_status (Some "10:00") (Some "18:00") (Some (Fin 3)) "2024-01-10"
                      {[ "half_day_time" := SStr "2pm" ]} None None
     = Raise ValueError.
Proof. repeat split; vm_compute; reflexivity. Qed.




Lemma parsed_1305 : parsed_obj (Some "13:05")
                    = Some (mkdatetime (mkdate 1900 1 1) (mktime 13 5 0)).
Proof. vm_compute. reflexivity. Qed.
Lemma parsed_1350 : parsed_obj (Some "13:50")
                    = Some (mkdatetime (mkdate 1900 1 1) (mktime 13 50 0)).
Proof. vm_compute. reflexivity. Qed.
Lemma parsed_1230 : parsed_obj (Some "12:30")
                    = Some (mkdatetime (mkdate 1900 1 1) (mktime 12 30 0)).
Proof. vm_compute. reflexivity. Qed.
Lemma parsed_1430 : parsed_obj (Some "14:30")
                    = Some (mkdatetime (mkdate 1900 1 1) (mktime 14 30 0)).
Proof. vm_compute. reflexivity. Qed.

(** C7, as stated, fails when [punch_in] is absent: the function returns
    before the break rule, with a break duration of 0.0 and no flag. *)
Lemma break_window_needs_punch_in :
  ~ (forall punch_in punch_out working_hours date_str,
       exists r, calculate_status punch_in punch_out working_hours date_str
                   {[ "standard_break_start" := SStr "13:00";
                      "standard_break_end" := SStr "14:00";
                      "max_break_duration" := SInt 60 ]}
                   (Some "13:05") (Some "13:50") = Ok r
                 /\ break_exceeded r = false
                 /\ is_break_outside_window r = false
                 /\ break_duration r = Fin 45).
Proof.
  intros H.
  destruct (H None (Some "18:00") None "2024-01-10") as (r & Hr & _ & _ & Hd).
  vm_compute in Hr. injection Hr as <-. vm_compute in Hd. discriminate.
Qed.

(** C7, amended.  With the break window 13:00 to 14:00 and a limit of 60
    minutes, where the half-day time parses (the call returns), for
    every punch-in that is there, every punch-out, working hours and date: a
    break from 13:05 to 13:50 lasts 45.0 minutes, does not exceed the limit
    and is inside the window; a break from 12:30 to 14:30 lasts 120.0 minutes,
    exceeds the limit and is outside the window. *)
Theorem break_window_scenarios punch_in punch_out working_hours date_str settings
    limit half_day_threshold :
  truthy punch_in = true ->
  settings !! "standard_break_start" = Some (SStr "13:00") ->
  settings !! "standard_break_end" = Some (SStr "14:00") ->
  settings !! "max_break_duration" = Some limit ->
  limit = SInt 60 \/ limit = SStr "60" ->
  strptime_time (settings_get settings "half_day_time" (SStr "14:00")) "%H:%M"
  = Ok half_day_threshold ->
  (exists r, calculate_status punch_in punch_out working_hours date_str settings
                              (Some "13:05") (Some "13:50") = Ok r
             /\ break_exceeded r = false
             /\ is_break_outside_window r = false
             /\ break_duration r = Fin 45)
  /\ (exists r, calculate_status punch_in punch_out working_hours date_str settings
                                 (Some "12:30") (Some "14:30") = Ok r
                /\ is_break_outside_window r = true
                /\ break_duration r = Fin 120
                /\ break_exceeded r = true).
Proof.
  intros Hin Hbs Hbe Hmax Hlimit Hhd.
  assert (Hmb : py_float (settings_get settings "max_break_duration" (SInt 60))
                = Ok (Fin 60)).
  { unfold settings_get. rewrite Hmax.
    destruct Hlimit as [-> | ->]; vm_compute; reflexivity. }
  rewrite !(calculate_status_classify _ _ _ _ _ _ _ _ _ Hmb Hhd Hin).
  unfold classify. cbn [truthy andb].
  rewrite parsed_1305, parsed_1350, parsed_1230, parsed_1430.
  unfold window_of, settings_get. rewrite Hbs, Hbe.
  split; eexists; (split; [reflexivity|]); repeat split; vm_compute; reflexivity.
Qed.

Lemma break_window_scenarios_witness :
  (exists r, calculate_status (Some "09:00") (Some "18:30") None "2024-01-10"
               {[ "standard_break_start" := SStr "13:00";
                  "standard_break_end" := SStr "14:00";
                  "max_break_duration" := SInt 60 ]}
               (Some "13:05") (Some "13:50") = Ok r
             /\ break_exceeded r = false
             /\ is_break_outside_window r = false
             /\ break_duration r = Fin 45)
  /\ (exists r, calculate_status (Some "09:00") (Some "18:30") None "2024-01-10"
                  {[ "standard_break_start" := SStr "13:00";
                     "standard_break_end" := SStr "14:00";
                     "max_break_duration" := SInt 60 ]}
                  (Some "12:30") (Some "14:30") = Ok r
                /\ is_break_outside_window r = true
                /\ break_duration r = Fin 120
                /\ break_exceeded r = true).
Proof.
  apply (break_window_scenarios (Some "09:00") (Some "18:30") None "2024-01-10"
           {[ "standard_break_start" := SStr "13:00";
              "standard_break_end" := SStr "14:00";
              "max_break_duration" := SInt 60 ]}
           (SInt 60) (mktime 14 0 0));
    first [ left; reflexivity | vm_compute; reflexivity ].
Defined.

(** X19.  Where the function returns (the break limit converts and the
    half-day time parses), presence is decided by the punches being non-empty,
    not by their parsing: with a non-empty punch-in that no format parses, no
    working hours and no break, the result is [Present] with every flag false
    when the punch-out is non-empty and does not parse either, and
    [Incomplete] with every flag false when the punch-out is absent. *)
Theorem presence_ignores_parse_failure punch_in punch_out date_str settings
    max_break half_day_threshold :
  py_float (settings_get settings "max_break_duration" (SInt 60)) = Ok max_break ->
  strptime_time (settings_get settings "half_day_time" (SStr "14:00")) "%H:%M"
  = Ok half_day_threshold ->
  truthy punch_in = true ->
  parse_time_simple punch_in = Ok None ->
  (truthy punch_out = true -> parse_time_simple punch_out = Ok None ->
   calculate_status punch_in punch_out None date_str settings None None
   = Ok (mkclassification Present false (Fin 0) false false false))
  /\ (truthy punch_out = false ->
      calculate_status punch_in punch_out None date_str settings None None
      = Ok (mkclassification Incomplete false (Fin 0) false false false)).
Proof.
  intros Hmb Hhd Hin Hpin.
  rewrite parse_time_simple_parsed in Hpin. injection Hpin as Hpin.
  rewrite (calculate_status_classify _ _ _ _ _ _ _ _ _ Hmb Hhd Hin).
  unfold classify, late_of, early_of, half_day_rule, status_of.
  rewrite Hpin. cbn [some_and truthy andb].
  split.
  - intros Hout Hpout. rewrite parse_time_simple_parsed in Hpout.
    injection Hpout as ->. rewrite Hout. reflexivity.
  - intros Hout. unfold parsed_time. rewrite (parsed_time_absent _ Hout), Hout.
    reflexivity.
Qed.

Lemma presence_ignores_parse_failure_witness :
  calculate_status (Some "garbage") (Some "garbage") None "2024-01-10" ∅ None None
  = Ok (mkclassification Present false (Fin 0) false false false)
  /\ calculate_status (Some "garbage") None None "2024-01-10" ∅ None None
     = Ok (mkclassification Incomplete false (Fin 0) false false false).
Proof.
  assert (H1 : py_float (settings_get ∅ "max_break_duration" (SInt 60))
               = Ok (Fin 60)) by (vm_compute; reflexivity).
  assert (H2 : strptime_time (settings_get ∅ "half_day_time" (SStr "14:00")) "%H:%M"
               = Ok (mktime 14 0 0)) by (vm_compute; reflexivity).
  assert (H3 : parse_time_simple (Some "garbage") = Ok None)
    by (vm_compute; reflexivity).
  split.
  - exact (proj1 (presence_ignores_parse_failure (Some "garbage") (Some "garbage")
                    "2024-01-10" ∅ _ _ H1 H2 eq_refl H3) eq_refl H3).
  - exact (proj2 (presence_ignores_parse_failure (Some "garbage") None
                    "2024-01-10" ∅ _ _ H1 H2 eq_refl H3) eq_refl).
Defined.

(** C8.  The function does not return on every input of the claim: with
    punches that no format parses, no working hours and no break, a half-day
    time or a break limit that does not convert raises [ValueError] where the
    claim has [Present] (or [Incomplete]).  The two conversions are outside
    every [try]; where they succeed the claim holds (X19). *)
Theorem presence_raises_on_corrupt_setting :
  parse_time_simple (Some "garbage") = Ok None
  /\ calculate_status (Some "garbage") (Some "garbage") None "2024-01-10"
                      {[ "half_day_time" := SStr "2pm" ]} None None
     = Raise ValueError
  /\ calculate_status (Some "garbage") (Some "garbage") None "2024-01-10"
                      {[ "max_break_duration" := SStr "abc" ]} None None
     = Raise ValueError
  /\ calculate_status (Some "garbage") None None "2024-01-10"
                      {[ "half_day_time" := SStr "2pm" ]} None None
     = Raise ValueError.
Proof. repeat split; vm_compute; reflexivity. Qed.

(** ** The claims about the parser and [calculate_working_hours] *)

(** C6.  The parser reads ["09:15"], ["09:15:00"], ["9:15 AM"] and
    ["09:15:00 AM"] as 09:15:00, and returns [None], without raising, on
    ["not a time"]. *)
Theorem parser_format_coverage :
  parse_time_simple (Some "09:15") = Ok (Some (mktime 9 15 0))
  /\ parse_time_simple (Some "09:15:00") = Ok (Some (mktime 9 15 0))
  /\ parse_time_simple (Some "9:15 AM") = Ok (Some (mktime 9 15 0))
  /\ parse_time_simple (Some "09:15:00 AM") = Ok (Some (mktime 9 15 0))
  /\ parse_time_simple (Some "not a time") = Ok None.
Proof. repeat split; vm_compute; reflexivity. Qed.

(** C5.  On a valid date, [calculate_working_hours] returns [None] exactly
    when a punch is absent or no format parses it.  Otherwise it returns 0
    when the punch-out is earlier in the day than the punch-in, and else the
    float nearest to [k/100], where [k] hundredths of an hour are within half
    a hundredth of the elapsed time ([|36 k - secs| <= 18] in seconds). *)
Theorem calculate_working_hours_spec punch_in punch_out date_str d :
  strptime date_str "%Y-%m-%d" = Ok d ->
  (calculate_working_hours punch_in punch_out date_str = None
   <-> truthy punch_in = false \/ truthy punch_out = false
       \/ parse_time_simple punch_in = Ok None
       \/ parse_time_simple punch_out = Ok None)
  /\ (forall t_in t_out,
        parse_time_simple punch_in = Ok (Some t_in) ->
        parse_time_simple punch_out = Ok (Some t_out) ->
        let secs := seconds_of_day t_out - seconds_of_day t_in in
        calculate_working_hours punch_in punch_out date_str
        = Some (if time_lt t_out t_in then Fin 0
                else binary64 (inject_Z (hundredths secs) / inject_Z 100))
        /\ Z.abs (36 * hundredths secs - secs) <= 18).
Proof.
  intros Hd. split; [exact (working_hours_none _ _ _ _ Hd)|].
  intros t_in t_out Hin Hout.
  rewrite parse_time_simple_parsed in Hin, Hout.
  injection Hin as Hin. injection Hout as Hout. unfold parsed_time in Hin, Hout.
  destruct (parsed_obj punch_in) as [d1|] eqn:H1; [|discriminate].
  destruct (parsed_obj punch_out) as [d2|] eqn:H2; [|discriminate].
  injection Hin as <-. injection Hout as <-.
  exact (working_hours_of_times _ _ _ _ _ _ Hd H1 H2).
Qed.

Lemma calculate_working_hours_spec_witness :
  strptime "2024-01-10" "%Y-%m-%d"
  = Ok (mkdatetime (mkdate 2024 1 10) (mktime 0 0 0))
  /\ calculate_working_hours (Some "09:45") (Some "18:00") "2024-01-10"
     = Some (binary64 (inject_Z 825 / inject_Z 100))
  /\ calculate_working_hours (Some "18:00") (Some "09:45") "2024-01-10"
     = Some (Fin 0)
  /\ (calculate_working_hours (Some "09:45") (Some "6 pm") "2024-01-10" = None
      <-> truthy (Some "09:45") = false \/ truthy (Some "6 pm") = false
          \/ parse_time_simple (Some "09:45") = Ok None
          \/ parse_time_simple (Some "6 pm") = Ok None).
Proof.
  assert (Hd : strptime "2024-01-10" "%Y-%m-%d"
               = Ok (mkdatetime (mkdate 2024 1 10) (mktime 0 0 0)))
    by (vm_compute; reflexivity).
  assert (H1 : parse_time_simple (Some "09:45") = Ok (Some (mktime 9 45 0)))
    by (vm_compute; reflexivity).
  assert (H2 : parse_time_simple (Some "18:00") = Ok (Some (mktime 18 0 0)))
    by (vm_compute; reflexivity).
  split; [exact Hd|]. split; [|split].
  - exact (proj1 (proj2 (calculate_working_hours_spec (Some "09:45") (Some "18:00")
                           "2024-01-10" _ Hd) _ _ H1 H2)).
  - exact (proj1 (proj2 (calculate_working_hours_spec (Some "18:00") (Some "09:45")
                           "2024-01-10" _ Hd) _ _ H2 H1)).
  - exact (proj1 (calculate_working_hours_spec (Some "09:45") (Some "6 pm")
                    "2024-01-10" _ Hd)).
Defined.

(** ** The claims about [format_hours] *)

(** C9.  [format_hours(None)] is the empty string. *)
Theorem format_hours_none : format_hours None = Ok "".
Proof. reflexivity. Qed.

Lemma format_hours_render x h m :
  hours_minutes x = Ok (h, m) -> format_hours (Some x) = Ok (render h m).
Proof.
  intros H. unfold format_hours, render. rewrite H. cbn [rbind].
  destruct ((h =? 0) && (m =? 0)); [reflexivity|].
  destruct (0 <? h); destruct (0 <? m); reflexivity.
Qed.

(** C10.  For every non-negative finite number of hours, the minutes that
    [format_hours] prints are between 0 and 59: the rounded minutes are
    between 0 and 60, and at 60 the hours go up by one and the minutes back to
    0.  So 1.999 hours print as ["2h"]. *)
Theorem format_hours_minutes_below_60 :
  (forall q : Q,
     (0 <= q)%Q ->
     exists raw h m,
       py_round_int (float_mul (float_sub_int (Fin q) (truncate q)) 60) = Ok raw
       /\ hours_minutes (Fin q) = Ok (h, m)
       /\ format_hours (Some (Fin q)) = Ok (render h m)
       /\ 0 <= m <= 59
       /\ (raw = 60 -> h = truncate q + 1 /\ m = 0)
       /\ (raw <> 60 -> h = truncate q /\ m = raw))
  /\ (do x <- float_of_string "1.999"; format_hours (Some x)) = Ok "2h".
Proof.
  split; [|vm_compute; reflexivity].
  intros q Hq. destruct (minutes_range q Hq) as (raw & Hraw & Hrange).
  assert (Hhm : hours_minutes (Fin q)
                = Ok (if raw =? 60 then (truncate q + 1, 0) else (truncate q, raw))).
  { unfold hours_minutes. cbn [py_int rbind]. rewrite Hraw. cbn [rbind].
    destruct (raw =? 60); reflexivity. }
  destruct (Z.eqb_spec raw 60) as [E|E].
  - exists raw, (truncate q + 1), 0. rewrite (format_hours_render _ _ _ Hhm).
    repeat split; try tauto; try lia; assumption.
  - exists raw, (truncate q), raw. rewrite (format_hours_render _ _ _ Hhm).
    repeat split; try tauto; try lia; assumption.
Qed.

Lemma format_hours_minutes_below_60_witness :
  exists raw h m,
    py_round_int (float_mul (float_sub_int (Fin (1999 # 1000))
                                           (truncate (1999 # 1000))) 60)
    = Ok raw
    /\ hours_minutes (Fin (1999 # 1000)) = Ok (h, m)
    /\ format_hours (Some (Fin (1999 # 1000))) = Ok (render h m)
    /\ 0 <= m <= 59
    /\ (raw = 60 -> h = truncate (1999 # 1000) + 1 /\ m = 0)
    /\ (raw <> 60 -> h = truncate (1999 # 1000) /\ m = raw).
Proof.
  apply (proj1 format_hours_minutes_below_60 (1999 # 1000)).
  unfold Qle. cbn. lia.
Defined.

(** ** The scenarios of the specification *)

Example end_to_end_scenario :
  calculate_working_hours (Some "09:45") (Some "18:00") "2024-01-10"
  = Some (Fin (33 # 4))
  /\ calculate_status (Some "09:45") (Some "18:00") (Some (Fin (33 # 4)))
                      "2024-01-10" ∅ None None
     = Ok (mkclassification Late true (Fin 0) false false true).
Proof. split; vm_compute; reflexivity. Qed.

Example half_day_by_early_leave :
  calculate_status (Some "09:00") (Some "13:30") (Some (Fin (9 # 2)))
                   "2024-01-10" ∅ None None
  = Ok (mkclassification HalfDay false (Fin 0) false false true).
Proof. vm_compute. reflexivity. Qed.

Example incomplete_record :
  calculate_status (Some "09:00") None None "2024-01-10" ∅ None None
  = Ok (mkclassification Incomplete false (Fin 0) false false false).
Proof. vm_compute. reflexivity. Qed.

Example format_hours_examples :
  format_hours (Some (Fin (33 # 4))) = Ok "8h 15m"
  /\ format_hours (Some (Fin 0)) = Ok "0h 0m"
  /\ format_hours (Some (Fin (1 # 4))) = Ok "15m"
  /\ format_hours (Some (Fin 12)) = Ok "12h"
  /\ format_hours (Some PInf) = Raise OverflowError.
Proof. repeat split; vm_compute; reflexivity. Qed.

(** * Further properties of the code *)

(** ** More about [calculate_status] *)

(** X1.  With a punch-in and no punch-out the status is never Present or
    Late: it is Half Day when the working hours are below five or the
    punch-in is after the half-day time, else Incomplete; and the
    early-departure flag stays false. *)
Theorem no_punch_out_status punch_in punch_out working_hours date_str settings
    break_start break_end max_break half_day_threshold :
  py_float (settings_get settings "max_break_duration" (SInt 60)) = Ok max_break ->
  strptime_time (settings_get settings "half_day_time" (SStr "14:00")) "%H:%M"
  = Ok half_day_threshold ->
  truthy punch_in = true ->
  truthy punch_out = false ->
  exists r, calculate_status punch_in punch_out working_hours date_str settings
                             break_start break_end = Ok r
            /\ is_early_departure r = false
            /\ c_status r
               = if some_and working_hours (fun w => float_lt w HALF_DAY_HOURS)
                    || some_and (parsed_time punch_in)
                                (fun t => time_gt t half_day_threshold)
                 then HalfDay else Incomplete.
Proof.
  intros Hmb Hhd Hin Hout.
  rewrite (calculate_status_classify _ _ _ _ _ _ _ _ _ Hmb Hhd Hin).
  eexists. split; [reflexivity|].
  unfold classify, early_of, half_day_rule, status_of, parsed_time.
  rewrite (parsed_time_absent _ Hout), Hout. cbn [fmap option_fmap option_map some_and].
  destruct (some_and working_hours _); destruct (some_and (dt_time <$> _) _);
    destruct (truthy break_start && truthy break_end);
    try (destruct (parsed_obj break_start); [destruct (parsed_obj break_end)|]);
    split; reflexivity.
Qed.

Lemma no_punch_out_status_witness :
  py_float (settings_get ∅ "max_break_duration" (SInt 60)) = Ok (Fin 60)
  /\ strptime_time (settings_get ∅ "half_day_time" (SStr "14:00")) "%H:%M"
     = Ok (mktime 14 0 0)
  /\ truthy (Some "15:10") = true
  /\ truthy None = false
  /\ exists r, calculate_status (Some "15:10") None None "2024-01-10" ∅ None None
               = Ok r
               /\ is_early_departure r = false
               /\ c_status r
                  = if some_and None (fun w => float_lt w HALF_DAY_HOURS)
                       || some_and (parsed_time (Some "15:10"))
                                   (fun t => time_gt t (mktime 14 0 0))
                    then HalfDay else Incomplete.
Proof.
  assert (H1 : py_float (settings_get ∅ "max_break_duration" (SInt 60))
               = Ok (Fin 60)) by (vm_compute; reflexivity).
  assert (H2 : strptime_time (settings_get ∅ "half_day_time" (SStr "14:00")) "%H:%M"
               = Ok (mktime 14 0 0)) by (vm_compute; reflexivity).
  repeat (split; [first [assumption|reflexivity]|]).
  exact (no_punch_out_status (Some "15:10") None None "2024-01-10" ∅ None None
           (Fin 60) (mktime 14 0 0) H1 H2 eq_refl eq_refl).
Defined.

Lemma classify_end_time punch_in punch_out working_hours settings break_start
    break_end max_break half_day_threshold v :
  classify punch_in punch_out working_hours
           (<["standard_end_time" := v]> settings)
           break_start break_end max_break half_day_threshold
  = set_is_early_departure
      (early_of punch_out (<["standard_end_time" := v]> settings))
      (classify punch_in punch_out working_hours settings
                break_start break_end max_break half_day_threshold).
Proof.
  assert (Hget : forall k d, k <> "standard_end_time" ->
            settings_get (<["standard_end_time" := v]> settings) k d
            = settings_get settings k d).
  { intros k d Hk. unfold settings_get. rewrite lookup_insert_ne by congruence.
    reflexivity. }
  assert (Hlate : late_of punch_in (<["standard_end_time" := v]> settings)
                  = late_of punch_in settings).
  { unfold late_of, start_threshold. rewrite Hget by discriminate. reflexivity. }
  assert (Hwin : forall bs be,
            window_of bs be (<["standard_end_time" := v]> settings)
            = window_of bs be settings).
  { intros bs be. unfold window_of. rewrite !Hget by discriminate. reflexivity. }
  unfold classify. rewrite Hlate.
  destruct (truthy break_start && truthy break_end); [|reflexivity].
  destruct (parsed_obj break_start) as [bs|]; [|reflexivity].
  destruct (parsed_obj break_end) as [be|]; [|reflexivity].
  rewrite Hwin. unfold set_is_early_departure.
  cbn [c_status is_late break_duration break_exceeded is_break_outside_window].
  reflexivity.
Qed.

(** X2.  The end of the working day is read by the early-departure test
    only: whatever value is stored for [standard_end_time], the status, the
    late flag and the three break fields stay as they were. *)
Theorem end_time_only_moves_early_flag punch_in punch_out working_hours date_str
    settings break_start break_end max_break half_day_threshold v :
  py_float (settings_get settings "max_break_duration" (SInt 60)) = Ok max_break ->
  strptime_time (settings_get settings "half_day_time" (SStr "14:00")) "%H:%M"
  = Ok half_day_threshold ->
  exists r r',
    calculate_status punch_in punch_out working_hours date_str settings
                     break_start break_end = Ok r
    /\ calculate_status punch_in punch_out working_hours date_str
                        (<["standard_end_time" := v]> settings)
                        break_start break_end = Ok r'
    /\ r' = set_is_early_departure (is_early_departure r') r.
Proof.
  intros Hmb Hhd.
  assert (Hget : forall k d, k <> "standard_end_time" ->
            settings_get (<["standard_end_time" := v]> settings) k d
            = settings_get settings k d).
  { intros k d Hk. unfold settings_get. rewrite lookup_insert_ne by congruence.
    reflexivity. }
  assert (Hmb' : py_float (settings_get (<["standard_end_time" := v]> settings)
                             "max_break_duration" (SInt 60)) = Ok max_break)
    by (rewrite Hget by discriminate; exact Hmb).
  assert (Hhd' : strptime_time (settings_get (<["standard_end_time" := v]> settings)
                                  "half_day_time" (SStr "14:00")) "%H:%M"
                 = Ok half_day_threshold)
    by (rewrite Hget by discriminate; exact Hhd).
  destruct (truthy punch_in) eqn:Hin.
  - rewrite (calculate_status_classify _ _ _ _ _ _ _ _ _ Hmb Hhd Hin).
    rewrite (calculate_status_classify _ _ _ _ _ _ _ _ _ Hmb' Hhd' Hin).
    eexists. eexists. split; [reflexivity|]. split; [reflexivity|].
    rewrite classify_end_time.
    generalize (classify punch_in punch_out working_hours settings break_start
                         break_end max_break half_day_threshold).
    intros [st l bd bx bw ed]. reflexivity.
  - rewrite (calculate_status_absent _ _ _ _ _ _ _ _ Hmb Hin).
    rewrite (calculate_status_absent _ _ _ _ _ _ _ _ Hmb' Hin).
    eexists. eexists. split; [reflexivity|]. split; reflexivity.
Qed.

Lemma end_time_only_moves_early_flag_witness :
  py_float (settings_get ∅ "max_break_duration" (SInt 60)) = Ok (Fin 60)
  /\ strptime_time (settings_get ∅ "half_day_time" (SStr "14:00")) "%H:%M"
     = Ok (mktime 14 0 0)
  /\ exists r r',
       calculate_status (Some "09:00") (Some "17:30") None "2024-01-10" ∅
                        None None = Ok r
       /\ calculate_status (Some "09:00") (Some "17:30") None "2024-01-10"
                           (<["standard_end_time" := SStr "17:00"]> ∅)
                           None None = Ok r'
       /\ r' = set_is_early_departure (is_early_departure r') r.
Proof.
  assert (H1 : py_float (settings_get ∅ "max_break_duration" (SInt 60))
               = Ok (Fin 60)) by (vm_compute; reflexivity).
  assert (H2 : strptime_time (settings_get ∅ "half_day_time" (SStr "14:00")) "%H:%M"
               = Ok (mktime 14 0 0)) by (vm_compute; reflexivity).
  repeat (split; [assumption|]).
  exact (end_time_only_moves_early_flag (Some "09:00") (Some "17:30") None
           "2024-01-10" ∅ None None (Fin 60) (mktime 14 0 0) (SStr "17:00") H1 H2).
Defined.

(** X3.  The break fields keep their defaults (duration 0, no flag) unless
    both break times are given and both parse. *)
Theorem break_needs_two_parsed_times punch_in punch_out working_hours date_str
    settings break_start break_end max_break half_day_threshold :
  py_float (settings_get settings "max_break_duration" (SInt 60)) = Ok max_break ->
  strptime_time (settings_get settings "half_day_time" (SStr "14:00")) "%H:%M"
  = Ok half_day_threshold ->
  truthy break_start = false \/ truthy break_end = false
  \/ parse_time_obj break_start = Ok None \/ parse_time_obj break_end = Ok None ->
  exists r, calculate_status punch_in punch_out working_hours date_str settings
                             break_start break_end = Ok r
            /\ break_duration r = Fin 0
            /\ break_exceeded r = false
            /\ is_break_outside_window r = false.
Proof.
  intros Hmb Hhd H.
  destruct (truthy punch_in) eqn:Hin.
  - rewrite (calculate_status_classify _ _ _ _ _ _ _ _ _ Hmb Hhd Hin).
    eexists. split; [reflexivity|]. unfold classify.
    rewrite !parse_time_obj_parsed in H.
    destruct H as [H|[H|[H|H]]]; try injection H as H; rewrite ?H;
      rewrite ?andb_false_r; cbn [andb];
      try (destruct (truthy break_start && truthy break_end));
      try (destruct (parsed_obj break_start));
      repeat split; reflexivity.
  - rewrite (calculate_status_absent _ _ _ _ _ _ _ _ Hmb Hin).
    eexists. split; [reflexivity|]. repeat split.
Qed.

Lemma break_needs_two_parsed_times_witness :
  py_float (settings_get ∅ "max_break_duration" (SInt 60)) = Ok (Fin 60)
  /\ strptime_time (settings_get ∅ "half_day_time" (SStr "14:00")) "%H:%M"
     = Ok (mktime 14 0 0)
  /\ (truthy None = false \/ truthy (Some "13:30") = false
      \/ parse_time_obj None = Ok None \/ parse_time_obj (Some "13:30") = Ok None)
  /\ exists r, calculate_status (Some "09:00") (Some "18:30") None "2024-01-10" ∅
                                None (Some "13:30") = Ok r
               /\ break_duration r = Fin 0
               /\ break_exceeded r = false
               /\ is_break_outside_window r = false.
Proof.
  assert (H1 : py_float (settings_get ∅ "max_break_duration" (SInt 60))
               = Ok (Fin 60)) by (vm_compute; reflexivity).
  assert (H2 : strptime_time (settings_get ∅ "half_day_time" (SStr "14:00")) "%H:%M"
               = Ok (mktime 14 0 0)) by (vm_compute; reflexivity).
  split; [exact H1|]. split; [exact H2|]. split; [left; reflexivity|].
  exact (break_needs_two_parsed_times (Some "09:00") (Some "18:30") None
           "2024-01-10" ∅ None (Some "13:30") (Fin 60) (mktime 14 0 0) H1 H2
           (or_introl eq_refl)).
Defined.

(** ** More about [calculate_working_hours] *)

(** X4.  A date that is not [YYYY-MM-DD] gives no working hours, whatever the
    punches are. *)
Theorem working_hours_need_a_date punch_in punch_out date_str e :
  strptime date_str "%Y-%m-%d" = Raise e ->
  calculate_working_hours punch_in punch_out date_str = None.
Proof.
  intros Hd. unfold calculate_working_hours.
  destruct (negb (truthy punch_in) || negb (truthy punch_out)); [reflexivity|].
  rewrite parse_time_parsed, Hd.
  destruct (parsed_obj (Some (py_str punch_in))); reflexivity.
Qed.

Lemma working_hours_need_a_date_witness :
  strptime "10/01/2024" "%Y-%m-%d" = Raise ValueError
  /\ calculate_working_hours (Some "09:00") (Some "18:00") "10/01/2024" = None.
Proof.
  assert (H : strptime "10/01/2024" "%Y-%m-%d" = Raise ValueError)
    by (vm_compute; reflexivity).
  split; [exact H|].
  exact (working_hours_need_a_date (Some "09:00") (Some "18:00") "10/01/2024"
           ValueError H).
Defined.

(** X5.  The two parsers of the module read the same texts as the same
    times: on a valid date, [parse_time] of [calculate_working_hours] returns
    the time that [parse_time_simple] of [calculate_status] returns, put on
    the date, and raises exactly where [parse_time_simple] gives [None]. *)
Theorem parse_time_agrees_with_parse_time_simple time_str date_str d :
  strptime date_str "%Y-%m-%d" = Ok d ->
  parse_time time_str date_str
  = match parse_time_simple (Some time_str) with
    | Ok (Some t) => Ok (combine (dt_date d) t)
    | _ => Raise ValueError
    end.
Proof.
  intros Hd. rewrite parse_time_parsed, parse_time_simple_parsed, Hd.
  unfold parsed_time. destruct (parsed_obj (Some time_str)); reflexivity.
Qed.

Lemma parse_time_agrees_with_parse_time_simple_witness :
  strptime "2024-01-10" "%Y-%m-%d"
  = Ok (mkdatetime (mkdate 2024 1 10) (mktime 0 0 0))
  /\ parse_time "09:15 AM" "2024-01-10"
     = match parse_time_simple (Some "09:15 AM") with
       | Ok (Some t) =>
           Ok (combine (dt_date (mkdatetime (mkdate 2024 1 10) (mktime 0 0 0))) t)
       | _ => Raise ValueError
       end.
Proof.
  assert (H : strptime "2024-01-10" "%Y-%m-%d"
              = Ok (mkdatetime (mkdate 2024 1 10) (mktime 0 0 0)))
    by (vm_compute; reflexivity).
  split; [exact H|].
  exact (parse_time_agrees_with_parse_time_simple "09:15 AM" "2024-01-10" _ H).
Defined.

Section MoreRounding.
Local Open Scope Q_scope.

Lemma hundredths_value k :
  (0 <= k <= 2400)%Z ->
  exists q, binary64 (inject_Z k / inject_Z 100) = Fin q
            /\ 0 <= q <= 24
            /\ ((k <= 499)%Z -> q < 5).
Proof.
  intros Hk.
  destruct (Z.eq_dec k 2400%Z) as [->|Hne].
  { exists 24. split; [vm_compute; reflexivity|]. split; [lra|lia]. }
  pose proof (inject_Z_bounds k 0%Z 2399%Z ltac:(lia)) as Hk'.
  change (inject_Z 0) with 0 in Hk'. change (inject_Z 2399) with 2399 in Hk'.
  set (y := inject_Z k / inject_Z 100).
  assert (Hy : y * 100 == inject_Z k).
  { subst y. change (inject_Z 100) with 100. field. }
  destruct (binary64_small y 24) as (r & Hr & Herr & Hp & _).
  { apply Qabs_Qle_condition. split; lra. }
  { unfold Qle. cbn. lia. }
  unfold unit_roundoff in *.
  exists r. split; [exact Hr|]. split; [split; [apply Hp|]; lra|].
  intros H499.
  assert (H1 : inject_Z k <= inject_Z 499) by (rewrite <- Zle_Qle; exact H499).
  change (inject_Z 499) with 499 in H1. lra.
Qed.

End MoreRounding.

Lemma working_hours_inv punch_in punch_out date_str h :
  calculate_working_hours punch_in punch_out date_str = Some h ->
  exists d d1 d2,
    strptime date_str "%Y-%m-%d" = Ok d
    /\ parsed_obj punch_in = Some d1 /\ parsed_obj punch_out = Some d2.
Proof.
  unfold calculate_working_hours.
  destruct (truthy punch_in) eqn:Hin; [|discriminate].
  destruct (truthy punch_out) eqn:Hout; [|discriminate].
  cbn [negb orb].
  destruct punch_in as [s1|]; [|discriminate].
  destruct punch_out as [s2|]; [|discriminate].
  cbn [py_str]. rewrite !parse_time_parsed.
  destruct (parsed_obj (Some s1)) as [d1|]; [|discriminate].
  destruct (parsed_obj (Some s2)) as [d2|];
    [|destruct (strptime date_str "%Y-%m-%d"); discriminate].
  destruct (strptime date_str "%Y-%m-%d") as [d|]; [|discriminate].
  intros _. eauto 6.
Qed.

(** X6.  Working hours, when there are any, are a finite number between 0
    and 24. *)
Theorem working_hours_between_0_and_24 punch_in punch_out date_str h :
  calculate_working_hours punch_in punch_out date_str = Some h ->
  exists q, h = Fin q /\ (0 <= q <= 24)%Q.
Proof.
  intros H. destruct (working_hours_inv _ _ _ _ H) as (d & d1 & d2 & Hd & H1 & H2).
  destruct (working_hours_of_times _ _ _ _ _ _ Hd H1 H2) as [Hw Hk].
  rewrite Hw in H. injection H as <-.
  destruct (parsed_obj_valid _ _ H1) as [_ V1].
  destruct (parsed_obj_valid _ _ H2) as [_ V2].
  pose proof (seconds_of_day_range _ V1). pose proof (seconds_of_day_range _ V2).
  rewrite (time_lt_seconds _ _ V2 V1).
  destruct (Z.ltb_spec (seconds_of_day (dt_time d2)) (seconds_of_day (dt_time d1))).
  - exists 0%Q. split; [reflexivity|]. split; [apply Qle_refl|discriminate].
  - destruct (hundredths_value
                (hundredths (seconds_of_day (dt_time d2) - seconds_of_day (dt_time d1))))
      as (q & Hq & Hr & _); [lia|].
    exists q. split; assumption.
Qed.

Lemma working_hours_between_0_and_24_witness :
  calculate_working_hours (Some "09:45") (Some "18:00") "2024-01-10"
  = Some (Fin (33 # 4))
  /\ exists q, Fin (33 # 4) = Fin q /\ (0 <= q <= 24)%Q.
Proof.
  assert (H : calculate_working_hours (Some "09:45") (Some "18:00") "2024-01-10"
              = Some (Fin (33 # 4))) by (vm_compute; reflexivity).
  split; [exact H|].
  exact (working_hours_between_0_and_24 (Some "09:45") (Some "18:00") "2024-01-10"
           (Fin (33 # 4)) H).
Defined.

(** ** One row of [parse_excel_file] *)

(** X7.  The loop of [parse_excel_file] passes the working hours it has just
    computed to [calculate_status]: a row whose punches parse and are less
    than 4 h 59 min 42 s apart (or in the wrong order) gets working hours
    below five and the status Half Day, whatever the other rules say. *)
Theorem short_day_is_half_day_at_ingestion punch_in punch_out date_str settings
    break_start break_end d max_break half_day_threshold t_in t_out :
  strptime date_str "%Y-%m-%d" = Ok d ->
  py_float (settings_get settings "max_break_duration" (SInt 60)) = Ok max_break ->
  strptime_time (settings_get settings "half_day_time" (SStr "14:00")) "%H:%M"
  = Ok half_day_threshold ->
  parse_time_simple punch_in = Ok (Some t_in) ->
  parse_time_simple punch_out = Ok (Some t_out) ->
  seconds_of_day t_out - seconds_of_day t_in <= 17981 ->
  exists w r,
    row_hours_and_status punch_in punch_out date_str settings break_start break_end
    = (Some w, Ok r)
    /\ float_lt w HALF_DAY_HOURS = true
    /\ c_status r = HalfDay.
Proof.
  intros Hd Hmb Hhd Hin Hout Hsecs.
  rewrite parse_time_simple_parsed in Hin, Hout.
  injection Hin as Hin. injection Hout as Hout. unfold parsed_time in Hin, Hout.
  destruct (parsed_obj punch_in) as [d1|] eqn:H1; [|discriminate].
  destruct (parsed_obj punch_out) as [d2|] eqn:H2; [|discriminate].
  injection Hin as <-. injection Hout as <-.
  destruct (working_hours_of_times _ _ _ _ _ _ Hd H1 H2) as [Hw Hk].
  destruct (parsed_obj_valid _ _ H1) as [_ V1].
  destruct (parsed_obj_valid _ _ H2) as [_ V2].
  pose proof (seconds_of_day_range _ V1). pose proof (seconds_of_day_range _ V2).
  unfold row_hours_and_status. rewrite Hw.
  rewrite (calculate_status_classify _ _ _ _ _ _ _ _ _ Hmb Hhd (parsed_truthy _ _ H1)).
  set (w := if time_lt _ _ then _ else _).
  assert (Hlow : float_lt w HALF_DAY_HOURS = true).
  { subst w. rewrite (time_lt_seconds _ _ V2 V1).
    destruct (Z.ltb_spec (seconds_of_day (dt_time d2))
                         (seconds_of_day (dt_time d1))); [reflexivity|].
    destruct (hundredths_value
                (hundredths (seconds_of_day (dt_time d2)
                             - seconds_of_day (dt_time d1))))
      as (q & -> & _ & Hq); [lia|].
    unfold float_lt, HALF_DAY_HOURS.
    destruct (Qle_bool 5 q) eqn:E; [|reflexivity].
    apply Qle_bool_iff in E. specialize (Hq ltac:(lia)).
    exfalso. apply (Qlt_not_le _ _ Hq E). }
  exists w. eexists. split; [reflexivity|]. split; [exact Hlow|].
  unfold classify, half_day_rule. cbn [some_and]. rewrite Hlow.
  unfold status_of.
  destruct (some_and (parsed_time punch_out) _);
    destruct (some_and (parsed_time punch_in) _);
    destruct (truthy break_start && truthy break_end);
    try (destruct (parsed_obj break_start); [destruct (parsed_obj break_end)|]);
    reflexivity.
Qed.

Lemma short_day_is_half_day_at_ingestion_witness :
  strptime "2024-01-10" "%Y-%m-%d"
  = Ok (mkdatetime (mkdate 2024 1 10) (mktime 0 0 0))
  /\ py_float (settings_get ∅ "max_break_duration" (SInt 60)) = Ok (Fin 60)
  /\ strptime_time (settings_get ∅ "half_day_time" (SStr "14:00")) "%H:%M"
     = Ok (mktime 14 0 0)
  /\ parse_time_simple (Some "09:00") = Ok (Some (mktime 9 0 0))
  /\ parse_time_simple (Some "13:00") = Ok (Some (mktime 13 0 0))
  /\ seconds_of_day (mktime 13 0 0) - seconds_of_day (mktime 9 0 0) <= 17981
  /\ exists w r,
       row_hours_and_status (Some "09:00") (Some "13:00") "2024-01-10" ∅ None None
       = (Some w, Ok r)
       /\ float_lt w HALF_DAY_HOURS = true
       /\ c_status r = HalfDay.
Proof.
  assert (H0 : strptime "2024-01-10" "%Y-%m-%d"
               = Ok (mkdatetime (mkdate 2024 1 10) (mktime 0 0 0)))
    by (vm_compute; reflexivity).
  assert (H1 : py_float (settings_get ∅ "max_break_duration" (SInt 60))
               = Ok (Fin 60)) by (vm_compute; reflexivity).
  assert (H2 : strptime_time (settings_get ∅ "half_day_time" (SStr "14:00")) "%H:%M"
               = Ok (mktime 14 0 0)) by (vm_compute; reflexivity).
  assert (H3 : parse_time_simple (Some "09:00") = Ok (Some (mktime 9 0 0)))
    by (vm_compute; reflexivity).
  assert (H4 : parse_time_simple (Some "13:00") = Ok (Some (mktime 13 0 0)))
    by (vm_compute; reflexivity).
  assert (H5 : seconds_of_day (mktime 13 0 0) - seconds_of_day (mktime 9 0 0)
               <= 17981) by (vm_compute; discriminate).
  repeat (split; [assumption|]).
  exact (short_day_is_half_day_at_ingestion (Some "09:00") (Some "13:00")
           "2024-01-10" ∅ None None _ (Fin 60) (mktime 14 0 0) _ _
           H0 H1 H2 H3 H4 H5).
Defined.

Section NegativeHours.
Local Open Scope Q_scope.

Lemma truncate_negative q : q < 0 -> truncate q = Qceiling q.
Proof.
  intros H. unfold truncate.
  destruct (Qle_bool 0 q) eqn:E; [|reflexivity].
  apply Qle_bool_iff in E. lra.
Qed.

Lemma minutes_range_negative q :
  q < 0 ->
  exists m, py_round_int (float_mul (float_sub_int (Fin q) (truncate q)) 60)
            = Ok m
            /\ (-60 <= m <= 0)%Z /\ (truncate q <= 0)%Z.
Proof.
  intros Hq. rewrite (truncate_negative q Hq). unfold float_sub_int.
  pose proof (Qle_ceiling q) as Hhi. pose proof (Qceiling_lt q) as Hlo.
  replace (Qceiling q - 1)%Z with (Qceiling q + -1)%Z in Hlo by lia.
  rewrite inject_Z_plus in Hlo. change (inject_Z (-1)) with (-1) in Hlo.
  assert (Hc : (Qceiling q <= 0)%Z).
  { assert (H1 : inject_Z (Qceiling q) < inject_Z 1)
      by (change (inject_Z 1) with 1; lra).
    rewrite <- Zlt_Qlt in H1. lia. }
  destruct (binary64_small (q - inject_Z (Qceiling q)) 1)
    as (x1 & -> & Herr1 & _ & Hn1).
  { apply Qabs_Qle_condition. split; lra. }
  { unfold Qle. cbn. lia. }
  cbn [float_mul]. change (inject_Z 60) with 60.
  unfold unit_roundoff in *.
  assert (x1 <= 0) by (apply Hn1; lra).
  destruct (binary64_small (x1 * 60) 61) as (x2 & -> & Herr2 & _ & Hn2).
  { apply Qabs_Qle_condition. split; lra. }
  { unfold Qle. cbn. lia. }
  unfold unit_roundoff in *.
  assert (x2 <= 0) by (apply Hn2; lra).
  cbn [py_round_int]. eexists. split; [reflexivity|].
  destruct (round_half_even_near x2) as [Hl Hh].
  assert (H1 : inject_Z (round_half_even x2) < inject_Z 1)
    by (change (inject_Z 1) with 1; lra).
  assert (H2 : inject_Z (-61) < inject_Z (round_half_even x2))
    by (change (inject_Z (-61)) with (-61); lra).
  rewrite <- Zlt_Qlt in H1, H2. split; [lia|exact Hc].
Qed.

End NegativeHours.

(** ** More about [format_hours] *)

(** X8.  [format_hours] has no text for a negative number: it returns the
    empty string, or ["0h 0m"] when the number is so close to 0 that hours
    and minutes are both 0. *)
Theorem format_hours_negative_prints_nothing q :
  (q < 0)%Q ->
  format_hours (Some (Fin q)) = Ok "" \/ format_hours (Some (Fin q)) = Ok "0h 0m".
Proof.
  intros Hq. destruct (minutes_range_negative q Hq) as (m & Hm & Hrange & Hh).
  assert (Hhm : hours_minutes (Fin q) = Ok (truncate q, m)).
  { unfold hours_minutes. cbn [py_int rbind]. rewrite Hm. cbn [rbind].
    destruct (Z.eqb_spec m 60); [lia|reflexivity]. }
  rewrite (format_hours_render _ _ _ Hhm). unfold render.
  destruct ((truncate q =? 0) && (m =? 0)); [right; reflexivity|left].
  destruct (Z.ltb_spec 0 (truncate q)); [lia|].
  destruct (Z.ltb_spec 0 m); [lia|]. reflexivity.
Qed.

Lemma format_hours_negative_prints_nothing_witness :
  (- (5 # 2) < 0)%Q
  /\ (format_hours (Some (Fin (- (5 # 2)))) = Ok ""
      \/ format_hours (Some (Fin (- (5 # 2)))) = Ok "0h 0m").
Proof.
  assert (H : (- (5 # 2) < 0)%Q) by reflexivity.
  split; [exact H|].
  exact (format_hours_negative_prints_nothing (- (5 # 2))%Q H).
Defined.

(** ** [get_settings] and [recalculate_status_route] *)

Lemma dict_of_rows_app rows k v :
  dict_of_rows (rows ++ [(k, v)]) = <[k := SStr v]> (dict_of_rows rows).
Proof. unfold dict_of_rows. rewrite fold_left_app. reflexivity. Qed.

Lemma dict_of_rows_lookup rows k v :
  NoDup (map fst rows) -> In (k, v) rows -> dict_of_rows rows !! k = Some (SStr v).
Proof.
  induction rows as [|[k' v'] rows IH] using rev_ind; [intros _ []|].
  rewrite map_app, dict_of_rows_app. cbn [map fst].
  intros Hnd Hin. apply NoDup_app in Hnd as (Hnd & Hdisj & _).
  apply in_app_or in Hin. destruct Hin as [Hin|[[= -> ->]|[]]].
  - assert (k <> k').
    { intros ->. apply (Hdisj k').
      - apply list_elem_of_In. apply in_map_iff. exists (k', v). auto.
      - apply list_elem_of_In. left. reflexivity. }
    rewrite lookup_insert_ne by congruence. apply IH; assumption.
  - apply lookup_insert_eq.
Qed.



Lemma default_settings_get k d :
  In (k, d) [("standard_start_time", SStr "09:30");
             ("standard_end_time", SStr "18:30");
             ("standard_break_start", SStr "13:00");
             ("standard_break_end", SStr "14:00");
             ("half_day_time", SStr "14:00")] ->
  settings_get default_settings k d = d /\ settings_get ∅ k d = d.
Proof.
  cbn [In]. intros [H|[H|[H|[H|[H|[]]]]]]; injection H as <- <-;
    split; vm_compute; reflexivity.
Qed.

(** X10.  With the defaults of [get_settings], and with no settings at all,
    [calculate_status] returns on every input, and the two results are the
    same: the defaults of [db_utils.py] are those written in
    [calculate_status]. *)
Theorem default_policy_never_raises punch_in punch_out working_hours date_str
    break_start break_end :
  exists r,
    calculate_status punch_in punch_out working_hours date_str
                     (get_settings None) break_start break_end = Ok r
    /\ calculate_status punch_in punch_out working_hours date_str
                        ∅ break_start break_end = Ok r.
Proof.
  cbn [get_settings].
  assert (Hmb1 : py_float (settings_get default_settings "max_break_duration"
                             (SInt 60)) = Ok (Fin 60)) by (vm_compute; reflexivity).
  assert (Hmb2 : py_float (settings_get ∅ "max_break_duration" (SInt 60))
                 = Ok (Fin 60)) by (vm_compute; reflexivity).
  assert (Hhd1 : strptime_time (settings_get default_settings "half_day_time"
                                  (SStr "14:00")) "%H:%M" = Ok (mktime 14 0 0))
    by (vm_compute; reflexivity).
  assert (Hhd2 : strptime_time (settings_get ∅ "half_day_time" (SStr "14:00"))
                               "%H:%M" = Ok (mktime 14 0 0))
    by (vm_compute; reflexivity).
  destruct (truthy punch_in) eqn:Hin.
  - rewrite (calculate_status_classify _ _ _ _ _ _ _ _ _ Hmb1 Hhd1 Hin).
    rewrite (calculate_status_classify _ _ _ _ _ _ _ _ _ Hmb2 Hhd2 Hin).
    eexists. split; [reflexivity|].
    unfold classify, late_of, early_of, start_threshold, end_threshold, window_of.
    repeat match goal with
           | |- context [settings_get default_settings ?k ?d] =>
               rewrite (proj1 (default_settings_get k d))
                 by (cbn [In]; tauto)
           | |- context [settings_get ∅ ?k ?d] =>
               rewrite (proj2 (default_settings_get k d))
                 by (cbn [In]; tauto)
           end.
    reflexivity.
  - rewrite (calculate_status_absent _ _ _ _ _ _ _ _ Hmb1 Hin).
    rewrite (calculate_status_absent _ _ _ _ _ _ _ _ Hmb2 Hin).
    eexists. split; reflexivity.
Qed.

Lemma recalculate_loop_spec settings rows : forall updates updated_count ups n,
  recalculate_loop settings rows updates updated_count = Ok (ups, n)
  <-> exists us, Forall2 (fun row u => row_update settings row = Ok u) rows us
                 /\ ups = (updates ++ us)%list
                 /\ n = updated_count + Z.of_nat (length rows).
Proof.
  induction rows as [|row rest IH]; intros updates updated_count ups n;
    cbn [recalculate_loop length].
  - split.
    + intros [= <- <-]. exists []. split; [constructor|].
      rewrite app_nil_r. split; [reflexivity|lia].
    + intros (us & HF & -> & ->). inversion HF. subst.
      rewrite app_nil_r. f_equal. f_equal. lia.
  - destruct (row_update settings row) as [u|e] eqn:E; cbn [rbind].
    + rewrite IH. split.
      * intros (us & HF & -> & ->). exists (u :: us).
        split; [constructor; assumption|].
        rewrite <- app_assoc. split; [reflexivity|lia].
      * intros (us & HF & -> & ->). inversion HF as [|? u' ? us' Hu HF']. subst.
        rewrite E in Hu. injection Hu as <-. exists us'.
        split; [exact HF'|]. rewrite <- app_assoc. split; [reflexivity|lia].
    + split; [discriminate|].
      intros (us & HF & _). inversion HF as [|? u' ? us' Hu HF']. subst.
      rewrite E in Hu. discriminate.
Qed.

(** X11.  [recalculate_status_route] either updates every row, each with the
    result of [calculate_status] for it and in the order of the table, and
    counts them all, or it stops on an exception before the commit.  Which of
    the two depends on the stored break limit and half-day time only: the
    limit must convert, and the half-day time must parse as soon as one row
    has a punch-in. *)
Theorem recalculate_all_or_nothing db rows :
  (forall ups n,
     recalculate_status_route db rows = Ok (ups, n)
     <-> Forall2 (fun row u => row_update (get_settings db) row = Ok u) rows ups
         /\ n = Z.of_nat (length rows))
  /\ is_ok (recalculate_status_route db rows)
     = forallb (fun row =>
                  is_ok (py_float (settings_get (get_settings db)
                                                "max_break_duration" (SInt 60)))
                  && (negb (truthy (row_punch_in_time row))
                      || is_ok (strptime_time
                                  (settings_get (get_settings db) "half_day_time"
                                                (SStr "14:00")) "%H:%M")))
               rows.
Proof.
  unfold recalculate_status_route. split.
  - intros ups n. rewrite recalculate_loop_spec. cbn [app]. split.
    + intros (us & HF & -> & ->). split; [exact HF|lia].
    + intros (HF & ->). exists ups. split; [exact HF|]. split; [reflexivity|lia].
  - generalize (@nil status_update) 0.
    induction rows as [|row rest IH]; intros updates n; [reflexivity|].
    cbn [recalculate_loop forallb].
    rewrite <- (calculate_status_returns (row_punch_in_time row)
                  (row_punch_out_time row) (row_working_hours row) (row_date row)
                  (get_settings db) (row_break_start_time row)
                  (row_break_end_time row)).
    unfold row_update.
    destruct (calculate_status _ _ _ _ _ _ _) as [r|e]; cbn [rbind is_ok andb];
      [apply IH|reflexivity].
Qed.

Section Exact.
Local Open Scope Q_scope.

Lemma round_half_even_integer q z : q == inject_Z z -> round_half_even q = z.
Proof.
  intros Hq. destruct (round_half_even_near q) as [Hlo Hhi].
  assert (H1 : inject_Z (round_half_even q - z) < inject_Z 1).
  { unfold Z.sub. rewrite inject_Z_plus, inject_Z_opp.
    change (inject_Z 1) with 1. lra. }
  assert (H2 : inject_Z (-1) < inject_Z (round_half_even q - z)).
  { unfold Z.sub. rewrite inject_Z_plus, inject_Z_opp.
    change (inject_Z (-1)) with (-1). lra. }
  rewrite <- Zlt_Qlt in H1, H2. lia.
Qed.

Lemma floor_log2_below a n : 0 < a -> a < pow2 n -> (floor_log2 a < n)%Z.
Proof.
  intros Ha Hn. pose proof (floor_log2_le a Ha) as Hl.
  destruct (Z_lt_le_dec (floor_log2 a) n) as [H|H]; [exact H|].
  pose proof (pow2_le _ _ H). lra.
Qed.

Lemma binary64_magnitude_integer a p :
  (0 < p < 2 ^ 53)%Z -> a == inject_Z p ->
  let e := Z.max (floor_log2 a - 52) (-1074) in
  let r := inject_Z (round_half_even (a / pow2 e)) * pow2 e in
  r == inject_Z p /\ Qle_bool (pow2 1024) r = false.
Proof.
  intros Hp Ha e r.
  assert (Hp' : 0 < inject_Z p) by (rewrite <- (Zlt_Qlt 0); lia).
  assert (H53 : inject_Z p < pow2 53).
  { rewrite pow2_Z by lia. rewrite <- Zlt_Qlt. lia. }
  assert (Hl : (floor_log2 a < 53)%Z).
  { apply floor_log2_below; rewrite Ha; assumption. }
  assert (He : (e <= 0)%Z) by (subst e; lia).
  assert (Hinv : pow2 (- e) * pow2 e == 1).
  { rewrite <- pow2_plus. replace (- e + e)%Z with 0%Z by lia. reflexivity. }
  pose proof (pow2_pos e) as Hpos.
  assert (Hdiv : a / pow2 e == inject_Z (p * 2 ^ (- e))).
  { rewrite inject_Z_mult, <- pow2_Z by lia. rewrite Ha.
    unfold Qdiv, pow2. rewrite <- Qpower_opp. reflexivity. }
  assert (Hr : r == inject_Z p).
  { subst r. rewrite (round_half_even_integer _ _ Hdiv).
    rewrite inject_Z_mult, <- pow2_Z by lia.
    rewrite <- Qmult_assoc, Hinv. ring. }
  split; [exact Hr|].
  destruct (Qle_bool (pow2 1024) r) eqn:E; [|reflexivity].
  apply Qle_bool_iff in E. rewrite Hr in E.
  pose proof (pow2_le 53 1024 ltac:(lia)). lra.
Qed.

(** Integers below 2^53 are floats. *)
Lemma binary64_integer n q :
  (Z.abs n < 2 ^ 53)%Z -> q == inject_Z n -> binary64 q = Fin (inject_Z n).
Proof.
  intros Hn Hq. unfold binary64.
  rewrite (Qcompare_comp _ _ Hq 0 0 (Qeq_refl 0)).
  destruct (inject_Z n ?= 0) eqn:E.
  - apply Qeq_alt in E. unfold Qeq in E. cbn in E.
    replace n with 0%Z by lia. reflexivity.
  - apply Qlt_alt in E. change 0 with (inject_Z 0) in E.
    rewrite <- Zlt_Qlt in E.
    assert (Ha : Qabs q == inject_Z (- n)).
    { rewrite Hq, Qabs_neg; [rewrite inject_Z_opp; reflexivity|].
      change 0 with (inject_Z 0). rewrite <- Zle_Qle. lia. }
    destruct (binary64_magnitude_integer (Qabs q) (- n) ltac:(lia) Ha) as [Hr ->].
    f_equal. rewrite <- (inject_Z_Qred n). apply Qred_complete.
    rewrite Hr, inject_Z_opp. ring.
  - apply Qgt_alt in E. change 0 with (inject_Z 0) in E.
    rewrite <- Zlt_Qlt in E.
    assert (Ha : Qabs q == inject_Z n).
    { rewrite Hq, Qabs_pos; [reflexivity|].
      change 0 with (inject_Z 0). rewrite <- Zle_Qle. lia. }
    destruct (binary64_magnitude_integer (Qabs q) n ltac:(lia) Ha) as [Hr ->].
    f_equal. rewrite <- (inject_Z_Qred n). apply Qred_complete. exact Hr.
Qed.

Lemma total_seconds_exact s :
  (Z.abs s < 2 ^ 53)%Z -> total_seconds s = Fin (inject_Z s).
Proof. intros H. apply binary64_integer; [exact H|reflexivity]. Qed.

(** The minutes of a break of [secs] seconds against a limit of [N]. *)
Lemma break_minutes_above secs N :
  (-86400 < secs < 86400)%Z ->
  float_gt (float_div (total_seconds secs) 60) (Fin (inject_Z N))
  = (60 * N <? secs)%Z.
Proof.
  intros Hs. rewrite total_seconds_exact by lia. cbn [float_div].
  unfold float_gt, float_lt.
  pose proof (inject_Z_bounds secs (-86399)%Z 86399%Z ltac:(lia)) as Hs'.
  change (inject_Z (-86399)) with (-86399) in Hs'.
  change (inject_Z 86399) with 86399 in Hs'.
  set (y := inject_Z secs / inject_Z 60).
  assert (Hy : y * 60 == inject_Z secs).
  { subst y. change (inject_Z 60) with 60. field. }
  destruct (Z.ltb_spec (60 * N) secs) as [H|H].
  - destruct (binary64_small y 1440) as (x & -> & Herr & _).
    { apply Qabs_Qle_condition. split; lra. }
    { unfold Qle. cbn. lia. }
    unfold unit_roundoff in *.
    assert (H1 : inject_Z (60 * N + 1) <= inject_Z secs)
      by (rewrite <- Zle_Qle; lia).
    rewrite inject_Z_plus, inject_Z_mult in H1.
    change (inject_Z 60) with 60 in H1. change (inject_Z 1) with 1 in H1.
    destruct (Qle_bool x (inject_Z N)) eqn:E; [|reflexivity].
    apply Qle_bool_iff in E. lra.
  - destruct (Z.eq_dec secs (60 * N)%Z) as [Heq|Hne].
    + assert (Hq : y == inject_Z N).
      { assert (H1 : inject_Z secs == 60 * inject_Z N)
          by (rewrite Heq, inject_Z_mult; reflexivity).
        lra. }
      rewrite (binary64_integer N y ltac:(lia) Hq).
      assert (E : Qle_bool (inject_Z N) (inject_Z N) = true)
        by (apply Qle_bool_iff; apply Qle_refl).
      rewrite E. reflexivity.
    + destruct (binary64_small y 1440) as (x & -> & Herr & _).
      { apply Qabs_Qle_condition. split; lra. }
      { unfold Qle. cbn. lia. }
      unfold unit_roundoff in *.
      assert (H1 : inject_Z secs <= inject_Z (60 * N - 1))
        by (rewrite <- Zle_Qle; lia).
      replace (60 * N - 1)%Z with (60 * N + -1)%Z in H1 by lia.
      rewrite inject_Z_plus, inject_Z_mult in H1.
      change (inject_Z 60) with 60 in H1. change (inject_Z (-1)) with (-1) in H1.
      assert (E : Qle_bool x (inject_Z N) = true) by (apply Qle_bool_iff; lra).
      rewrite E. reflexivity.
Qed.

(** A break of a whole number of minutes. *)
Lemma whole_minutes_exact n :
  (-1440 < n < 1440)%Z ->
  py_round (float_div (total_seconds (60 * n)) 60) 2 = Fin (inject_Z n).
Proof.
  intros Hn. rewrite total_seconds_exact by lia. cbn [float_div].
  assert (H1 : inject_Z (60 * n) / inject_Z 60 == inject_Z n).
  { rewrite inject_Z_mult. change (inject_Z 60) with 60. field. }
  rewrite (binary64_integer n _ ltac:(lia) H1). cbn [py_round].
  change (inject_Z (10 ^ 2)) with (inject_Z 100).
  assert (H2 : inject_Z n * inject_Z 100 == inject_Z (n * 100))
    by (rewrite inject_Z_mult; reflexivity).
  rewrite (round_half_even_integer _ _ H2).
  apply binary64_integer; [lia|].
  rewrite inject_Z_mult. change (inject_Z 100) with 100. field.
Qed.

End Exact.

(** X12.  With a limit of a whole number of minutes, the break is flagged as
    exceeded exactly when it lasts more seconds than the limit has: the
    division by 60 in floating point does not move the threshold. *)
Theorem break_exceeded_iff_longer_than_limit punch_in punch_out working_hours
    date_str settings break_start break_end limit half_day_threshold bs be :
  py_float (settings_get settings "max_break_duration" (SInt 60))
  = Ok (Fin (inject_Z limit)) ->
  strptime_time (settings_get settings "half_day_time" (SStr "14:00")) "%H:%M"
  = Ok half_day_threshold ->
  truthy punch_in = true ->
  parse_time_obj break_start = Ok (Some bs) ->
  parse_time_obj break_end = Ok (Some be) ->
  exists r, calculate_status punch_in punch_out working_hours date_str settings
                             break_start break_end = Ok r
            /\ break_exceeded r
               = (60 * limit
                  <? seconds_of_day (dt_time be) - seconds_of_day (dt_time bs)).
Proof.
  intros Hmb Hhd Hin Hbs Hbe.
  rewrite parse_time_obj_parsed in Hbs, Hbe.
  injection Hbs as Hbs. injection Hbe as Hbe.
  rewrite (calculate_status_classify _ _ _ _ _ _ _ _ _ Hmb Hhd Hin).
  eexists. split; [reflexivity|]. unfold classify.
  rewrite (parsed_truthy _ _ Hbs), (parsed_truthy _ _ Hbe), Hbs, Hbe.
  cbn [andb break_exceeded].
  destruct (parsed_obj_valid _ _ Hbs) as [Ds Vs].
  destruct (parsed_obj_valid _ _ Hbe) as [De Ve].
  pose proof (seconds_of_day_range _ Vs). pose proof (seconds_of_day_range _ Ve).
  unfold break_minutes, diff_seconds. rewrite Ds, De.
  rewrite Z.sub_diag, Z.mul_0_l, Z.add_0_l.
  apply break_minutes_above. lia.
Qed.

Lemma break_exceeded_iff_longer_than_limit_witness :
  py_float (settings_get ∅ "max_break_duration" (SInt 60)) = Ok (Fin (inject_Z 60))
  /\ strptime_time (settings_get ∅ "half_day_time" (SStr "14:00")) "%H:%M"
     = Ok (mktime 14 0 0)
  /\ truthy (Some "09:00") = true
  /\ parse_time_obj (Some "13:00")
     = Ok (Some (mkdatetime (mkdate 1900 1 1) (mktime 13 0 0)))
  /\ parse_time_obj (Some "14:00:01")
     = Ok (Some (mkdatetime (mkdate 1900 1 1) (mktime 14 0 1)))
  /\ exists r, calculate_status (Some "09:00") (Some "18:30") None "2024-01-10" ∅
                                (Some "13:00") (Some "14:00:01") = Ok r
               /\ break_exceeded r
                  = (60 * 60
                     <? seconds_of_day
                          (dt_time (mkdatetime (mkdate 1900 1 1) (mktime 14 0 1)))
                        - seconds_of_day
                            (dt_time (mkdatetime (mkdate 1900 1 1) (mktime 13 0 0)))).
Proof.
  assert (H1 : py_float (settings_get ∅ "max_break_duration" (SInt 60))
               = Ok (Fin (inject_Z 60))) by (vm_compute; reflexivity).
  assert (H2 : strptime_time (settings_get ∅ "half_day_time" (SStr "14:00")) "%H:%M"
               = Ok (mktime 14 0 0)) by (vm_compute; reflexivity).
  assert (H3 : parse_time_obj (Some "13:00")
               = Ok (Some (mkdatetime (mkdate 1900 1 1) (mktime 13 0 0))))
    by (vm_compute; reflexivity).
  assert (H4 : parse_time_obj (Some "14:00:01")
               = Ok (Some (mkdatetime (mkdate 1900 1 1) (mktime 14 0 1))))
    by (vm_compute; reflexivity).
  repeat (split; [first [assumption|reflexivity]|]).
  exact (break_exceeded_iff_longer_than_limit (Some "09:00") (Some "18:30") None
           "2024-01-10" ∅ (Some "13:00") (Some "14:00:01") 60 (mktime 14 0 0) _ _
           H1 H2 eq_refl H3 H4).
Defined.

(** X13.  A break of a whole number of minutes is stored as that number,
    exactly. *)
Theorem whole_minute_break_is_exact punch_in punch_out working_hours
    date_str settings break_start break_end max_break half_day_threshold bs be n :
  py_float (settings_get settings "max_break_duration" (SInt 60)) = Ok max_break ->
  strptime_time (settings_get settings "half_day_time" (SStr "14:00")) "%H:%M"
  = Ok half_day_threshold ->
  truthy punch_in = true ->
  parse_time_obj break_start = Ok (Some bs) ->
  parse_time_obj break_end = Ok (Some be) ->
  seconds_of_day (dt_time be) - seconds_of_day (dt_time bs) = 60 * n ->
  exists r, calculate_status punch_in punch_out working_hours date_str settings
                             break_start break_end = Ok r
            /\ break_duration r = Fin (inject_Z n).
Proof.
  intros Hmb Hhd Hin Hbs Hbe Hn.
  rewrite parse_time_obj_parsed in Hbs, Hbe.
  injection Hbs as Hbs. injection Hbe as Hbe.
  rewrite (calculate_status_classify _ _ _ _ _ _ _ _ _ Hmb Hhd Hin).
  eexists. split; [reflexivity|]. unfold classify.
  rewrite (parsed_truthy _ _ Hbs), (parsed_truthy _ _ Hbe), Hbs, Hbe.
  cbn [andb break_duration].
  destruct (parsed_obj_valid _ _ Hbs) as [Ds Vs].
  destruct (parsed_obj_valid _ _ Hbe) as [De Ve].
  pose proof (seconds_of_day_range _ Vs). pose proof (seconds_of_day_range _ Ve).
  unfold break_minutes, diff_seconds. rewrite Ds, De.
  rewrite Z.sub_diag, Z.mul_0_l, Z.add_0_l, Hn.
  apply whole_minutes_exact. lia.
Qed.

Lemma whole_minute_break_is_exact_witness :
  py_float (settings_get ∅ "max_break_duration" (SInt 60)) = Ok (Fin 60)
  /\ strptime_time (settings_get ∅ "half_day_time" (SStr "14:00")) "%H:%M"
     = Ok (mktime 14 0 0)
  /\ truthy (Some "09:00") = true
  /\ parse_time_obj (Some "13:00")
     = Ok (Some (mkdatetime (mkdate 1900 1 1) (mktime 13 0 0)))
  /\ parse_time_obj (Some "13:45")
     = Ok (Some (mkdatetime (mkdate 1900 1 1) (mktime 13 45 0)))
  /\ seconds_of_day (dt_time (mkdatetime (mkdate 1900 1 1) (mktime 13 45 0)))
     - seconds_of_day (dt_time (mkdatetime (mkdate 1900 1 1) (mktime 13 0 0)))
     = 60 * 45
  /\ exists r, calculate_status (Some "09:00") (Some "18:30") None "2024-01-10" ∅
                                (Some "13:00") (Some "13:45") = Ok r
               /\ break_duration r = Fin (inject_Z 45).
Proof.
  assert (H1 : py_float (settings_get ∅ "max_break_duration" (SInt 60))
               = Ok (Fin 60)) by (vm_compute; reflexivity).
  assert (H2 : strptime_time (settings_get ∅ "half_day_time" (SStr "14:00")) "%H:%M"
               = Ok (mktime 14 0 0)) by (vm_compute; reflexivity).
  assert (H3 : parse_time_obj (Some "13:00")
               = Ok (Some (mkdatetime (mkdate 1900 1 1) (mktime 13 0 0))))
    by (vm_compute; reflexivity).
  assert (H4 : parse_time_obj (Some "13:45")
               = Ok (Some (mkdatetime (mkdate 1900 1 1) (mktime 13 45 0))))
    by (vm_compute; reflexivity).
  repeat (split; [first [assumption|reflexivity]|]).
  exact (whole_minute_break_is_exact (Some "09:00") (Some "18:30") None
           "2024-01-10" ∅ (Some "13:00") (Some "13:45") (Fin 60) (mktime 14 0 0)
           _ _ 45 H1 H2 eq_refl H3 H4 eq_refl).
Defined.

(** ** Times and dates read back from their texts *)

(** The integers from [lo] to [hi], one goal each. *)
Ltac enumerate x lo hi :=
  let rec go n :=
    tryif (let b := eval cbv in (Z.ltb hi n) in constr_eq b true)
    then (exfalso; lia)
    else (destruct (Z.eq_dec x n) as [->| ?];
          [| let n' := eval cbv in (Z.succ n) in go n'])
  in go lo.

Lemma map_prepend_nil (l : list (found_dict * string)) :
  map (fun '(fs, r') => (([] ++ fs)%list, r')) l = l.
Proof.
  induction l as [|[fs r] l IH]; [reflexivity|]. cbn [map]. rewrite IH.
  reflexivity.
Qed.

Lemma flat_map_nil {A B} (l : list A) : flat_map (fun _ : A => @nil B) l = [].
Proof. induction l; [reflexivity|assumption]. Qed.

Lemma run_directive d md ts s :
  directive_matcher d = Some md ->
  run (Directive d :: ts) s
  = flat_map (fun '(v, r) => map (fun '(fs, r') => ((d, v) :: fs, r')) (run ts r))
             (md s).
Proof.
  intros Hd. unfold run. cbn [match_tokens match_token]. rewrite Hd.
  destruct (match_tokens ts) as [ms|].
  - rewrite flat_map_concat_map, map_map, <- flat_map_concat_map.
    apply flat_map_ext. intros [v r]. reflexivity.
  - symmetry. rewrite <- (flat_map_nil (md s)) at 1.
    apply flat_map_ext. intros [v r]. reflexivity.
Qed.

Lemma run_literal c ts c' r :
  run (Literal c :: ts) (String c' r)
  = if Ascii.eqb c c' then run ts r else [].
Proof.
  unfold run. cbn [match_tokens match_token].
  destruct (match_tokens ts) as [ms|]; cbn [re_lit].
  - destruct (Ascii.eqb c c'); cbn [map flat_map]; [|reflexivity].
    rewrite app_nil_r. apply map_prepend_nil.
  - destruct (Ascii.eqb c c'); reflexivity.
Qed.

(** One blank before something that is not a blank. *)
Lemma run_spaces ts c r :
  is_space c = false ->
  run (Spaces :: ts) (String " " (String c r)) = run ts (String c r).
Proof.
  intros Hc. unfold run. cbn [match_tokens match_token].
  destruct (match_tokens ts) as [ms|]; [|reflexivity].
  cbn [re_spaces]. change (is_space " ") with true. cbn iota. rewrite Hc.
  cbn [app map flat_map]. rewrite app_nil_r. apply map_prepend_nil.
Qed.

Lemma strptime_run data fmt :
  strptime data fmt
  = match run (tokens fmt) data with
    | [] => Raise ValueError
    | (f, EmptyString) :: _ => build_datetime f
    | (_, String _ _) :: _ => Raise ValueError
    end.
Proof.
  unfold strptime, run. destruct (match_tokens (tokens fmt)); reflexivity.
Qed.

(** What the directives make of two digits. *)
Lemma re_H_two_digits h r :
  0 <= h <= 23 ->
  re_H (two_digits h r)
  = [(h, r); (h / 10, String (digit_char (h mod 10)) r)].
Proof. intros H. enumerate h 0 23; reflexivity. Qed.

Lemma re_M_two_digits m r :
  0 <= m <= 59 ->
  re_M (two_digits m r)
  = [(m, r); (m / 10, String (digit_char (m mod 10)) r)].
Proof. intros H. enumerate m 0 59; reflexivity. Qed.

Lemma re_S_two_digits s r :
  0 <= s <= 59 ->
  re_S (two_digits s r)
  = [(s, r); (s / 10, String (digit_char (s mod 10)) r)].
Proof. intros H. enumerate s 0 59; reflexivity. Qed.

Lemma digit_char_facts n :
  0 <= n <= 59 ->
  let c := digit_char (n mod 10) in
  Ascii.eqb ":" c = false /\ is_space c = false /\ time_char c = true
  /\ time_char (digit_char (n / 10)) = true
  /\ is_space (digit_char (n / 10)) = false
  /\ Ascii.eqb ":" (digit_char (n / 10)) = false.
Proof. intros H. enumerate n 0 59; repeat split; reflexivity. Qed.

Lemma rstrip_last c :
  is_space c = false -> rstrip (String c EmptyString) = String c EmptyString.
Proof. intros H. cbn [rstrip]. rewrite H. reflexivity. Qed.

Lemma rstrip_keeps c r :
  rstrip r = r -> r <> EmptyString -> rstrip (String c r) = String c r.
Proof.
  intros H Hr. cbn [rstrip]. rewrite H. destruct r; [congruence|reflexivity].
Qed.

Lemma lstrip_keeps c r : is_space c = false -> lstrip (String c r) = String c r.
Proof. intros H. cbn [lstrip]. rewrite H. reflexivity. Qed.

Lemma run_nil s : run [] s = [([], s)].
Proof. reflexivity. Qed.

Lemma new_datetime_time h m s :
  valid_time (mktime h m s) ->
  new_datetime 1900 1 1 h m s = Ok (mkdatetime (mkdate 1900 1 1) (mktime h m s)).
Proof.
  intros (Hh & Hm & Hs). cbn in Hh, Hm, Hs. unfold new_datetime.
  change (new_date 1900 1 1) with (Ok (mkdate 1900 1 1)). cbn [rbind].
  destruct Hh, Hm, Hs.
  rewrite !(proj2 (Z.leb_le _ _)) by assumption. reflexivity.
Qed.

Lemma isoformat_parsed t :
  valid_time t -> parse_time_simple (Some (isoformat t)) = Ok (Some t).
Proof.
  destruct t as [h m s]. intros Hv. pose proof Hv as (Hh & Hm & Hs).
  cbn [t_hour t_minute t_second] in Hh, Hm, Hs.
  assert (Hh' : 0 <= h <= 59) by lia.
  destruct (digit_char_facts h Hh') as (h1 & h2 & h3 & h4 & h5 & h6).
  destruct (digit_char_facts m Hm) as (m1 & m2 & m3 & m4 & m5 & m6).
  destruct (digit_char_facts s Hs) as (s1 & s2 & s3 & s4 & s5 & s6).
  unfold parse_time_simple, parse_time_obj, py_str, strip, isoformat.
  cbn [t_hour t_minute t_second].
  unfold two_digits at 1. rewrite lstrip_keeps by exact h5.
  assert (Hr : forall x, rstrip x = x -> x <> EmptyString -> rstrip x = x) by auto.
  rewrite Hr.
  2:{ unfold two_digits. repeat (apply rstrip_keeps; [|discriminate]).
      apply rstrip_last. exact s2. }
  2: discriminate.
  fold (two_digits h (String ":" (two_digits m (String ":" (two_digits s EmptyString))))).
  set (text := two_digits h _).
  assert (Hplain : has_meridiem text = false).
  { apply plain_no_meridiem. unfold text, two_digits. cbn [all_chars].
    rewrite h3, h4, m3, m4, s3, s4. reflexivity. }
  assert (E1 : strptime text "%I:%M %p" = Raise ValueError).
  { destruct (strptime_cases text "%I:%M %p") as [[d E]|E]; [|exact E].
    apply strptime_12_hour in E; [congruence|auto]. }
  assert (E2 : strptime text "%I:%M:%S %p" = Raise ValueError).
  { destruct (strptime_cases text "%I:%M:%S %p") as [[d E]|E]; [|exact E].
    apply strptime_12_hour in E; [congruence|auto]. }
  cbn [formats first_format].
  rewrite E1, E2.
  rewrite (strptime_run text "%H:%M:%S").
  change (tokens "%H:%M:%S")
    with [Directive "H"; Literal ":"; Directive "M"; Literal ":"; Directive "S"].
  unfold text.
  rewrite (run_directive "H" re_H) by reflexivity.
  rewrite re_H_two_digits by exact Hh. cbn [flat_map].
  rewrite !run_literal, h1. change (Ascii.eqb ":" ":") with true. cbn iota.
  rewrite (run_directive "M" re_M) by reflexivity.
  rewrite re_M_two_digits by exact Hm. cbn [flat_map].
  rewrite !run_literal, m1. change (Ascii.eqb ":" ":") with true. cbn iota.
  rewrite (run_directive "S" re_S) by reflexivity.
  rewrite re_S_two_digits by exact Hs. cbn [flat_map].
  rewrite !run_nil. cbn [map app].
  unfold build_datetime.
  unfold build_datetime.
  change (new_datetime _ _ _ _ _ _) with (new_datetime 1900 1 1 h m s).
  rewrite new_datetime_time by exact Hv. reflexivity.
Qed.


Lemma strftime_HM_parsed t :
  valid_time t -> t_second t = 0 ->
  parse_time_simple (Some (strftime_HM t)) = Ok (Some t).
Proof.
  destruct t as [h m s]. intros Hv Hz. cbn [t_second] in Hz. subst s.
  pose proof Hv as (Hh & Hm & _). cbn [t_hour t_minute] in Hh, Hm.
  assert (Hh' : 0 <= h <= 59) by lia.
  destruct (digit_char_facts h Hh') as (h1 & h2 & h3 & h4 & h5 & h6).
  destruct (digit_char_facts m Hm) as (m1 & m2 & m3 & m4 & m5 & m6).
  unfold parse_time_simple, parse_time_obj, py_str, strip, strftime_HM.
  cbn [t_hour t_minute].
  unfold two_digits at 1. rewrite lstrip_keeps by exact h5.
  assert (Hr : forall x, rstrip x = x -> x <> EmptyString -> rstrip x = x) by auto.
  rewrite Hr.
  2:{ unfold two_digits. repeat (apply rstrip_keeps; [|discriminate]).
      apply rstrip_last. exact m2. }
  2: discriminate.
  fold (two_digits h (String ":" (two_digits m EmptyString))).
  set (text := two_digits h _).
  assert (Hplain : has_meridiem text = false).
  { apply plain_no_meridiem. unfold text, two_digits. cbn [all_chars].
    rewrite h3, h4, m3, m4. reflexivity. }
  assert (E1 : strptime text "%I:%M %p" = Raise ValueError).
  { destruct (strptime_cases text "%I:%M %p") as [[d E]|E]; [|exact E].
    apply strptime_12_hour in E; [congruence|auto]. }
  assert (E2 : strptime text "%I:%M:%S %p" = Raise ValueError).
  { destruct (strptime_cases text "%I:%M:%S %p") as [[d E]|E]; [|exact E].
    apply strptime_12_hour in E; [congruence|auto]. }
  assert (E3 : strptime text "%H:%M:%S" = Raise ValueError).
  { destruct (strptime_cases text "%H:%M:%S") as [[d E]|E]; [|exact E].
    apply strptime_24_hour in E; [|auto]. destruct E as [_ E]. exfalso.
    revert E. unfold text, two_digits. cbn [count_char].
    rewrite h1, h6, m1, m6. discriminate. }
  cbn [formats first_format]. rewrite E1, E2, E3.
  rewrite (strptime_run text "%H:%M").
  change (tokens "%H:%M") with [Directive "H"; Literal ":"; Directive "M"].
  unfold text.
  rewrite (run_directive "H" re_H) by reflexivity.
  rewrite re_H_two_digits by exact Hh. cbn [flat_map].
  rewrite !run_literal, h1. change (Ascii.eqb ":" ":") with true. cbn iota.
  rewrite (run_directive "M" re_M) by reflexivity.
  rewrite re_M_two_digits by exact Hm. cbn [flat_map].
  rewrite !run_nil. cbn [map app].
  unfold build_datetime.
  change (new_datetime _ _ _ _ _ _) with (new_datetime 1900 1 1 h m 0).
  rewrite new_datetime_time by exact Hv. reflexivity.
Qed.

Lemma run_spaces_miss ts c r :
  is_space c = false -> run (Spaces :: ts) (String c r) = [].
Proof.
  intros Hc. unfold run. cbn [match_tokens match_token].
  destruct (match_tokens ts) as [ms|]; [|reflexivity].
  cbn [re_spaces]. rewrite Hc. reflexivity.
Qed.

Lemma re_I_two_digits i r :
  1 <= i <= 12 ->
  re_I (two_digits i r)
  = if i <? 10 then [(i, r)]
    else [(i, r); (i / 10, String (digit_char (i mod 10)) r)].
Proof. intros H. enumerate i 1 12; reflexivity. Qed.

(** The hour of the 12-hour clock and its half of the day give the hour
    back. *)
Lemma hour_of_I_strftime h :
  0 <= h <= 23 ->
  let i := if h mod 12 =? 0 then 12 else h mod 12 in
  1 <= i <= 12 /\ hour_of_I i (Some (if h <? 12 then 0 else 1)) = h.
Proof. intros H. enumerate h 0 23; cbv; intuition congruence. Qed.

Lemma strftime_IMp_parsed t :
  valid_time t -> t_second t = 0 ->
  parse_time_simple (Some (strftime_IMp t)) = Ok (Some t).
Proof.
  destruct t as [h m s]. intros Hv Hz. cbn [t_second] in Hz. subst s.
  pose proof Hv as (Hh & Hm & _). cbn [t_hour t_minute] in Hh, Hm.
  destruct (hour_of_I_strftime h Hh) as [Hi Hhour].
  unfold strftime_IMp. cbn [t_hour t_minute].
  set (i := if h mod 12 =? 0 then 12 else h mod 12) in *.
  assert (Hi' : 0 <= i <= 59) by lia.
  destruct (digit_char_facts i Hi') as (i1 & i2 & i3 & i4 & i5 & i6).
  destruct (digit_char_facts m Hm) as (m1 & m2 & m3 & m4 & m5 & m6).
  set (p := if h <? 12 then 0 else 1) in *.
  set (ap := if h <? 12 then " AM" else " PM").
  assert (Hap : exists c, ap = String " " (String c (String "M" EmptyString))
                          /\ is_space c = false
                          /\ run [Directive "p"] (String c (String "M" EmptyString))
                             = [([("p"%char, p)], EmptyString)]).
  { unfold ap, p. destruct (h <? 12); eexists; repeat split. }
  destruct Hap as (c & -> & Hc & Hp).
  unfold parse_time_simple, parse_time_obj, py_str, strip.
  unfold two_digits at 1. rewrite lstrip_keeps by exact i5.
  assert (Hr : forall x, rstrip x = x -> x <> EmptyString -> rstrip x = x) by auto.
  rewrite Hr.
  2:{ unfold two_digits. repeat (apply rstrip_keeps; [|discriminate]).
      apply rstrip_last. reflexivity. }
  2: discriminate.
  fold (two_digits i
          (String ":" (two_digits m (String " " (String c (String "M" EmptyString)))))).
  cbn [formats first_format].
  rewrite (strptime_run _ "%I:%M %p").
  change (tokens "%I:%M %p")
    with [Directive "I"; Literal ":"; Directive "M"; Spaces; Directive "p"].
  rewrite (run_directive "I" re_I) by reflexivity.
  rewrite re_I_two_digits by exact Hi.
  assert (Hrest : run [Literal ":"; Directive "M"; Spaces; Directive "p"]
                    (String ":"
                       (two_digits m
                          (String " " (String c (String "M" EmptyString)))))
                  = [([("M"%char, m); ("p"%char, p)], EmptyString)]).
  { rewrite run_literal. change (Ascii.eqb ":" ":") with true. cbn iota.
    rewrite (run_directive "M" re_M) by reflexivity.
    rewrite re_M_two_digits by exact Hm. cbn [flat_map].
    rewrite run_spaces by exact Hc. rewrite run_spaces_miss by exact m2.
    rewrite Hp. reflexivity. }
  assert (Hhead : forall l,
             match (map (fun '(fs, r') => (("I"%char, i) :: fs, r'))
                      [([("M"%char, m); ("p"%char, p)], EmptyString)] ++ l)%list with
             | [] => Raise ValueError
             | (f, EmptyString) :: _ => build_datetime f
             | (_, String _ _) :: _ => Raise ValueError
             end = Ok (mkdatetime (mkdate 1900 1 1) (mktime h m 0))).
  { intros l. cbn [map app]. unfold build_datetime.
    change (new_datetime _ _ _ _ _ _)
      with (new_datetime 1900 1 1 (hour_of_I i (Some p)) m 0).
    rewrite Hhour. apply new_datetime_time. exact Hv. }
  destruct (i <? 10); cbn [flat_map]; rewrite Hrest, Hhead; reflexivity.
Qed.

Lemma digit_char_value x :
  0 <= x <= 9 -> is_digit (digit_char x) = true /\ digit_value (digit_char x) = x.
Proof. intros H. enumerate x 0 9; split; reflexivity. Qed.

Lemma re_Y_four_digits y r : 0 <= y <= 9999 -> re_Y (four_digits y r) = [(y, r)].
Proof.
  intros H. unfold re_Y, four_digits.
  destruct (digit_char_value (y / 1000)) as [a1 a2];
    [Z.div_mod_to_equations; lia|].
  destruct (digit_char_value (y / 100 mod 10)) as [b1 b2];
    [Z.div_mod_to_equations; lia|].
  destruct (digit_char_value (y / 10 mod 10)) as [c1 c2];
    [Z.div_mod_to_equations; lia|].
  destruct (digit_char_value (y mod 10)) as [d1 d2];
    [Z.div_mod_to_equations; lia|].
  rewrite a1, a2, b1, b2, c1, c2, d1, d2. cbn [andb].
  do 2 f_equal. Z.div_mod_to_equations. lia.
Qed.

Lemma re_d_two_digits d r :
  1 <= d <= 31 ->
  re_d (two_digits d r)
  = if d <? 10 then [(d, r)]
    else [(d, r); (d / 10, String (digit_char (d mod 10)) r)].
Proof. intros H. enumerate d 1 31; reflexivity. Qed.

Lemma digit_char_not_hyphen n :
  0 <= n <= 59 -> Ascii.eqb "-" (digit_char (n mod 10)) = false.
Proof. intros H. enumerate n 0 59; reflexivity. Qed.

Lemma days_in_month_le y m : days_in_month y m <= 31.
Proof.
  unfold days_in_month. destruct ((m =? 2) && is_leap y); [lia|].
  destruct (Z.to_nat m) as [|[|[|[|[|[|[|[|[|[|[|[|[|[|k]]]]]]]]]]]]]]; cbn; lia.
Qed.

Lemma strftime_Ymd_parsed d :
  1000 <= d_year d <= 9999 -> 1 <= d_month d <= 12 ->
  1 <= d_day d <= days_in_month (d_year d) (d_month d) ->
  strptime (strftime_Ymd d) "%Y-%m-%d" = Ok (mkdatetime d (mktime 0 0 0)).
Proof.
  destruct d as [y m dd]. cbn [d_year d_month d_day]. intros Hy Hm Hd.
  pose proof (days_in_month_le y m) as Hle.
  assert (Hd' : 1 <= dd <= 31) by lia.
  rewrite strptime_run.
  change (tokens "%Y-%m-%d")
    with [Directive "Y"; Literal "-"; Directive "m"; Literal "-"; Directive "d"].
  unfold strftime_Ymd. cbn [d_year d_month d_day].
  rewrite (run_directive "Y" re_Y) by reflexivity.
  rewrite re_Y_four_digits by lia. cbn [flat_map]. rewrite app_nil_r.
  rewrite run_literal. change (Ascii.eqb "-" "-") with true. cbn iota.
  rewrite (run_directive "m" re_m) by reflexivity.
  unfold re_m. rewrite re_I_two_digits by exact Hm.
  assert (Hrest : run [Literal "-"; Directive "d"]
                    (String "-" (two_digits dd EmptyString))
                  = ([("d"%char, dd)], EmptyString)
                    :: (if dd <? 10 then []
                        else [([("d"%char, dd / 10)],
                               String (digit_char (dd mod 10)) EmptyString)])).
  { rewrite run_literal. change (Ascii.eqb "-" "-") with true. cbn iota.
    rewrite (run_directive "d" re_d) by reflexivity.
    rewrite re_d_two_digits by exact Hd'.
    destruct (dd <? 10); reflexivity. }
  assert (Hmiss : run [Literal "-"; Directive "d"]
                    (String (digit_char (m mod 10))
                       (String "-" (two_digits dd EmptyString))) = []).
  { rewrite run_literal, digit_char_not_hyphen by lia. reflexivity. }
  assert (Hnew : new_datetime y m dd 0 0 0
                 = Ok (mkdatetime (mkdate y m dd) (mktime 0 0 0))).
  { unfold new_datetime, new_date.
    rewrite !(proj2 (Z.leb_le _ _)) by lia. reflexivity. }
  destruct (m <? 10); cbn [flat_map]; rewrite Hrest, ?Hmiss;
    cbn [map app]; exact Hnew.
Qed.

Lemma parsed_obj_isoformat t :
  valid_time t ->
  exists d, parsed_obj (Some (isoformat t)) = Some d /\ dt_time d = t.
Proof.
  intros Hv. pose proof (isoformat_parsed t Hv) as H.
  unfold parse_time_simple, parsed_obj in *.
  destruct (parse_time_obj (Some (isoformat t))) as [[d|]|e]; try discriminate.
  exists d. split; [reflexivity|]. cbn in H. congruence.
Qed.

Lemma digit_char_plain x :
  0 <= x <= 9 ->
  is_space (digit_char x) = false /\ cell_char (digit_char x) = true.
Proof. intros H. enumerate x 0 9; split; reflexivity. Qed.

Lemma two_digits_cell_chars n rest :
  0 <= n <= 99 ->
  all_chars cell_char (two_digits n rest) = all_chars cell_char rest.
Proof.
  intros H. unfold two_digits. cbn [all_chars].
  destruct (digit_char_plain (n / 10)) as [_ ->]; [Z.div_mod_to_equations; lia|].
  destruct (digit_char_plain (n mod 10)) as [_ ->]; [Z.div_mod_to_equations; lia|].
  reflexivity.
Qed.

Lemma cell_chars_no_meridiem s : all_chars cell_char s = true -> has_meridiem s = false.
Proof.
  intros H. unfold has_meridiem.
  rewrite !contains_absent; [reflexivity| |];
    rewrite <- all_chars_upper; revert H; apply all_chars_impl;
    intros c; by_cases_on c.
Qed.

Lemma strptime_24_hour_chars data fmt d :
  fmt = "%H:%M:%S" \/ fmt = "%H:%M" ->
  strptime data fmt = Ok d -> all_chars time_char data = true.
Proof.
  intros Hfmt H. destruct (strptime_shape _ _ _ H) as (f & Hs & _ & _).
  destruct Hfmt as [-> | ->];
    (apply shape_plain in Hs; [|vm_compute; reflexivity]); apply Hs.
Qed.

Lemma all_chars_cons p c r : all_chars p (String c r) = p c && all_chars p r.
Proof. reflexivity. Qed.

Lemma cell_text h m s us :
  isoformat (mktime h m s) ++ String "." (six_digits us EmptyString)
  = two_digits h
      (String ":" (two_digits m
         (String ":" (two_digits s (String "." (six_digits us EmptyString)))))).
Proof. reflexivity. Qed.

(** A text with a fraction of a second is a time for no format. *)
Lemma fraction_not_parsed c :
  valid_cell c -> cell_microsecond c <> 0 ->
  parse_time_simple (Some (str_time_cell c)) = Ok None.
Proof.
  destruct c as [[h m s] us]. intros [(Hh & Hm & Hs) Hus] Hnz.
  cbn [cell_time cell_microsecond t_hour t_minute t_second] in *.
  unfold str_time_cell. cbn [cell_time cell_microsecond].
  destruct (Z.eqb_spec us 0) as [|_]; [contradiction|].
  rewrite cell_text.
  set (text := two_digits h _).
  assert (Hchars : all_chars cell_char text = true).
  { unfold text, six_digits.
    repeat first [ rewrite two_digits_cell_chars by (Z.div_mod_to_equations; lia)
                 | rewrite all_chars_cons ].
    reflexivity. }
  assert (Hdot : all_chars time_char text = false).
  { unfold text. rewrite <- cell_text, all_chars_app, all_chars_cons.
    change (time_char ".") with false. cbn [andb]. apply andb_false_r. }
  assert (Hstrip : strip text = text).
  { unfold strip, text. unfold two_digits at 1.
    rewrite lstrip_keeps
      by (apply digit_char_plain; Z.div_mod_to_equations; lia).
    unfold six_digits, two_digits.
    repeat (apply rstrip_keeps; [|discriminate]).
    apply rstrip_last. apply digit_char_plain. Z.div_mod_to_equations. lia. }
  assert (Hfail : forall fmt, In fmt formats -> strptime text fmt = Raise ValueError).
  { intros fmt Hin. destruct (strptime_cases text fmt) as [[d E]|E]; [|exact E].
    exfalso. cbn [formats In] in Hin.
    destruct Hin as [<-|[<-|[<-|[<-|[]]]]].
    - apply strptime_12_hour in E; [|auto].
      rewrite (cell_chars_no_meridiem _ Hchars) in E. discriminate.
    - apply strptime_12_hour in E; [|auto].
      rewrite (cell_chars_no_meridiem _ Hchars) in E. discriminate.
    - apply strptime_24_hour_chars in E; [|auto]. congruence.
    - apply strptime_24_hour_chars in E; [|auto]. congruence. }
  unfold parse_time_simple, parse_time_obj, py_str. rewrite Hstrip.
  cbn [formats first_format].
  rewrite !Hfail by (cbn [formats In]; auto 6). reflexivity.
Qed.

(** A cell with whole seconds: its text is read back as its time. *)
Lemma parsed_obj_time_cell c :
  valid_cell c ->
  if cell_microsecond c =? 0
  then exists d, parsed_obj (Some (str_time_cell c)) = Some d
                 /\ dt_time d = cell_time c
  else parse_time_simple (Some (str_time_cell c)) = Ok None.
Proof.
  intros Hv. destruct (Z.eqb_spec (cell_microsecond c) 0) as [Hz|Hnz].
  - unfold str_time_cell. rewrite Hz. cbn [Z.eqb].
    apply parsed_obj_isoformat. apply Hv.
  - apply fraction_not_parsed; assumption.
Qed.

(** X14.  A row whose cells hold a date and two times of day, turned into
    text as [parse_excel_file] does: the date text parses to the date; when
    both times have whole seconds the row gets working hours, the difference
    of the two times rounded to hundredths, or 0 when the punch-out is the
    earlier one; when a time has a fraction of a second its text matches no
    format and the row gets no working hours. *)
Theorem working_hours_of_time_cells d a b :
  1000 <= d_year d <= 9999 -> 1 <= d_month d <= 12 ->
  1 <= d_day d <= days_in_month (d_year d) (d_month d) ->
  valid_cell a -> valid_cell b ->
  let secs := seconds_of_day (cell_time b) - seconds_of_day (cell_time a) in
  strptime (strftime_Ymd d) "%Y-%m-%d" = Ok (mkdatetime d (mktime 0 0 0))
  /\ calculate_working_hours (Some (str_time_cell a)) (Some (str_time_cell b))
                             (strftime_Ymd d)
     = (if (cell_microsecond a =? 0) && (cell_microsecond b =? 0)
        then Some (if time_lt (cell_time b) (cell_time a) then Fin 0
                   else binary64 (inject_Z (hundredths secs) / inject_Z 100))
        else None)
  /\ Z.abs (36 * hundredths secs - secs) <= 18.
Proof.
  intros Hy Hm Hd Ha Hb secs.
  pose proof (strftime_Ymd_parsed d Hy Hm Hd) as Hdate.
  assert (Hr : -86400 < secs < 86400).
  { pose proof (seconds_of_day_range _ (proj1 Ha)).
    pose proof (seconds_of_day_range _ (proj1 Hb)). subst secs. lia. }
  split; [exact Hdate|]. split; [|apply (round_hours secs Hr)].
  pose proof (parsed_obj_time_cell a Ha) as Pa.
  pose proof (parsed_obj_time_cell b Hb) as Pb.
  destruct (cell_microsecond a =? 0).
  - destruct (cell_microsecond b =? 0); cbn [andb].
    + destruct Pa as (d1 & H1 & E1). destruct Pb as (d2 & H2 & E2).
      unfold secs. rewrite <- E1, <- E2.
      apply (proj1 (working_hours_of_times _ _ _ _ _ _ Hdate H1 H2)).
    + apply (working_hours_none _ _ _ _ Hdate). auto.
  - cbn [andb]. apply (working_hours_none _ _ _ _ Hdate). auto.
Qed.

Lemma working_hours_of_time_cells_witness :
  1000 <= d_year (mkdate 2024 2 29) <= 9999
  /\ 1 <= d_month (mkdate 2024 2 29) <= 12
  /\ 1 <= d_day (mkdate 2024 2 29)
     <= days_in_month (d_year (mkdate 2024 2 29)) (d_month (mkdate 2024 2 29))
  /\ valid_cell (mkcell (mktime 9 45 0) 0)
  /\ valid_cell (mkcell (mktime 18 0 30) 500000)
  /\ strptime (strftime_Ymd (mkdate 2024 2 29)) "%Y-%m-%d"
     = Ok (mkdatetime (mkdate 2024 2 29) (mktime 0 0 0))
  /\ calculate_working_hours (Some (str_time_cell (mkcell (mktime 9 45 0) 0)))
                             (Some (str_time_cell (mkcell (mktime 18 0 30) 500000)))
                             (strftime_Ymd (mkdate 2024 2 29))
     = None.
Proof.
  assert (H1 : 1000 <= d_year (mkdate 2024 2 29) <= 9999) by (cbn; lia).
  assert (H2 : 1 <= d_month (mkdate 2024 2 29) <= 12) by (cbn; lia).
  assert (H3 : 1 <= d_day (mkdate 2024 2 29)
               <= days_in_month (d_year (mkdate 2024 2 29))
                                (d_month (mkdate 2024 2 29)))
    by (vm_compute; split; discriminate).
  assert (H4 : valid_cell (mkcell (mktime 9 45 0) 0))
    by (unfold valid_cell, valid_time; cbn; lia).
  assert (H5 : valid_cell (mkcell (mktime 18 0 30) 500000))
    by (unfold valid_cell, valid_time; cbn; lia).
  repeat (split; [assumption|]).
  pose proof (working_hours_of_time_cells (mkdate 2024 2 29)
                (mkcell (mktime 9 45 0) 0) (mkcell (mktime 18 0 30) 500000)
                H1 H2 H3 H4 H5) as H.
  split; [exact (proj1 H)|exact (proj1 (proj2 H))].
Defined.

Example time_cell_texts :
  str_time_cell (mkcell (mktime 9 45 0) 0) = "09:45:00"
  /\ str_time_cell (mkcell (mktime 18 0 30) 500000) = "18:00:30.500000"
  /\ str_time_cell (mkcell (mktime 18 0 30) 5) = "18:00:30.000005"
  /\ calculate_working_hours (Some "09:45:00") (Some "18:00:30") "2024-02-29"
     = Some (binary64 (inject_Z 826 / inject_Z 100)).
Proof. repeat split; vm_compute; reflexivity. Qed.

(** X15.  A time of day written with the 24-hour clock reads back as itself:
    [HH:MM:SS], the text of a time cell, gives the time, and [HH:MM] gives the
    hour and the minute with second 0. *)
Theorem twenty_four_hour_text_reads_back t :
  valid_time t ->
  parse_time_simple (Some (isoformat t)) = Ok (Some t)
  /\ parse_time_simple (Some (strftime_HM t))
     = Ok (Some (mktime (t_hour t) (t_minute t) 0)).
Proof.
  intros Hv. split; [exact (isoformat_parsed t Hv)|].
  destruct t as [h m s]. destruct Hv as (Hh & Hm & _).
  apply (strftime_HM_parsed (mktime h m 0)); [|reflexivity].
  unfold valid_time. cbn in *. lia.
Qed.

Lemma twenty_four_hour_text_reads_back_witness :
  valid_time (mktime 23 5 59)
  /\ parse_time_simple (Some (isoformat (mktime 23 5 59)))
     = Ok (Some (mktime 23 5 59))
  /\ parse_time_simple (Some (strftime_HM (mktime 23 5 59)))
     = Ok (Some (mktime (t_hour (mktime 23 5 59)) (t_minute (mktime 23 5 59)) 0)).
Proof.
  assert (H : valid_time (mktime 23 5 59)) by (unfold valid_time; cbn; lia).
  split; [exact H|].
  exact (twenty_four_hour_text_reads_back (mktime 23 5 59) H).
Defined.

(** X16.  A time of day written with the 12-hour clock, [hh:MM AM] or
    [hh:MM PM], reads back as the hour and the minute it stands for: 12 AM is
    hour 0 and 12 PM is hour 12. *)
Theorem twelve_hour_text_reads_back t :
  valid_time t ->
  parse_time_simple (Some (strftime_IMp t))
  = Ok (Some (mktime (t_hour t) (t_minute t) 0)).
Proof.
  intros Hv. destruct t as [h m s]. destruct Hv as (Hh & Hm & _).
  apply (strftime_IMp_parsed (mktime h m 0)); [|reflexivity].
  unfold valid_time. cbn in *. lia.
Qed.

Lemma twelve_hour_text_reads_back_witness :
  valid_time (mktime 0 7 0)
  /\ parse_time_simple (Some (strftime_IMp (mktime 0 7 0)))
     = Ok (Some (mktime (t_hour (mktime 0 7 0)) (t_minute (mktime 0 7 0)) 0)).
Proof.
  assert (H : valid_time (mktime 0 7 0)) by (unfold valid_time; cbn; lia).
  split; [exact H|].
  exact (twelve_hour_text_reads_back (mktime 0 7 0) H).
Defined.

(** ** Settings saved by [data_settings] *)

Lemma digit_passes c :
  is_digit c = true ->
  is_float_space c = false /\ Ascii.eqb c "_" = false
  /\ is_letter "i" c = false /\ is_letter "n" c = false
  /\ forall r, take_sign (String c r) = (1, String c r).
Proof.
  destruct c as [[] [] [] [] [] [] [] []]; vm_compute; intros H;
    try discriminate H; repeat split.
Qed.

Lemma uint_digits d : all_chars is_digit (NilEmpty.string_of_uint d) = true.
Proof.
  induction d; cbn [NilEmpty.string_of_uint all_chars]; rewrite ?IHd;
    reflexivity.
Qed.

Lemma take_digits_acc d : forall acc k,
  take_digits (NilEmpty.string_of_uint d) (Z.pos acc) k
  = (Z.pos (Pos.of_uint_acc d acc), k + Z.of_nat (Decimal.nb_digits d), EmptyString).
Proof.
  induction d; intros acc k;
    cbn [NilEmpty.string_of_uint take_digits Pos.of_uint_acc Decimal.nb_digits];
    [f_equal; f_equal; lia| ..];
    change (is_digit _) with true; cbn iota;
    match goal with
    | |- take_digits _ ?a ?n = _ =>
        match goal with
        | |- _ = (Z.pos (Pos.of_uint_acc _ ?p), _, _) =>
            replace a with (Z.pos p) by (vm_compute digit_value; lia)
        end
    end;
    rewrite IHd; f_equal; f_equal; lia.
Qed.

Lemma take_digits_uint d : forall k,
  take_digits (NilEmpty.string_of_uint d) 0 k
  = (Z.of_uint d, k + Z.of_nat (Decimal.nb_digits d), EmptyString).
Proof.
  unfold Z.of_uint.
  induction d; intros k;
    cbn [NilEmpty.string_of_uint take_digits Pos.of_uint Decimal.nb_digits];
    [f_equal; f_equal; lia| ..];
    change (is_digit _) with true; cbn iota.
  1: { change (10 * 0 + digit_value "0") with 0. rewrite IHd. f_equal. f_equal. lia. }
  all: match goal with
       | |- take_digits _ ?a ?n = _ =>
           let v := eval vm_compute in a in change a with v
       end;
    rewrite take_digits_acc; cbn [Z.of_N]; f_equal; f_equal; lia.
Qed.

Lemma float_lstrip_digits s :
  all_chars is_digit s = true -> float_lstrip s = s.
Proof.
  destruct s as [|c r]; [reflexivity|]. cbn [all_chars float_lstrip].
  intros H. apply andb_true_iff in H as [H _].
  destruct (digit_passes c H) as (-> & _). reflexivity.
Qed.

Lemma float_rstrip_digits s :
  all_chars is_digit s = true -> float_rstrip s = s.
Proof.
  induction s as [|c r IH]; [reflexivity|]. cbn [all_chars float_rstrip].
  intros H. apply andb_true_iff in H as [H1 H2]. rewrite (IH H2).
  destruct (digit_passes c H1) as (-> & _). destruct r; reflexivity.
Qed.

Lemma drop_underscores_digits s : forall prev,
  Ascii.eqb prev "_" = false ->
  all_chars is_digit s = true -> drop_underscores prev s = Some s.
Proof.
  induction s as [|c r IH]; intros prev Hp; cbn [all_chars drop_underscores].
  - rewrite Hp. reflexivity.
  - intros H. apply andb_true_iff in H as [H1 H2].
    destruct (digit_passes c H1) as (_ & Hc & _). rewrite Hc, Hp. cbn [andb].
    rewrite (IH c Hc H2). reflexivity.
Qed.

Lemma parse_decimal_uint d :
  d <> Decimal.Nil ->
  parse_decimal (NilEmpty.string_of_uint d)
  = Some (inject_Z (Z.of_uint d) * pow10 (- 0))%Q.
Proof.
  intros Hd. unfold parse_decimal. rewrite take_digits_uint.
  assert (Hn : 0 < Z.of_nat (Decimal.nb_digits d))
    by (destruct d; cbn; try lia; congruence).
  destruct (Z.eqb_spec (0 + Z.of_nat (Decimal.nb_digits d) + 0) 0); [lia|].
  reflexivity.
Qed.

Lemma float_of_string_uint d sg :
  d <> Decimal.Nil -> (Z.of_uint d < 2 ^ 53) ->
  sg = 1 \/ sg = -1 ->
  float_of_string
    ((if sg =? 1 then EmptyString else "-") ++ NilEmpty.string_of_uint d)
  = Ok (Fin (inject_Z (sg * Z.of_uint d))).
Proof.
  intros Hd Hb Hsg. pose proof (uint_digits d) as Hall.
  assert (Hnn : 0 <= Z.of_uint d) by (unfold Z.of_uint; lia).
  set (s := NilEmpty.string_of_uint d) in *.
  assert (Hs : exists c r, s = String c r /\ is_digit c = true).
  { destruct d; try congruence; cbn in *; eauto. }
  destruct Hs as (c & r & Hs & Hc).
  destruct (digit_passes c Hc) as (Hsp & Hu & Hi & Hn & Hts).
  assert (Hfinal : forall u, u = s ->
            (if lower_is "inf" u || lower_is "infinity" u
             then Ok (if sg <? 0 then NInf else PInf)
             else if lower_is "nan" u then Ok NaN
             else match parse_decimal u with
                  | Some q => Ok (binary64 (inject_Z sg * q))
                  | None => Raise ValueError
                  end) = Ok (Fin (inject_Z (sg * Z.of_uint d)))).
  { intros u ->. rewrite Hs. cbn [lower_is]. rewrite Hi, Hn. cbn [andb orb].
    rewrite <- Hs. unfold s. rewrite (parse_decimal_uint d Hd). f_equal.
    apply binary64_integer; [destruct Hsg; subst sg; lia|].
    change (pow10 (- 0)) with 1%Q. rewrite inject_Z_mult. ring. }
  unfold float_of_string.
  destruct Hsg as [-> | ->]; cbn [Z.eqb Pos.eqb].
  - change (EmptyString ++ s) with s.
    rewrite float_lstrip_digits, float_rstrip_digits by exact Hall.
    rewrite drop_underscores_digits by (auto; reflexivity).
    rewrite Hs at 1. rewrite Hts. rewrite <- Hs. apply Hfinal. reflexivity.
  - change ("-" ++ s) with (String "-" s).
    cbn [float_lstrip]. change (is_float_space "-") with false. cbn iota.
    cbn [float_rstrip]. rewrite float_rstrip_digits by exact Hall.
    rewrite Hs. cbn iota. rewrite <- Hs.
    cbn [drop_underscores].
    change (Ascii.eqb "-" "_") with false. change (Ascii.eqb " " "_") with false.
    cbn [andb].
    rewrite drop_underscores_digits by (auto; reflexivity).
    cbn [fmap option_fmap option_map take_sign]. apply Hfinal. reflexivity.
Qed.

(** [float(str(n))] is [float(n)]. *)
Lemma float_of_string_str_of_int n :
  Z.abs n < 2 ^ 53 -> float_of_string (str_of_int n) = Ok (Fin (inject_Z n)).
Proof.
  intros Hn. unfold str_of_int. pose proof (DecimalZ.of_to n) as Hof.
  destruct n as [|p|p]; cbn [Z.to_int NilZero.string_of_int] in *.
  - vm_compute. reflexivity.
  - pose proof (DecimalPos.Unsigned.to_uint_nonnil p) as Hd.
    cbn [Z.of_int] in Hof.
    replace (NilZero.string_of_uint (Pos.to_uint p))
      with ((if 1 =? 1 then EmptyString else "-")
            ++ NilEmpty.string_of_uint (Pos.to_uint p))
      by (destruct (Pos.to_uint p); [congruence|reflexivity..]).
    rewrite float_of_string_uint; [rewrite Hof; reflexivity|exact Hd|lia|auto].
  - pose proof (DecimalPos.Unsigned.to_uint_nonnil p) as Hd.
    cbn [Z.of_int] in Hof.
    replace (String "-" (NilZero.string_of_uint (Pos.to_uint p)))
      with ((if -1 =? 1 then EmptyString else "-")
            ++ NilEmpty.string_of_uint (Pos.to_uint p))
      by (destruct (Pos.to_uint p); [congruence|reflexivity..]).
    rewrite float_of_string_uint; [f_equal; f_equal; f_equal; lia|exact Hd|lia|auto].
Qed.

Lemma data_settings_post_app data k v table :
  data_settings_post (data ++ [(k, v)]) table
  = <[k := str_value v]> (data_settings_post data table).
Proof. unfold data_settings_post. rewrite fold_left_app. reflexivity. Qed.

Lemma data_settings_post_lookup data table k :
  data_settings_post data table !! k
  = match find (fun '(k', _) => String.eqb k' k) (rev data) with
    | Some (_, v) => Some (str_value v)
    | None => table !! k
    end.
Proof.
  induction data as [|[k' v'] data IH] using rev_ind; [reflexivity|].
  rewrite data_settings_post_app, rev_app_distr. cbn [rev app find].
  destruct (String.eqb_spec k' k) as [->|Hne].
  - apply lookup_insert_eq.
  - rewrite lookup_insert_ne by exact Hne. exact IH.
Qed.

Lemma dict_of_rows_absent rows k :
  ~ In k (map fst rows) -> dict_of_rows rows !! k = None.
Proof.
  induction rows as [|[k' v'] rows IH] using rev_ind; [reflexivity|].
  rewrite map_app, dict_of_rows_app. cbn [map fst]. intros Hin.
  rewrite lookup_insert_ne.
  - apply IH. intros H. apply Hin. apply in_or_app. left. exact H.
  - intros ->. apply Hin. apply in_or_app. right. left. reflexivity.
Qed.

(** [get_settings] on a table: the stored text, or the default. *)
Lemma get_settings_fetchall table k :
  get_settings (Some (fetchall table)) !! k
  = match table !! k with
    | Some s => Some (SStr s)
    | None => default_settings !! k
    end.
Proof.
  unfold get_settings, fetchall.
  destruct (table !! k) as [s|] eqn:E.
  - apply lookup_union_Some_l. apply dict_of_rows_lookup.
    + pose proof (NoDup_fst_map_to_list table) as H.
      replace ((map_to_list table).*1) with (map fst (map_to_list table)) in H;
        [exact H|].
      clear H. induction (map_to_list table) as [|x l IH]; [reflexivity|].
      cbn [map]. rewrite IH. reflexivity.
    + apply list_elem_of_In. apply elem_of_map_to_list. exact E.
  - rewrite lookup_union_r; [reflexivity|]. apply dict_of_rows_absent.
    intros Hin. apply in_map_iff in Hin. destruct Hin as ([k' s] & Hk & Hin).
    cbn in Hk. subst k'. apply list_elem_of_In, elem_of_map_to_list in Hin.
    congruence.
Qed.

(** X17.  What the settings route saves is what [get_settings] reads: after
    a POST, each posted key has the text [str(value)] of its value, whatever
    the table held; and a posted whole number (below 2^53 in absolute value)
    converts back to itself, so [float] of the saved break limit is the limit
    that was posted. *)
Theorem saved_settings_read_back data table k v :
  NoDup (map fst data) -> In (k, v) data ->
  let settings := get_settings (Some (fetchall (data_settings_post data table))) in
  (forall default, settings_get settings k default = SStr (str_value v))
  /\ (forall n default,
        v = SInt n -> Z.abs n < 2 ^ 53 ->
        py_float (settings_get settings k default) = Ok (Fin (inject_Z n))).
Proof.
  intros Hnd Hin settings.
  assert (H : settings !! k = Some (SStr (str_value v))).
  { unfold settings. rewrite get_settings_fetchall, data_settings_post_lookup.
    assert (Hf : find (fun '(k', _) => String.eqb k' k) (rev data) = Some (k, v)).
    { clear settings table.
      induction data as [|[k' v'] data IH] using rev_ind; [destruct Hin|].
      rewrite rev_app_distr. cbn [rev app find].
      rewrite map_app in Hnd. apply NoDup_app in Hnd as (Hnd & Hdisj & _).
      apply in_app_or in Hin. destruct Hin as [Hin|[[= -> ->]|[]]].
      - destruct (String.eqb_spec k' k) as [->|Hne]; [|apply IH; assumption].
        exfalso. apply (Hdisj k).
        + apply list_elem_of_In. apply in_map_iff. exists (k, v). auto.
        + apply list_elem_of_In. left. reflexivity.
      - rewrite String.eqb_refl. reflexivity. }
    rewrite Hf. reflexivity. }
  assert (Hget : forall default, settings_get settings k default = SStr (str_value v)).
  { intros default. unfold settings_get. rewrite H. reflexivity. }
  split; [exact Hget|].
  intros n default -> Hn. rewrite Hget. cbn [str_value py_float].
  apply float_of_string_str_of_int. exact Hn.
Qed.

Lemma saved_settings_read_back_witness :
  NoDup (map fst [("max_break_duration", SInt 45); ("half_day_time", SStr "13:30")])
  /\ In ("max_break_duration", SInt 45)
        [("max_break_duration", SInt 45); ("half_day_time", SStr "13:30")]
  /\ (forall default,
        settings_get
          (get_settings
             (Some (fetchall
                      (data_settings_post
                         [("max_break_duration", SInt 45);
                          ("half_day_time", SStr "13:30")] ∅))))
          "max_break_duration" default
        = SStr (str_value (SInt 45)))
  /\ (forall n default,
        SInt 45 = SInt n -> Z.abs n < 2 ^ 53 ->
        py_float
          (settings_get
             (get_settings
                (Some (fetchall
                         (data_settings_post
                            [("max_break_duration", SInt 45);
                             ("half_day_time", SStr "13:30")] ∅))))
             "max_break_duration" default)
        = Ok (Fin (inject_Z n))).
Proof.
  assert (H1 : NoDup (map fst [("max_break_duration", SInt 45);
                               ("half_day_time", SStr "13:30")])).
  { cbn [map fst]. apply NoDup_cons_2; [|apply NoDup_cons_2; [|apply NoDup_nil_2]].
    - intros H. apply list_elem_of_In in H. destruct H as [H|[]]. discriminate H.
    - intros H. apply list_elem_of_In in H. destruct H. }
  assert (H2 : In ("max_break_duration", SInt 45)
                  [("max_break_duration", SInt 45); ("half_day_time", SStr "13:30")])
    by (left; reflexivity).
  split; [exact H1|]. split; [exact H2|].
  exact (saved_settings_read_back
           [("max_break_duration", SInt 45); ("half_day_time", SStr "13:30")]
           ∅ "max_break_duration" (SInt 45) H1 H2).
Defined.
